(** * PyMoDAQ data model: Axis, AxesManager, DataBase, DataWithAxes, DataToExport

    A shallow embedding of [src/pymodaq/utils/data.py].

    Conventions of the embedding.
    - Python [int]s are [Z]; numbers held by numpy arrays are binary64
      floats ([PrimFloat.float]), numpy's default dtype.  A Python [int]
      that meets a float is converted with [of_Z].
    - A 1-D [ndarray] is a [list float]; an n-D one is a [Np.ndarray]
      (shape and flat payload).
    - An attribute that can hold [None] is an [option].
    - A method that mutates [self] takes the object and returns the object
      after the call together with the value the call returns.
    - A raised exception is [Raise e]; the object state after a raise is
      not modelled.
    - [copy.deepcopy] is the identity on these immutable values.
    - Warnings, log messages, timestamps and the slicer helpers are left
      out. *)

From Stdlib Require Import ZArith List String Bool Lia Finite.
From Stdlib Require Import Floats.
Import ListNotations.

Local Open Scope Z_scope.

(** ** Exceptions and results *)

Inductive exn : Type :=
| TypeError
| ValueError
| IndexError
| DataShapeError.

Inductive result (A : Type) : Type :=
| Ok (a : A)
| Raise (e : exn).

Arguments Ok {A} a.
Arguments Raise {A} e.

Definition bind {A B : Type} (m : result A) (k : A -> result B) : result B :=
  match m with
  | Ok a => k a
  | Raise e => Raise e
  end.

Notation "x <- m ;; k" := (bind m (fun x => k))
  (at level 61, m at next level, right associativity).
Notation "' pat <- m ;; k" := (bind m (fun x => match x with pat => k end))
  (at level 61, pat pattern, m at next level, right associativity).

(** [len] of a Python sequence. *)
Definition len {A : Type} (l : list A) : Z := Z.of_nat (List.length l).

(** [seq[i]] for an index already known to be non-negative. *)
Definition getitem {A : Type} (l : list A) (i : Z) : result A :=
  match nth_error l (Z.to_nat i) with
  | Some a => Ok a
  | None => Raise IndexError
  end.

(** [x in l] on integers. *)
Definition Zmem (x : Z) (l : list Z) : bool := existsb (Z.eqb x) l.

(** [l.pop(l.index(x))] for an [x] known to be in [l]: drops the first
    occurrence. *)
Fixpoint remove_first (x : Z) (l : list Z) : list Z :=
  match l with
  | [] => []
  | y :: r => if Z.eqb x y then r else y :: remove_first x r
  end.

(** [copy.deepcopy]: the identity on immutable values; the copy shares
    nothing with the original. *)
Definition deepcopy {A : Type} (x : A) : A := x.

(** [range(n)]. *)
Definition range (n : Z) : list Z :=
  map Z.of_nat (seq 0 (Z.to_nat n)).

(** ** The numpy routines the module calls *)

Module Np.

(** Conversion of a Python int to a float: the binary64 nearest to the
    integer, ties to even, for an integer of any size (no wrap-around).
    Beyond the binary64 range the value is infinity here, where Python
    raises OverflowError. *)
Definition of_Z (z : Z) : float :=
  SF2Prim (binary_normalize prec emax z 0 false).

(** [np.linspace(0, nsteps-1, nsteps)]: the step is exactly 1, so the
    samples are 0., 1., ..., nsteps-1.; a negative sample count is a
    ValueError. *)
Definition linspace0 (nsteps : Z) : result (list float) :=
  if nsteps <? 0 then Raise ValueError
  else Ok (map of_Z (range nsteps)).

(** [np.diff] of a 1-D array. *)
Fixpoint diff (d : list float) : list float :=
  match d with
  | [] => []
  | x :: r =>
      match r with
      | [] => []
      | y :: _ => PrimFloat.sub y x :: diff r
      end
  end.

(** The plain loop [res += a[i]] over a run of elements. *)
Definition seq_sum (init : float) (d : list float) : float :=
  fold_left PrimFloat.add d init.

(** The eight accumulators of numpy's unrolled summation loop. *)
Record acc8 : Type := mk_acc8 {
  r0 : float; r1 : float; r2 : float; r3 : float;
  r4 : float; r5 : float; r6 : float; r7 : float
}.

(** The unrolled loop: as long as eight elements are left, element [j]
    of the block is added to accumulator [j].  Returns the accumulators
    and the elements left over (fewer than eight). *)
Fixpoint unrolled (r : acc8) (d : list float) : acc8 * list float :=
  match d with
  | a0 :: a1 :: a2 :: a3 :: a4 :: a5 :: a6 :: a7 :: tl =>
      unrolled
        (mk_acc8 (r0 r + a0) (r1 r + a1) (r2 r + a2) (r3 r + a3)
                 (r4 r + a4) (r5 r + a5) (r6 r + a6) (r7 r + a7))%float
        tl
  | _ => (r, d)
  end.

(** The sum of a block of at most [PW_BLOCKSIZE] elements: fewer than
    eight elements are added one by one from 0; otherwise the first eight
    start the accumulators, the unrolled loop runs, the accumulators are
    added as a balanced tree and the elements left over are added one by
    one. *)
Definition block_sum (d : list float) : float :=
  match d with
  | a0 :: a1 :: a2 :: a3 :: a4 :: a5 :: a6 :: a7 :: tl =>
      let '(r, rest) := unrolled (mk_acc8 a0 a1 a2 a3 a4 a5 a6 a7) tl in
      seq_sum (((r0 r + r1 r) + (r2 r + r3 r))
               + ((r4 r + r5 r) + (r6 r + r7 r)))%float rest
  | _ => seq_sum PrimFloat.zero d
  end.

Definition PW_BLOCKSIZE : Z := 128.

(** numpy's pairwise summation of a contiguous float64 array: a block of
    at most [PW_BLOCKSIZE] elements is summed by [block_sum]; a longer
    array is cut at half its length rounded down to a multiple of eight
    and the sums of the two parts are added.  [fuel] bounds the depth of
    the cuts; the length of the array is always enough (lemma
    [pairwise_sum_fuel]). *)
Fixpoint pairwise_sum (fuel : nat) (d : list float) : float :=
  if len d <=? PW_BLOCKSIZE then block_sum d
  else
    match fuel with
    | O => block_sum d
    | S fuel' =>
        let n2 := len d / 2 in
        let n2 := Z.to_nat (n2 - n2 mod 8) in
        PrimFloat.add (pairwise_sum fuel' (firstn n2 d))
                      (pairwise_sum fuel' (skipn n2 d))
    end.

(** [np.add.reduce] of a 1-D float64 array: the reduction starts from
    the identity 0. of the addition, to which the pairwise sum of the
    elements is added. *)
Definition sum (d : list float) : float :=
  PrimFloat.add PrimFloat.zero (pairwise_sum (List.length d) d).

(** [np.mean]: sum over count; the empty array gives 0/0 = nan. *)
Definition mean (d : list float) : float :=
  PrimFloat.div (sum d) (of_Z (len d)).

(** [np.min] / [np.max]: a nan in the array is propagated; the empty
    array is a ValueError. *)
Definition fmin (a x : float) : float :=
  if PrimFloat.is_nan a then a
  else if PrimFloat.is_nan x then x
  else if PrimFloat.ltb x a then x else a.

Definition fmax (a x : float) : float :=
  if PrimFloat.is_nan a then a
  else if PrimFloat.is_nan x then x
  else if PrimFloat.ltb a x then x else a.

Definition min (d : list float) : result float :=
  match d with
  | [] => Raise ValueError
  | x :: r => Ok (fold_left fmin r x)
  end.

Definition max (d : list float) : result float :=
  match d with
  | [] => Raise ValueError
  | x :: r => Ok (fold_left fmax r x)
  end.

(** Default tolerances of [np.isclose]: rtol = 1e-5, atol = 1e-8 (the
    binary64 values nearest to these decimals). *)
Definition rtol : float := 0x1.4f8b588e368f1p-17%float.
Definition atol : float := 0x1.5798ee2308c3ap-27%float.

(** [np.isclose(x, y)] on scalars: [|x - y| <= atol + rtol * |y|] when
    both are finite, plain equality otherwise (so nan is close to
    nothing). *)
Definition isclose (x y : float) : bool :=
  if PrimFloat.is_finite x && PrimFloat.is_finite y then
    PrimFloat.leb (PrimFloat.abs (PrimFloat.sub x y))
                  (PrimFloat.add atol (PrimFloat.mul rtol (PrimFloat.abs y)))
  else PrimFloat.eqb x y.

(** [np.allclose(a, m)] of an array against a scalar. *)
Definition allclose_scalar (a : list float) (m : float) : bool :=
  forallb (fun x => isclose x m) a.

(** An n-dimensional array: its shape and its elements in row-major
    order. *)
Record ndarray : Type := mk_ndarray {
  shape : list Z;
  flat : list float
}.

(** [a.size]: the product of the shape. *)
Definition size (a : ndarray) : Z :=
  fold_left Z.mul (shape a) 1.

Definition shape_eqb (s1 s2 : list Z) : bool :=
  if list_eq_dec Z.eq_dec s1 s2 then true else false.

(** [np.zeros(shape)]. *)
Definition zeros (sh : list Z) : ndarray :=
  mk_ndarray sh (repeat PrimFloat.zero (Z.to_nat (fold_left Z.mul sh 1))).

(** [np.allclose(a, b)] of two arrays of one shape. *)
Fixpoint allclose_flat (a b : list float) : bool :=
  match a, b with
  | x :: a', y :: b' => isclose x y && allclose_flat a' b'
  | _, _ => true
  end.

Fixpoint map2 (f : float -> float -> float) (a b : list float) : list float :=
  match a, b with
  | x :: a', y :: b' => f x y :: map2 f a' b'
  | _, _ => []
  end.

(** [np.allclose(a, b)] of two 1-D arrays: arrays of one length are
    compared element by element, a one-element array is broadcast against
    the other, and any other pair of lengths is a ValueError. *)
Definition allclose (a b : list float) : result bool :=
  if len a =? len b then Ok (allclose_flat a b)
  else
    match a, b with
    | [x], _ => Ok (forallb (fun y => isclose x y) b)
    | _, [y] => Ok (forallb (fun x => isclose x y) a)
    | _, _ => Raise ValueError
    end.

End Np.

(** ** Operands of the arithmetic dunder methods *)

(** The values [Axis.__mul__] and [Axis.__add__] can be handed.
    [PyReal] stands for every instance of [numbers.Real] (int, bool,
    float, numpy's real scalars); the others are not real numbers. *)
Inductive pyval : Type :=
| PyReal (r : float)
| PyComplex (re im : float)
| PyStr (s : string)
| PyNone
| PyArray (a : list float)
| PyObject.

(** [isinstance(v, numbers.Real)], giving the number when it holds. *)
Definition as_Real (v : pyval) : option float :=
  match v with
  | PyReal r => Some r
  | _ => None
  end.

(** ** Python slices and [len] *)

(** The builtin [len(obj)] on an object whose [__len__] returns [n]: a
    negative length is a ValueError. *)
Definition builtin_len (n : Z) : result Z :=
  if n <? 0 then Raise ValueError else Ok n.

(** A [slice] object: each of start, stop and step may be [None]. *)
Record pyslice : Type := mk_slice {
  slice_start : option Z;
  slice_stop : option Z;
  slice_step : option Z
}.

(** What an axis can be indexed with. *)
Inductive slice_arg : Type :=
| SInt (i : Z)
| SSlice (s : pyslice)
| SOther.

(** A bound of a slice brought into the sequence: negative bounds count
    from the end, and both ends are clamped. *)
Definition adjust_bound (v length step : Z) : Z :=
  if v <? 0 then
    let v := v + length in
    if v <? 0 then (if step <? 0 then -1 else 0) else v
  else if v >=? length then (if step <? 0 then length - 1 else length)
  else v.

(** [slice.indices(length)]: the effective start, stop and step; a zero
    step is a ValueError. *)
Definition slice_indices (s : pyslice) (length : Z) : result (Z * Z * Z) :=
  let step := match slice_step s with None => 1 | Some v => v end in
  if step =? 0 then Raise ValueError
  else
    let start :=
      match slice_start s with
      | None => if step <? 0 then length - 1 else 0
      | Some v => adjust_bound v length step
      end in
    let stop :=
      match slice_stop s with
      | None => if step <? 0 then -1 else length
      | Some v => adjust_bound v length step
      end in
    Ok (start, stop, step).

(** The number of elements a slice selects. *)
Definition slice_length (start stop step : Z) : Z :=
  if step <? 0 then
    if stop <? start then (start - stop - 1) / (- step) + 1 else 0
  else
    if start <? stop then (stop - start - 1) / step + 1 else 0.

(** [seq[s]] for a slice [s], on a list or a 1-D array. *)
Definition getslice {A : Type} (l : list A) (s : pyslice) : result (list A) :=
  '(start, stop, step) <- slice_indices s (len l) ;;
  Ok (flat_map
        (fun i => match nth_error l (Z.to_nat (start + i * step)) with
                  | Some x => [x]
                  | None => []
                  end)
        (range (slice_length start stop step))).

(** The character [/] (code 47). *)
Definition slash : Ascii.ascii := Ascii.ascii_of_nat 47.

(** ** class Axis *)

Module Axis.

Record t : Type := mk {
  _label : string;
  _units : string;
  _data : option (list float);
  _index : Z;
  _scaling : option float;
  _offset : option float;
  _size : Z
}.

Definition with_data (self : t) (d : option (list float)) : t :=
  mk (_label self) (_units self) d (_index self) (_scaling self)
     (_offset self) (_size self).
Definition with_size (self : t) (n : Z) : t :=
  mk (_label self) (_units self) (_data self) (_index self) (_scaling self)
     (_offset self) n.
Definition with_scaling (self : t) (s : option float) : t :=
  mk (_label self) (_units self) (_data self) (_index self) s
     (_offset self) (_size self).
Definition with_offset (self : t) (o : option float) : t :=
  mk (_label self) (_units self) (_data self) (_index self) (_scaling self)
     o (_size self).
Definition with_index (self : t) (i : Z) : t :=
  mk (_label self) (_units self) (_data self) i (_scaling self)
     (_offset self) (_size self).

(** Property getters. *)
Definition data (self : t) := _data self.
Definition index (self : t) := _index self.
Definition scaling (self : t) := _scaling self.
Definition offset (self : t) := _offset self.
Definition size (self : t) := _size self.

(** [data] setter.  [_check_data_valid] cannot fail here: a
    [list float] is a 1-D ndarray. *)
Definition set_data (self : t) (d : option (list float)) : t :=
  match d with
  | Some a => with_data (with_size self (len a)) (Some a)
  | None => with_data (with_size self 0) None
  end.

(** [size] setter: honoured only when no explicit data is stored. *)
Definition set_size (self : t) (n : Z) : t :=
  match _data self with
  | None => with_size self n
  | Some _ => self
  end.

Definition set_scaling (self : t) (s : float) : t := with_scaling self (Some s).
Definition set_offset (self : t) (o : float) : t := with_offset self (Some o).

(** [_check_index_valid]. *)
Definition _check_index_valid (ind : Z) : result unit :=
  if ind <? 0 then Raise ValueError else Ok tt.

(** [index] setter. *)
Definition set_index (self : t) (ind : Z) : result t :=
  _ <- _check_index_valid ind ;;
  Ok (with_index self ind).

(** [offset + scaling * samples].  A [None] offset or scaling is a
    TypeError as soon as there is a sample to combine it with; over an
    empty array numpy has nothing to compute and gives an empty array. *)
Definition affine (o s : option float) (samples : list float)
  : result (list float) :=
  match samples with
  | [] => Ok []
  | _ :: _ =>
      match s with
      | None => Raise TypeError
      | Some sv =>
          match o with
          | None => Raise TypeError
          | Some ov =>
              Ok (map (fun x => PrimFloat.add ov (PrimFloat.mul sv x)) samples)
          end
      end
  end.

(** [create_linear_data]: assigns through the [data] setter and has no
    return statement, so the call evaluates to None. *)
Definition create_linear_data (self : t) (nsteps : Z)
  : result (t * option (list float)) :=
  samples <- Np.linspace0 nsteps ;;
  d <- affine (_offset self) (_scaling self) samples ;;
  Ok (set_data self (Some d), None).

(** [get_data]. *)
Definition get_data (self : t) : result (t * option (list float)) :=
  match _data self with
  | Some d => Ok (self, Some d)
  | None => create_linear_data self (size self)
  end.

(** [is_axis_linear]. *)
Definition is_axis_linear (self : t) (d : option (list float)) : bool :=
  let d := match d with None => _data self | Some _ => d end in
  match d with
  | Some a => Np.allclose_scalar (Np.diff a) (Np.mean (Np.diff a))
  | None => false
  end.

(** [get_scale_offset_from_data]. *)
Definition get_scale_offset_from_data (self : t) (d : option (list float))
  : result t :=
  let d := match d, _data self with
           | None, Some a => Some a
           | _, _ => d
           end in
  if is_axis_linear self d then
    match d with
    | Some a =>
        o <- getitem a 0 ;;
        Ok (with_data
              (with_offset (with_scaling self (Some (Np.mean (Np.diff a))))
                           (Some o))
              None)
    | None => Ok self
    end
  else Ok self.

(** [Axis.__init__].  Labels and units are strings by their type. *)
Definition __init__ (label units : string) (d : option (list float))
    (ind : Z) (scaling offset : option float) : result t :=
  let self := mk label units None 0 scaling offset 0 in
  let self := set_data self d in
  self <- set_index self ind ;;
  get_scale_offset_from_data self d.

(** [__mul__].  [ax] is a deep copy of [self], so [self.data] and
    [ax.data] hold the same array; only the copy is written to. *)
Definition __mul__ (self : t) (scale : pyval) : result (t * option t) :=
  match as_Real scale with
  | Some r =>
      let ax := deepcopy self in
      match data self with
      | Some a =>
          Ok (self, Some (set_data ax (Some (map (fun x => PrimFloat.mul x r) a))))
      | None =>
          match _offset ax with
          | None => Raise TypeError
          | Some o =>
              let ax := with_offset ax (Some (PrimFloat.mul o r)) in
              match _scaling ax with
              | None => Raise TypeError
              | Some s =>
                  Ok (self, Some (with_scaling ax (Some (PrimFloat.mul s r))))
              end
          end
      end
  | None => Ok (self, None)
  end.

(** [__add__]. *)
Definition __add__ (self : t) (offset : pyval) : result (t * option t) :=
  match as_Real offset with
  | Some r =>
      let ax := deepcopy self in
      match data self with
      | Some a =>
          Ok (self, Some (set_data ax (Some (map (fun x => PrimFloat.add x r) a))))
      | None =>
          match _offset ax with
          | None => Raise TypeError
          | Some o => Ok (self, Some (with_offset ax (Some (PrimFloat.add o r))))
          end
      end
  | None => Ok (self, None)
  end.

(** [mean]. *)
Definition mean (self : t) : result float :=
  match _data self with
  | Some d => Ok (Np.mean d)
  | None =>
      match offset self, scaling self with
      | Some o, Some s =>
          Ok (PrimFloat.add o
                (PrimFloat.mul (PrimFloat.div (Np.of_Z (size self)) 2%float) s))
      | _, _ => Raise TypeError
      end
  end.

(** [min]. *)
Definition min (self : t) : result float :=
  match _data self with
  | Some d => Np.min d
  | None =>
      match offset self, scaling self with
      | Some o, Some s =>
          Ok (PrimFloat.add o
                (if PrimFloat.ltb s 0%float
                 then PrimFloat.mul (Np.of_Z (size self)) s
                 else 0%float))
      | _, _ => Raise TypeError
      end
  end.

(** [max]. *)
Definition max (self : t) : result float :=
  match _data self with
  | Some d => Np.max d
  | None =>
      match offset self, scaling self with
      | Some o, Some s =>
          Ok (PrimFloat.add o
                (if PrimFloat.ltb 0%float s
                 then PrimFloat.mul (Np.of_Z (size self)) s
                 else 0%float))
      | _, _ => Raise TypeError
      end
  end.

(** The virtual sequence of a compact axis: [offset + scaling * i] for
    [i = 0 .. n-1]. *)
Definition linear_sequence (o s : float) (n : Z) : list float :=
  map (fun i => PrimFloat.add o (PrimFloat.mul s (Np.of_Z i))) (range n).

(** [__len__]. *)
Definition __len__ (self : t) : Z := size self.

(** [_slicer]: an integer collapses the axis (None); a slice cuts the
    explicit data, or moves the offset and sets the size of a compact axis
    from the slice's own start and stop; anything else falls through to
    None.  The copy is changed, [self] is not. *)
Definition _slicer (self : t) (_slice : slice_arg) : result (t * option t) :=
  let ax := deepcopy self in
  match _slice with
  | SInt _ => Ok (self, None)
  | SSlice s =>
      match _data ax with
      | Some d =>
          d' <- getslice d s ;;
          Ok (self, Some (set_data ax (Some d')))
      | None =>
          match slice_start s, scaling ax, offset ax with
          | Some start, Some sc, Some o =>
              let ax :=
                with_offset ax
                  (Some (PrimFloat.add o (PrimFloat.mul (Np.of_Z start) sc))) in
              match slice_stop s with
              | Some stop => Ok (self, Some (with_size ax (stop - start)))
              | None => Raise TypeError
              end
          | _, _, _ => Raise TypeError
          end
      end
  | SOther => Ok (self, None)
  end.

(** [x == y] for two attributes that are a float or None. *)
Definition opt_float_eqb (x y : option float) : bool :=
  match x, y with
  | Some a, Some b => PrimFloat.eqb a b
  | None, None => true
  | _, _ => false
  end.

(** [Axis.__eq__] against another Axis.  An [and] whose left side is
    already False does not evaluate its right side. *)
Definition __eq__ (self other : t) : result bool :=
  let eq := String.eqb (_label self) (_label other) in
  let eq := eq && String.eqb (_units self) (_units other) in
  let eq := eq && (index self =? index other) in
  match data self, data other with
  | Some a, Some b => if eq then Np.allclose a b else Ok false
  | _, _ =>
      let eq := eq && opt_float_eqb (offset self) (offset other) in
      let eq := eq && opt_float_eqb (scaling self) (scaling other) in
      Ok eq
  end.

End Axis.


(** ** class AxesManager *)

(** Warnings and log messages are not part of the state and are left out. *)

Module AxesManager.

Record t : Type := mk {
  _data_shape : list Z;
  _axes : list Axis.t;
  _nav_indexes : option (list Z);
  _sig_indexes : option (list Z)
}.

Definition with_axes (self : t) (axes : list Axis.t) : t :=
  mk (_data_shape self) axes (_nav_indexes self) (_sig_indexes self).
Definition with_nav_indexes (self : t) (nav : option (list Z)) : t :=
  mk (_data_shape self) (_axes self) nav (_sig_indexes self).
Definition with_sig_indexes (self : t) (sig : option (list Z)) : t :=
  mk (_data_shape self) (_axes self) (_nav_indexes self) sig.

(** Property getters. *)
Definition axes (self : t) := _axes self.
Definition nav_indexes (self : t) := _nav_indexes self.
Definition sig_indexes (self : t) := _sig_indexes self.

(** [get_shape_from_index].  The guard lets [index = len(shape)] through;
    the tuple access then raises the IndexError itself. *)
Definition get_shape_from_index (self : t) (index : Z) : result Z :=
  if (index >? len (_data_shape self)) || (index <? 0) then Raise IndexError
  else getitem (_data_shape self) index.

(** Body of the loop of [_check_axis] for one axis ([isinstance(axis,
    Axis)] holds by typing). *)
Definition check_one (self : t) (axis : Axis.t) : result Axis.t :=
  sz <- get_shape_from_index self (Axis.index axis) ;;
  if negb (sz =? Axis.size axis) then
    sz' <- get_shape_from_index self (Axis.index axis) ;;
    let axis := Axis.set_size axis sz' in
    let axis := Axis.set_scaling axis 1%float in
    let axis := Axis.set_offset axis 0%float in
    Ok axis
  else Ok axis.

Fixpoint check_loop (self : t) (axes : list Axis.t) : result (list Axis.t) :=
  match axes with
  | [] => Ok []
  | axis :: rest =>
      axis' <- check_one self axis ;;
      rest' <- check_loop self rest ;;
      Ok (axis' :: rest')
  end.

(** [_check_axis]: repairs the axes of the list it is given and makes that
    list the manager's axes. *)
Definition _check_axis (self : t) (axes : list Axis.t) : result t :=
  axes' <- check_loop self axes ;;
  Ok (with_axes self axes').

(** [get_axes_index]. *)
Definition get_axes_index (self : t) : list Z :=
  map Axis.index (_axes self).

(** [compute_sig_indexes]: iterating over a [None] [nav_indexes] is a
    TypeError. *)
Definition compute_sig_indexes (self : t) : result (list Z) :=
  match nav_indexes self with
  | None => Raise TypeError
  | Some nav =>
      Ok (fold_left
            (fun indexes index =>
               if Zmem index indexes then remove_first index indexes
               else indexes)
            nav (range (len (_data_shape self))))
  end.

(** [_has_get_axis_from_index]. *)
Definition _has_get_axis_from_index (self : t) (index : Z)
  : result (bool * option Axis.t) :=
  if (index >? len (_data_shape self)) || (index <? 0) then Raise IndexError
  else
    match find (fun axis => Axis.index axis =? index) (axes self) with
    | Some axis => Ok (true, Some axis)
    | None => Ok (false, None)
    end.

(** The validation loop of the [sig_indexes] setter: [Ok true] when the
    loop ends with [valid] still true. *)
Fixpoint sig_valid (self : t) (sig : list Z) : result bool :=
  match sig with
  | [] => Ok true
  | index :: rest =>
      match _nav_indexes self with
      | None => Raise TypeError
      | Some nav =>
          if Zmem index nav then Ok false
          else if negb (Zmem index (get_axes_index self)) then Ok false
          else sig_valid self rest
      end
  end.

(** [sig_indexes] setter.  The argument is [None] when the assigned value
    is not an Iterable. *)
Definition set_sig_indexes (self : t) (sig : option (list Z)) : result t :=
  match sig with
  | Some sig =>
      valid <- sig_valid self sig ;;
      if valid then Ok (with_sig_indexes self (Some sig)) else Ok self
  | None => Ok self
  end.

(** The validation loop of the [nav_indexes] setter. *)
Fixpoint nav_valid (self : t) (nav : list Z) : bool :=
  match nav with
  | [] => true
  | index :: rest =>
      if negb (Zmem index (get_axes_index self)) then false
      else nav_valid self rest
  end.

(** [nav_indexes] setter.  The argument is [None] when the assigned value
    is not an Iterable. *)
Definition set_nav_indexes (self : t) (nav : option (list Z)) : result t :=
  let self :=
    match nav with
    | Some nav =>
        if nav_valid self nav then with_nav_indexes self (Some nav) else self
    | None => self
    end in
  sig <- compute_sig_indexes self ;;
  set_sig_indexes self (Some sig).

(** The deprecated keyword arguments [x_axis], [y_axis], [nav_x_axis],
    [nav_y_axis]. *)
Record named_axes : Type := mk_named_axes {
  x_axis : option Axis.t;
  y_axis : option Axis.t;
  nav_x_axis : option Axis.t;
  nav_y_axis : option Axis.t
}.

Definition no_named_axes : named_axes := mk_named_axes None None None None.

(** [axes.append(Axis(a.label, a.units, a.data, index=index))] on the list
    that is also [self._axes]. *)
Definition append_rebuilt (self : t) (a : Axis.t) (index : Z) : result t :=
  ax <- Axis.__init__ (Axis._label a) (Axis._units a) (Axis.data a) index
          None None ;;
  Ok (with_axes self (_axes self ++ [ax])).

(** The four blocks of [_manage_named_axes].  The constructor calls the
    method with [self._axes] itself, so every append is seen through
    [self.axes]; each block takes the manager and the [modified] flag and
    gives them back. *)

(** [if x_axis is not None: ...] *)
Definition manage_x_axis (self : t) (xa : option Axis.t) : result (t * bool) :=
  let ndim := len (_data_shape self) in
  match xa with
  | Some xa =>
      index <-
        (if ndim =? 1 then
           '(has, _) <- _has_get_axis_from_index self 0 ;;
           if negb has then Ok 0 else Ok 0
         else if ndim =? 2 then
           '(has, _) <- _has_get_axis_from_index self 1 ;;
           if negb has then Ok 1 else Ok 0
         else Ok 0) ;;
      self <- append_rebuilt self xa index ;;
      Ok (self, true)
  | None => Ok (self, false)
  end.

(** [if y_axis is not None: ...] *)
Definition manage_y_axis (self : t) (modified : bool) (ya : option Axis.t)
  : result (t * bool) :=
  let ndim := len (_data_shape self) in
  match ya with
  | Some ya =>
      if ndim =? 2 then
        '(has, _) <- _has_get_axis_from_index self 0 ;;
        if negb has then
          self <- append_rebuilt self ya 0 ;;
          Ok (self, true)
        else Ok (self, modified)
      else Ok (self, modified)
  | None => Ok (self, modified)
  end.

(** [if nav_x_axis is not None: ...] with [k = 0], and
    [if nav_y_axis is not None: ...] with [k = 1]: the axis is appended
    when [len(self.nav_indexes) > k], tagged with [self._nav_indexes[k]]. *)
Definition manage_nav_axis (self : t) (modified : bool) (na : option Axis.t)
    (k : Z) : result (t * bool) :=
  match na with
  | Some na =>
      match nav_indexes self with
      | None => Raise TypeError
      | Some nav =>
          if len nav >? k then
            index <- getitem nav k ;;
            self <- append_rebuilt self na index ;;
            Ok (self, true)
          else Ok (self, modified)
      end
  | None => Ok (self, modified)
  end.

(** [_manage_named_axes]. *)
Definition _manage_named_axes (self : t) (kw : named_axes) : result t :=
  '(self, modified) <- manage_x_axis self (x_axis kw) ;;
  '(self, modified) <- manage_y_axis self modified (y_axis kw) ;;
  '(self, modified) <- manage_nav_axis self modified (nav_x_axis kw) 0 ;;
  '(self, modified) <- manage_nav_axis self modified (nav_y_axis kw) 1 ;;
  if modified then _check_axis self (_axes self) else Ok self.

(** [AxesManager.__init__]. *)
Definition __init__ (data_shape : list Z) (axes : list Axis.t)
    (nav_indexes sig_indexes : option (list Z)) (kw : named_axes)
  : result t :=
  let self := mk data_shape axes nav_indexes None in
  sig <- match sig_indexes with
         | Some s => Ok s
         | None => compute_sig_indexes self
         end ;;
  let self := with_sig_indexes self (Some sig) in
  self <- _check_axis self (_axes self) ;;
  _manage_named_axes self kw.

(** [axes] setter. *)
Definition set_axes (self : t) (axes : list Axis.t) : result t :=
  let self := with_axes self axes in
  _check_axis self (_axes self).

(** [append_axis]: appends to the current list, then [_check_axis([axis])]
    makes the one-element list the manager's axes. *)
Definition append_axis (self : t) (axis : Axis.t) : result t :=
  let self := with_axes self (_axes self ++ [axis]) in
  _check_axis self [axis].

(** [get_axis_from_index].  A missing axis is created from
    [Axis(data=np.zeros((1,)), index=index)] and [create_linear_data] of
    the size of the dimension. *)
Definition get_axis_from_index (self : t) (index : Z) (create : bool)
  : result (option Axis.t) :=
  '(has_axis, axis) <- _has_get_axis_from_index self index ;;
  if negb has_axis then
    if create then
      ax <- Axis.__init__ "" "" (Some [0%float]) index None None ;;
      n <- get_shape_from_index self index ;;
      '(ax, _) <- Axis.create_linear_data ax n ;;
      Ok (Some ax)
    else Ok axis
  else Ok axis.

(** [[copy.copy(self.get_axis_from_index(index, create=True)) for index in
    indexes]]. *)
Fixpoint get_axes_from_indexes (self : t) (indexes : list Z)
  : result (list (option Axis.t)) :=
  match indexes with
  | [] => Ok []
  | index :: rest =>
      ax <- get_axis_from_index self index true ;;
      axs <- get_axes_from_indexes self rest ;;
      Ok (ax :: axs)
  end.

(** [get_nav_axes]. *)
Definition get_nav_axes (self : t) : result (list (option Axis.t)) :=
  match nav_indexes self with
  | None => Raise TypeError
  | Some nav => get_axes_from_indexes self nav
  end.

(** [get_signal_axes]: a [None] [sig_indexes] is first replaced by the
    indices of the axes that are not navigation indices. *)
Definition get_signal_axes (self : t)
  : result (t * list (option Axis.t)) :=
  self <-
    match sig_indexes self with
    | None =>
        match nav_indexes self with
        | None =>
            match axes self with
            | [] => Ok (with_sig_indexes self (Some []))
            | _ :: _ => Raise TypeError
            end
        | Some nav =>
            Ok (with_sig_indexes self
                  (Some (filter (fun i => negb (Zmem i nav))
                           (map Axis.index (axes self)))))
        end
    | Some _ => Ok self
    end ;;
  match sig_indexes self with
  | None => Raise TypeError
  | Some sig =>
      axs <- get_axes_from_indexes self sig ;;
      Ok (self, axs)
  end.

(** The loop of [compute_shape_from_axes]: [len(...)] of the axis of each
    index. *)
Fixpoint shape_loop (self : t) (inds : list Z) : result (list Z) :=
  match inds with
  | [] => Ok []
  | ind :: rest =>
      ax <- get_axis_from_index self ind true ;;
      n <- match ax with
           | Some a => builtin_len (Axis.__len__ a)
           | None => Raise TypeError
           end ;;
      shape <- shape_loop self rest ;;
      Ok (n :: shape)
  end.

(** [compute_shape_from_axes]: one entry per axis held, not per
    dimension. *)
Definition compute_shape_from_axes (self : t) : result (list Z) :=
  if negb (len (axes self) =? 0) then
    shape_loop self (range (len (axes self)))
  else Ok (_data_shape self).

(** [shape] property: stores what [compute_shape_from_axes] gives as the
    new [_data_shape] and returns it. *)
Definition shape (self : t) : result (t * list Z) :=
  sh <- compute_shape_from_axes self ;;
  Ok (mk sh (_axes self) (_nav_indexes self) (_sig_indexes self), sh).

End AxesManager.


(** ** The enums *)

Inductive DataDim : Type := Data0D | Data1D | Data2D | DataND.
Inductive DataSource : Type := raw | calculated.
Inductive DataDistribution : Type := uniform | spread.

Definition DataDim_eqb (a b : DataDim) : bool :=
  match a, b with
  | Data0D, Data0D | Data1D, Data1D | Data2D, Data2D | DataND, DataND => true
  | _, _ => false
  end.

(** ** class DataBase *)

Module DataBase.

(** The value handed to the constructor as [data]. *)
Inductive data_arg : Type :=
| DataNone
| DataList (l : list Np.ndarray)
| DataArray (a : Np.ndarray)
| DataNumber (x : float)
| DataOther.

(** The attributes.  Those that [__init__] always fills before it returns
    ([_data], [_shape], [_size], [_length], [_labels]) have their final
    type and start empty; [_dim] keeps its [None].  The timestamp and the
    iteration cursor are left out.  [source] and [distribution] are enum
    members already ([enum_checker] only converts strings). *)
Record t : Type := mk {
  _name : string;
  origin : option string;
  _source : DataSource;
  _distribution : DataDistribution;
  _dim : option DataDim;
  _data : list Np.ndarray;
  _shape : list Z;
  _size : Z;
  _length : Z;
  _labels : list string
}.

Definition with_dim (self : t) (d : option DataDim) : t :=
  mk (_name self) (origin self) (_source self) (_distribution self) d
     (_data self) (_shape self) (_size self) (_length self) (_labels self).
Definition with_data (self : t) (d : list Np.ndarray) : t :=
  mk (_name self) (origin self) (_source self) (_distribution self) (_dim self)
     d (_shape self) (_size self) (_length self) (_labels self).
Definition with_shape (self : t) (s : list Z) : t :=
  mk (_name self) (origin self) (_source self) (_distribution self) (_dim self)
     (_data self) s (_size self) (_length self) (_labels self).
Definition with_size (self : t) (n : Z) : t :=
  mk (_name self) (origin self) (_source self) (_distribution self) (_dim self)
     (_data self) (_shape self) n (_length self) (_labels self).
Definition with_length (self : t) (n : Z) : t :=
  mk (_name self) (origin self) (_source self) (_distribution self) (_dim self)
     (_data self) (_shape self) (_size self) n (_labels self).
Definition with_labels (self : t) (l : list string) : t :=
  mk (_name self) (origin self) (_source self) (_distribution self) (_dim self)
     (_data self) (_shape self) (_size self) (_length self) l.
Definition with_origin (self : t) (o : option string) : t :=
  mk (_name self) o (_source self) (_distribution self) (_dim self)
     (_data self) (_shape self) (_size self) (_length self) (_labels self).

(** Property getters. *)
Definition name (self : t) := _name self.
Definition shape (self : t) := _shape self.
Definition size (self : t) := _size self.
Definition dim (self : t) := _dim self.
Definition length (self : t) := _length self.
Definition data (self : t) := _data self.
Definition labels (self : t) := _labels self.

(** [__len__]. *)
Definition __len__ (self : t) : Z := length self.

(** [__getitem__]. *)
Definition __getitem__ (self : t) (item : Z) : result Np.ndarray :=
  if (0 <=? item) && (item <? __len__ self) then getitem (data self) item
  else Raise IndexError.

(** [self.data[key] = value] for an index in range. *)
Fixpoint list_set {A : Type} (l : list A) (n : nat) (v : A) : result (list A) :=
  match l, n with
  | [], _ => Raise IndexError
  | _ :: r, O => Ok (v :: r)
  | x :: r, S n' => r' <- list_set r n' v ;; Ok (x :: r')
  end.

(** [__setitem__]. *)
Definition __setitem__ (self : t) (key : Z) (value : Np.ndarray) : result t :=
  if (0 <=? key) && (key <? __len__ self)
     && Np.shape_eqb (Np.shape value) (shape self) then
    d <- list_set (data self) (Z.to_nat key) value ;;
    Ok (with_data self d)
  else Raise IndexError.

(** [_check_data_type].  The members of a list are ndarrays by typing; an
    empty list fails on [data[0]] before the TypeError is reached. *)
Definition _check_data_type (d : data_arg) : result (list Np.ndarray) :=
  let wrapped :=
    match d with
    | DataList l => Some l
    | DataArray a => Some [a]
    | DataNumber x => Some [Np.mk_ndarray [1] [x]]
    | DataNone | DataOther => None
    end in
  match wrapped with
  | None => Raise TypeError
  | Some l =>
      first <- getitem l 0 ;;
      if len (Np.shape first) =? 0 then Raise TypeError else Ok l
  end.

(** [check_shape_from_data]. *)
Definition check_shape_from_data (self : t) (d : list Np.ndarray) : result t :=
  first <- getitem d 0 ;;
  Ok (with_shape self (Np.shape first)).

(** [get_dim_from_data]. *)
Definition get_dim_from_data (self : t) (d : list Np.ndarray)
  : result (t * DataDim) :=
  self <- check_shape_from_data self d ;;
  first <- getitem d 0 ;;
  let self := with_size self (Np.size first) in
  let self := with_length self (len d) in
  let dim :=
    if (len (_shape self) =? 1) && (_size self =? 1) then Data0D
    else if (len (_shape self) =? 1) && (_size self >? 1) then Data1D
    else if len (_shape self) =? 2 then Data2D
    else DataND in
  Ok (self, dim).

(** [_check_shape_dim_consistency]: whatever [dim] was given, the one
    derived from the data wins. *)
Definition _check_shape_dim_consistency (self : t) (d : list Np.ndarray)
  : result t :=
  '(self, dim) <- get_dim_from_data self d ;;
  match _dim self with
  | None => Ok (with_dim self (Some dim))
  | Some given =>
      if negb (DataDim_eqb given dim) then Ok (with_dim self (Some dim))
      else Ok self
  end.

(** [_check_same_shape]. *)
Fixpoint _check_same_shape (self : t) (d : list Np.ndarray) : result unit :=
  match d with
  | [] => Ok tt
  | dat :: rest =>
      if negb (Np.shape_eqb (Np.shape dat) (shape self)) then
        Raise DataShapeError
      else _check_same_shape self rest
  end.

(** [data] setter. *)
Definition set_data (self : t) (d : data_arg) : result t :=
  d <- _check_data_type d ;;
  self <- _check_shape_dim_consistency self d ;;
  _ <- _check_same_shape self d ;;
  Ok (with_data self d).

(** [f'CH{n:02d}']. *)
Definition digit (n : Z) : string :=
  String (Ascii.ascii_of_nat (48 + Z.to_nat n)) EmptyString.

Fixpoint decimal (fuel : nat) (n : Z) : string :=
  match fuel with
  | O => EmptyString
  | S fuel' =>
      if n <? 10 then digit n
      else (decimal fuel' (n / 10) ++ digit (n mod 10))%string
  end.

Definition CH (n : Z) : string :=
  ("CH" ++ (if (n <? 10)%Z then "0" else "") ++ decimal (S (Z.to_nat n)) n)%string.

(** [_check_labels]: the loop runs [length - len(labels)] times. *)
Fixpoint pad_labels (labels : list string) (missing : nat) : list string :=
  match missing with
  | O => labels
  | S m => pad_labels (labels ++ [CH (len labels)]) m
  end.

Definition _check_labels (self : t) (labels : list string) : t :=
  with_labels self (pad_labels labels (Z.to_nat (length self - len labels))).

(** [DataBase.__init__] (extra keyword attributes are left out). *)
Definition __init__ (name : string) (source : DataSource)
    (dim : option DataDim) (distribution : DataDistribution)
    (d : data_arg) (labels : list string) (origin : option string)
  : result t :=
  let self := mk name origin source distribution dim [] [] 0 0 [] in
  self <- set_data self d ;;
  Ok (_check_labels self labels).

(** [np.allclose(x, y)] for two arrays of one shape. *)
Definition allclose (x y : Np.ndarray) : bool :=
  Np.allclose_flat (Np.flat x) (Np.flat y).

(** The loop of [__eq__], run over the indices still to visit with the
    current value of [eq]. *)
Fixpoint eq_loop (self other : t) (inds : list Z) (eq : bool) : result bool :=
  match inds with
  | [] => Ok eq
  | ind :: rest =>
      x <- __getitem__ self ind ;;
      y <- __getitem__ other ind ;;
      if negb (Np.shape_eqb (Np.shape x) (Np.shape y)) then Ok false
      else eq_loop self other rest (eq && allclose x y)
  end.

(** [__eq__] against another DataBase. *)
Definition __eq__ (self other : t) : result bool :=
  if negb (String.eqb (name self) (name other)
           && (__len__ self =? __len__ other)) then Ok false
  else eq_loop self other (range (__len__ self)) true.

Section Arithmetic.

(** numpy's broadcasting of a binary operation over two arrays of
    different shapes is not spelled out: it is a parameter. *)
Variable np_broadcast :
  (float -> float -> float) -> Np.ndarray -> Np.ndarray -> result Np.ndarray.

(** [x op y] on arrays. *)
Definition np_binop (f : float -> float -> float) (x y : Np.ndarray)
  : result Np.ndarray :=
  if Np.shape_eqb (Np.shape x) (Np.shape y) then
    Ok (Np.mk_ndarray (Np.shape x) (Np.map2 f (Np.flat x) (Np.flat y)))
  else np_broadcast f x y.

(** The loop of [__add__]. *)
Fixpoint add_loop (self other new_data : t) (inds : list Z) : result t :=
  match inds with
  | [] => Ok new_data
  | ind :: rest =>
      x <- __getitem__ self ind ;;
      y <- __getitem__ other ind ;;
      if negb (Np.shape_eqb (Np.shape x) (Np.shape y)) then Raise ValueError
      else
        x <- __getitem__ self ind ;;
        y <- __getitem__ other ind ;;
        v <- np_binop PrimFloat.add x y ;;
        new_data <- __setitem__ new_data ind v ;;
        add_loop self other new_data rest
  end.

(** [__add__] with another DataBase. *)
Definition __add__ (self other : t) : result t :=
  if __len__ other =? __len__ self then
    let new_data := deepcopy self in
    add_loop self other new_data (range (__len__ new_data))
  else Raise TypeError.

(** The loop of [__sub__]. *)
Fixpoint sub_loop (self other new_data : t) (inds : list Z) : result t :=
  match inds with
  | [] => Ok new_data
  | ind :: rest =>
      x <- __getitem__ self ind ;;
      y <- __getitem__ other ind ;;
      v <- np_binop PrimFloat.sub x y ;;
      new_data <- __setitem__ new_data ind v ;;
      sub_loop self other new_data rest
  end.

(** [__sub__] with another DataBase. *)
Definition __sub__ (self other : t) : result t :=
  if __len__ other =? __len__ self then
    let new_data := deepcopy self in
    sub_loop self other new_data (range (__len__ new_data))
  else Raise TypeError.

End Arithmetic.

(** [get_full_name]: [f'{self.origin}/{self.name}']; an unset origin is
    printed as None. *)
Definition get_full_name (self : t) : string :=
  ((match origin self with
    | Some o => o
    | None => "None"
    end) ++ "/" ++ name self)%string.

End DataBase.


(** ** class DataWithAxes *)

Module DataWithAxes.

(** A DataBase together with its AxesManager (the slicers and the unread
    [_axes] attribute are left out). *)
Record t : Type := mk {
  base : DataBase.t;
  axes_manager : AxesManager.t
}.

Definition name (self : t) : string := DataBase.name (base self).
Definition origin (self : t) : option string := DataBase.origin (base self).
Definition nav_indexes (self : t) := AxesManager.nav_indexes (axes_manager self).

Definition set_origin (self : t) (o : option string) : t :=
  mk (DataBase.with_origin (base self) o) (axes_manager self).

(** [get_dim_from_data_axes]. *)
Definition get_dim_from_data_axes (self : t) : result t :=
  match nav_indexes self with
  | None => Raise TypeError
  | Some nav =>
      if len nav >? 0 then
        Ok (mk (DataBase.with_dim (base self) (Some DataND)) (axes_manager self))
      else Ok self
  end.

(** [DataWithAxes.__init__]. *)
Definition __init__ (name : string) (source : DataSource)
    (dim : option DataDim) (distribution : DataDistribution)
    (d : DataBase.data_arg) (labels : list string) (origin : option string)
    (axes : list Axis.t) (nav_indexes : option (list Z))
    (kw : AxesManager.named_axes) : result t :=
  b <- DataBase.__init__ name source dim distribution d labels origin ;;
  am <- AxesManager.__init__ (DataBase.shape b) axes nav_indexes None kw ;;
  get_dim_from_data_axes (mk b am).

(** [==] between two DataWithAxes is [DataBase.__eq__]. *)
Definition __eq__ (self other : t) : result bool :=
  DataBase.__eq__ (base self) (base other).

(** An entry of the tuple a payload array is indexed with: one of the
    slices given, or [Ellipsis]. *)
Inductive index_item : Type :=
| Item (s : slice_arg)
| Ellipsis.

Definition is_Ellipsis (it : index_item) : bool :=
  match it with
  | Ellipsis => true
  | Item _ => false
  end.

(** The loop of [_compute_slices] over the dimensions still to visit, with
    the slices not yet used and the tuple built so far. *)
Fixpoint compute_slices_loop (indexes : list Z) (inds : list Z)
    (slices : list slice_arg) (total_slices : list index_item)
  : result (list index_item) :=
  match inds with
  | [] => Ok total_slices
  | ind :: rest =>
      if Zmem ind indexes then
        match slices with
        | [] => Raise IndexError
        | s :: slices' =>
            compute_slices_loop indexes rest slices' (total_slices ++ [Item s])
        end
      else if (len total_slices =? 0)
              || negb (is_Ellipsis (last total_slices Ellipsis)) then
        compute_slices_loop indexes rest slices (total_slices ++ [Ellipsis])
      else compute_slices_loop indexes rest slices total_slices
  end.

(** [_compute_slices]: the slices given are placed on the navigation (or
    signal) dimensions, and [Ellipsis] fills the runs of other
    dimensions. *)
Definition _compute_slices (self : t) (slices : list slice_arg)
    (is_navigation : bool) : result (list index_item) :=
  let indexes :=
    if is_navigation then AxesManager.nav_indexes (axes_manager self)
    else AxesManager.sig_indexes (axes_manager self) in
  let inds := range (len (DataBase.shape (base self))) in
  match indexes with
  | Some indexes => compute_slices_loop indexes inds slices []
  | None =>
      match inds with
      | [] => Ok []
      | _ :: _ => Raise TypeError
      end
  end.

(** [get_full_name], inherited from DataBase. *)
Definition get_full_name (self : t) : string :=
  DataBase.get_full_name (base self).

End DataWithAxes.

(** ** Lookup helper of [pymodaq.utils.daq_utils] *)

Module DaqUtils.

Section Find.

Variables (A V : Type).
Variable attr : A -> V.
Variable eqb : V -> V -> bool.

(** Modelled from the spec: [find_objects_in_list_from_attr_name_val] is
    defined in [pymodaq/utils/daq_utils.py], which is not among the source
    files.  The spec calls the lookups built on it pure read filters; the
    call sites in [data.py] fix its interface: with [return_first=False] it
    gives the list of pairs (object, index) of the objects whose attribute
    equals the value, in list order; with [return_first=True] the first
    such pair, or [(None, -1)] when there is none. *)
Fixpoint find_all_from (objects : list A) (v : V) (ind : Z) : list (A * Z) :=
  match objects with
  | [] => []
  | obj :: rest =>
      if eqb (attr obj) v then (obj, ind) :: find_all_from rest v (ind + 1)
      else find_all_from rest v (ind + 1)
  end.

(** Modelled from the spec: the call with [return_first=False]. *)
Definition find_all (objects : list A) (v : V) : list (A * Z) :=
  find_all_from objects v 0.

(** Modelled from the spec: the call with [return_first=True]. *)
Definition find_first (objects : list A) (v : V) : option A * Z :=
  match find_all objects v with
  | (obj, ind) :: _ => (Some obj, ind)
  | [] => (None, -1)
  end.

End Find.

End DaqUtils.

(** ** class DataToExport *)

Module DataToExport.

Record t : Type := mk {
  _name : string;
  _data : list DataWithAxes.t
}.

Definition name (self : t) := _name self.
Definition data (self : t) := _data self.

Definition option_string_eqb (a b : option string) : bool :=
  match a, b with
  | Some x, Some y => String.eqb x y
  | None, None => true
  | _, _ => false
  end.

(** [affect_name_to_origin_if_none]. *)
Definition affect_name_to_origin_if_none (self : t) : t :=
  mk (_name self)
     (map (fun dat =>
             match DataWithAxes.origin dat with
             | None => DataWithAxes.set_origin dat (Some (name self))
             | Some _ => dat
             end)
          (data self)).

(** [data] setter (the members are DataWithAxes by typing). *)
Definition set_data (self : t) (new_data : list DataWithAxes.t) : t :=
  affect_name_to_origin_if_none (mk (_name self) new_data).

(** [DataToExport.__init__]. *)
Definition __init__ (name : string) (d : list DataWithAxes.t) : t :=
  set_data (mk name []) d.

(** [__len__]. *)
Definition __len__ (self : t) : Z := len (data self).

(** [get_data_from_name_origin].  The object found is returned with its
    position in [self.data]: the position stands for the identity of the
    object, which [list.index] looks at. *)
Definition get_data_from_name_origin (self : t) (name : string)
    (origin : option string) : option (DataWithAxes.t * Z) :=
  match origin with
  | None =>
      match DaqUtils.find_first _ _ DataWithAxes.name String.eqb
              (data self) name with
      | (Some obj, ind) => Some (obj, ind)
      | (None, _) => None
      end
  | Some _ =>
      let selection :=
        DaqUtils.find_all _ _ DataWithAxes.name String.eqb (data self) name in
      let index_selection := map snd selection in
      let selection := map fst selection in
      match DaqUtils.find_first _ _ DataWithAxes.origin option_string_eqb
              selection origin with
      | (Some obj, k) => Some (obj, nth (Z.to_nat k) index_selection (-1))
      | (None, _) => None
      end
  end.

(** [self.data.index(obj)]: the first position holding [obj] itself or an
    element that compares equal to it; ValueError when there is none. *)
Fixpoint list_index (l : list DataWithAxes.t) (obj : DataWithAxes.t)
    (pos : Z) (ind : Z) : result Z :=
  match l with
  | [] => Raise ValueError
  | item :: rest =>
      if ind =? pos then Ok ind
      else
        eq <- DataWithAxes.__eq__ item obj ;;
        if eq then Ok ind else list_index rest obj pos (ind + 1)
  end.

(** [l.pop(i)] for an index in range. *)
Fixpoint pop {A : Type} (l : list A) (i : nat) : list A :=
  match l, i with
  | [], _ => []
  | _ :: r, O => r
  | x :: r, S i' => x :: pop r i'
  end.

(** [append] of one DataWithAxes. *)
Definition append (self : t) (d : DataWithAxes.t) : result t :=
  let d := deepcopy d in
  match get_data_from_name_origin self (DataWithAxes.name d)
          (DataWithAxes.origin d) with
  | Some (obj, pos) =>
      i <- list_index (data self) obj pos 0 ;;
      Ok (mk (_name self) (pop (_data self) (Z.to_nat i) ++ [d]))
  | None => Ok (mk (_name self) (_data self ++ [d]))
  end.

(** [append] of a list. *)
Fixpoint append_list (self : t) (ds : list DataWithAxes.t) : result t :=
  match ds with
  | [] => Ok self
  | d :: rest => self <- append self d ;; append_list self rest
  end.

(** [get_full_names()] called without [dim]. *)
Definition get_full_names (self : t) : list string :=
  map DataWithAxes.get_full_name (data self).

(** [s.split('/')]. *)
Fixpoint split_slash (s : string) : list string :=
  match s with
  | EmptyString => [EmptyString]
  | String c r =>
      if Ascii.eqb c slash then EmptyString :: split_slash r
      else
        match split_slash r with
        | p :: ps => String c p :: ps
        | [] => [String c EmptyString]
        end
  end.

(** The list comprehension of [get_data_from_full_names] (without
    [deepcopy]): each full name is cut at the slashes, its second piece is
    looked up as the name and its first as the origin; a lookup that
    finds nothing puts None in the list. *)
Fixpoint lookup_full_names (self : t) (full_names : list string)
  : result (list (option DataWithAxes.t)) :=
  match full_names with
  | [] => Ok []
  | full_name :: rest =>
      name <- getitem (split_slash full_name) 1 ;;
      origin <- getitem (split_slash full_name) 0 ;;
      let found :=
        match get_data_from_name_origin self name (Some origin) with
        | Some (obj, _) => Some obj
        | None => None
        end in
      others <- lookup_full_names self rest ;;
      Ok (found :: others)
  end.

(** The type check of the [data] setter on a list that may hold None. *)
Fixpoint check_members (l : list (option DataWithAxes.t))
  : result (list DataWithAxes.t) :=
  match l with
  | [] => Ok []
  | None :: _ => Raise TypeError
  | Some m :: rest => ms <- check_members rest ;; Ok (m :: ms)
  end.

(** [get_data_from_full_names] (without [deepcopy]): a new DataToExport
    of the same name built on the members found. *)
Definition get_data_from_full_names (self : t) (full_names : list string)
  : result t :=
  found <- lookup_full_names self full_names ;;
  members <- check_members found ;;
  Ok (__init__ (name self) members).

End DataToExport.


(** ** Concrete objects used by the examples *)

Module Examples.

(** [Axis('x', 's', data=np.array([0., 1., 2.]), index=0)] once built: the
    data are linear, so the axis is compact. *)
Definition axis3 : Axis.t :=
  Axis.mk "x" "s" None 0 (Some 1%float) (Some 0%float) 3.

(** [Axis('x', 's', data=np.array([0., 1.]), index=0)] once built. *)
Definition axis2 : Axis.t :=
  Axis.mk "x" "s" None 0 (Some 1%float) (Some 0%float) 2.

(** [Axis('x', 's', data=np.array([0., -1.]), index=0)] once built. *)
Definition axis2_down : Axis.t :=
  Axis.mk "x" "s" None 0 (Some (-1)%float) (Some 0%float) 2.

(** [np.linspace(0, 10, 20)]: [arange(20) * (10 / 19)] with the last
    sample set to 10. *)
Definition linspace_0_10_20 : list float :=
  map (fun i => if i =? 19 then 10%float
                else PrimFloat.mul (Np.of_Z i) (PrimFloat.div 10 19))
      (range 20).

(** Compact axes for the dimensions of an array of shape (5, 6, 7). *)
Definition ax0 : Axis.t := Axis.mk "a0" "" None 0 (Some 1%float) (Some 0%float) 5.
Definition ax1 : Axis.t := Axis.mk "a1" "" None 1 (Some 1%float) (Some 0%float) 6.
Definition ax2 : Axis.t := Axis.mk "a2" "" None 2 (Some 1%float) (Some 0%float) 7.

(** An axis tagged with dimension 3. *)
Definition ax_far : Axis.t :=
  Axis.mk "far" "" None 3 (Some 1%float) (Some 0%float) 5.

(** [Axis(data=np.array([0., 1., 4.]), index=0)] once built: the data are
    not linear and stay explicit. *)
Definition ax_explicit : Axis.t :=
  Axis.mk "" "" (Some [0; 1; 4]%float) 0 None None 3.

(** [Axis('nav', 'u')]: no data, no scaling, no offset. *)
Definition ax_nav : Axis.t := Axis.mk "nav" "u" None 0 None None 0.

(** [DataBase('a', data=[np.array([1.])])] and
    [DataBase('b', data=[np.array([1e20])])] once built. *)
Definition db_one : DataBase.t :=
  DataBase.mk "a" None raw uniform (Some Data0D)
    [Np.mk_ndarray [1] [1%float]] [1] 1 1 ["CH00"%string].

Definition db_big : DataBase.t :=
  DataBase.mk "b" None raw uniform (Some Data0D)
    [Np.mk_ndarray [1] [1e20%float]] [1] 1 1 ["CH00"%string].

(** [DataRaw(name, data=[np.array([v])], origin=origin)] once built. *)
Definition dwa (name : string) (origin : option string) (v : float)
  : DataWithAxes.t :=
  DataWithAxes.mk
    (DataBase.mk name origin raw uniform (Some Data0D)
       [Np.mk_ndarray [1] [v]] [1] 1 1 ["CH00"%string])
    (AxesManager.mk [1] [] (Some []) (Some [0])).

End Examples.

(** ** Vocabulary of the statements *)

(** The axis is tagged with a dimension of the shape. *)
Definition in_shape (shape : list Z) (a : Axis.t) : Prop :=
  0 <= Axis.index a < len shape.

(** [axis.size == data_shape[axis.index]]. *)
Definition size_agrees (shape : list Z) (a : Axis.t) : Prop :=
  getitem shape (Axis.index a) = Ok (Axis.size a).

(** The axis is in compact form. *)
Definition compact (a : Axis.t) : Prop := Axis._data a = None.

(** What the check makes of one axis [a]: it is kept when its size agrees
    with the shape, and a compact axis whose size disagrees becomes the
    linear axis of the right size with scaling 1 and offset 0. *)
Definition checked (shape : list Z) (a a' : Axis.t) : Prop :=
  (size_agrees shape a -> a' = a)
  /\ (compact a -> ~ size_agrees shape a ->
      exists v, getitem shape (Axis.index a) = Ok v
                /\ a' = Axis.mk (Axis._label a) (Axis._units a) None
                          (Axis.index a) (Some 1%float) (Some 0%float) v).

(** The dimension indices that are not navigation indices, in increasing
    order. *)
Definition complement (shape nav : list Z) : list Z :=
  filter (fun i => negb (Zmem i nav)) (range (len shape)).


(** The attributes the constructor's checks and the named-axis keywords
    leave alone. *)
Definition same_indexes (s s' : AxesManager.t) : Prop :=
  AxesManager._data_shape s' = AxesManager._data_shape s
  /\ AxesManager._nav_indexes s' = AxesManager._nav_indexes s
  /\ AxesManager._sig_indexes s' = AxesManager._sig_indexes s.

(** A DataBase as its constructor leaves it: [length] is the number of
    arrays and every array has the common [shape]. *)
Definition DataBase_wf (d : DataBase.t) : Prop :=
  DataBase._length d = len (DataBase._data d)
  /\ Forall (fun a => Np.shape a = DataBase._shape d) (DataBase._data d).

(** [np.allclose((x + y) - y, x)] for two arrays of one shape. *)
Definition round_trip_close (x y : Np.ndarray) : bool :=
  Np.allclose_flat
    (Np.map2 PrimFloat.sub
       (Np.map2 PrimFloat.add (Np.flat x) (Np.flat y)) (Np.flat y))
    (Np.flat x).

(** A stand-in for numpy's broadcasting where the operands always have
    one shape and broadcasting is never reached. *)
Definition no_broadcast (f : float -> float -> float) (x y : Np.ndarray)
  : result Np.ndarray := Raise ValueError.

(** The arrays [x op y] for the arrays [x], [y] at the same place of two
    lists, each with the shape of [x]. *)
Definition zipw (f : float -> float -> float) (la lb : list Np.ndarray)
  : list Np.ndarray :=
  map (fun p => Np.mk_ndarray (Np.shape (fst p))
                  (Np.map2 f (Np.flat (fst p)) (Np.flat (snd p))))
      (combine la lb).

(** The length attribute of a member is the number of its arrays, as its
    constructor leaves it. *)
Definition member_wf (m : DataWithAxes.t) : Prop :=
  DataBase._length (DataWithAxes.base m)
  = len (DataBase._data (DataWithAxes.base m)).

(** The member [m] answers the lookup that [append] makes for [x]: same
    name, and same origin when the origin of [x] is set. *)
Definition key_match (x m : DataWithAxes.t) : bool :=
  String.eqb (DataWithAxes.name m) (DataWithAxes.name x)
  && match DataWithAxes.origin x with
     | None => true
     | Some _ =>
         DataToExport.option_string_eqb (DataWithAxes.origin m)
           (DataWithAxes.origin x)
     end.

(** The first element satisfying [p], with its position counted from
    [ind]. *)
Fixpoint first_match {A : Type} (p : A -> bool) (l : list A) (ind : Z)
  : option (A * Z) :=
  match l with
  | [] => None
  | m :: rest => if p m then Some (m, ind) else first_match p rest (ind + 1)
  end.


(** The test [Axis.is_axis_linear] makes on the samples [a]: every
    difference of neighbours is close to the mean difference. *)
Definition linear_samples (a : list float) : bool :=
  Np.allclose_scalar (Np.diff a) (Np.mean (Np.diff a)).

(** The dimensionality [get_dim_from_data] derives from the first array. *)
Definition derived_dim (first : Np.ndarray) : DataDim :=
  if (len (Np.shape first) =? 1) && (Np.size first =? 1) then Data0D
  else if (len (Np.shape first) =? 1) && (Np.size first >? 1) then Data1D
  else if len (Np.shape first) =? 2 then Data2D
  else DataND.

(** Two arrays have one shape and are close, as the loop of
    [DataBase.__eq__] tests them. *)
Definition arrays_equal (x y : Np.ndarray) : bool :=
  Np.shape_eqb (Np.shape x) (Np.shape y) && DataBase.allclose x y.

(** The slices of a tuple of index entries, without the Ellipsis. *)
Definition explicit_items (l : list DataWithAxes.index_item)
  : list slice_arg :=
  flat_map (fun it => match it with
                      | DataWithAxes.Item s => [s]
                      | DataWithAxes.Ellipsis => []
                      end) l.

(** Two Ellipsis stand side by side in the tuple. *)
Fixpoint adjacent_ellipsis (l : list DataWithAxes.index_item) : bool :=
  match l with
  | [] => false
  | it :: rest =>
      match it, rest with
      | DataWithAxes.Ellipsis, DataWithAxes.Ellipsis :: _ => true
      | _, _ => adjacent_ellipsis rest
      end
  end.

(** The string holds no slash. *)
Fixpoint no_slash (s : string) : bool :=
  match s with
  | EmptyString => true
  | String c r => negb (Ascii.eqb c slash) && no_slash r
  end.

(** The (name, origin) pair of a member. *)
Definition member_key (m : DataWithAxes.t) : string * option string :=
  (DataWithAxes.name m, DataWithAxes.origin m).

(** * Properties *)

(** ** Basic facts *)

Lemma len_range (n : Z) : 0 <= n -> len (range n) = n.
Proof.
  intros Hn. unfold len, range.
  rewrite length_map, length_seq. lia.
Qed.

(** The length of the array is fuel enough for [Np.pairwise_sum]: any
    two such amounts of fuel give the same sum, so the fuel never runs
    out in [Np.sum]. *)
Lemma pairwise_sum_fuel (f1 : nat) :
  forall (f2 : nat) (d : list float),
    (List.length d <= f1)%nat -> (List.length d <= f2)%nat ->
    Np.pairwise_sum f1 d = Np.pairwise_sum f2 d.
Proof.
  induction f1 as [ | f1 IH]; intros f2 d H1 H2.
  - destruct d; [ | cbn in H1; lia]. destruct f2; reflexivity.
  - cbn [Np.pairwise_sum].
    destruct (Z.leb_spec (len d) Np.PW_BLOCKSIZE) as [Hs | Hl].
    + destruct f2; cbn [Np.pairwise_sum];
        destruct (Z.leb_spec (len d) Np.PW_BLOCKSIZE); try lia; reflexivity.
    + unfold len, Np.PW_BLOCKSIZE in Hl.
      destruct f2 as [ | f2]; [lia | ]. cbn [Np.pairwise_sum].
      destruct (Z.leb_spec (len d) Np.PW_BLOCKSIZE) as [Hs | _];
        [unfold len, Np.PW_BLOCKSIZE in Hs; lia | ].
      set (n2 := Z.to_nat (len d / 2 - (len d / 2) mod 8)).
      assert (Hn2 : (0 < n2 < List.length d)%nat).
      { subst n2. unfold len. Z.div_mod_to_equations. lia. }
      assert (Hf : (List.length (firstn n2 d) < List.length d)%nat)
        by (rewrite length_firstn; lia).
      assert (Hk : (List.length (skipn n2 d) < List.length d)%nat)
        by (rewrite length_skipn; lia).
      rewrite (IH f2 (firstn n2 d)), (IH f2 (skipn n2 d)) by lia.
      reflexivity.
Qed.

Lemma linspace0_nonneg (n : Z) :
  0 <= n -> Np.linspace0 n = Ok (map Np.of_Z (range n)).
Proof.
  intros Hn. unfold Np.linspace0.
  destruct (Z.ltb_spec n 0) as [Hlt | _]; [lia | reflexivity].
Qed.

(** The order of the additions shows in the last bit: on the nineteen
    differences of [np.linspace(0, 10, 20)] the mean is
    0.52631578947368407, where adding the differences one by one gives
    0.52631578947368418. *)
Example mean_sums_pairwise :
  Np.mean (Np.diff Examples.linspace_0_10_20) = 0x1.0d79435e50d78p-1%float
  /\ PrimFloat.div (Np.seq_sum 0 (Np.diff Examples.linspace_0_10_20)) 19
     = 0x1.0d79435e50d79p-1%float.
Proof. vm_compute. split; reflexivity. Qed.

(** Integers are converted without wrap-around. *)
Example of_Z_large :
  Np.of_Z (2 ^ 63) = 0x1p63%float
  /\ Np.of_Z (2 ^ 53 + 1) = 0x1p53%float
  /\ Np.of_Z (- (2 ^ 53 + 3)) = (-0x1.0000000000002p53)%float.
Proof. vm_compute. repeat split; reflexivity. Qed.

(** The arrays of the examples are what the constructor builds. *)
Example axis3_built :
  Axis.__init__ "x" "s" (Some [0; 1; 2]%float) 0 None None = Ok Examples.axis3.
Proof. vm_compute. reflexivity. Qed.

Example axis2_built :
  Axis.__init__ "x" "s" (Some [0; 1]%float) 0 None None = Ok Examples.axis2.
Proof. vm_compute. reflexivity. Qed.

Example axis2_down_built :
  Axis.__init__ "x" "s" (Some [0; -1]%float) 0 None None
  = Ok Examples.axis2_down.
Proof. vm_compute. reflexivity. Qed.

(** ** Axis.get_data *)

(** What [create_linear_data] stores for a compact axis. *)
Lemma create_linear_data_compact (a : Axis.t) (o s : float) (n : Z) :
  Axis._offset a = Some o -> Axis._scaling a = Some s -> 0 <= n ->
  Axis.create_linear_data a n
  = Ok (Axis.set_data a (Some (Axis.linear_sequence o s n)), None).
Proof.
  intros Ho Hs Hn. unfold Axis.create_linear_data.
  rewrite (linspace0_nonneg n Hn). cbn [bind].
  unfold Axis.affine, Axis.linear_sequence. rewrite Ho, Hs.
  destruct (map Np.of_Z (range n)) as [ | x samples] eqn:E; cbn [bind].
  - apply map_eq_nil in E. rewrite E. reflexivity.
  - rewrite <- E, map_map. reflexivity.
Qed.

Lemma len_linear_sequence (o s : float) (n : Z) :
  0 <= n -> len (Axis.linear_sequence o s n) = n.
Proof.
  intros Hn. unfold Axis.linear_sequence, len.
  rewrite length_map. apply (len_range n Hn).
Qed.

(** On every compact axis the call itself evaluates to None, whatever
    the offset, the scaling and the size: [get_data] hands back what
    [create_linear_data] returns, and that method only assigns. *)
Lemma get_data_compact (a : Axis.t) (o s : float) :
  Axis._data a = None ->
  Axis._offset a = Some o -> Axis._scaling a = Some s ->
  0 <= Axis._size a ->
  Axis.get_data a
  = Ok (Axis.set_data a (Some (Axis.linear_sequence o s (Axis._size a))),
        None).
Proof.
  intros Hd Ho Hs Hn. unfold Axis.get_data. rewrite Hd. unfold Axis.size.
  apply (create_linear_data_compact a o s _ Ho Hs Hn).
Qed.

(** The sibling branch: an axis with explicit data returns its array. *)
Lemma get_data_explicit (a : Axis.t) (d : list float) :
  Axis._data a = Some d -> Axis.get_data a = Ok (a, Some d).
Proof. intros Hd. unfold Axis.get_data. rewrite Hd. reflexivity. Qed.

(** C1 (the call returns None): the axis the constructor builds from
    [0., 1., 2.] is compact (offset 0, scaling 1, size 3) and its sequence
    offset + scaling * i is 0., 1., 2.; [get_data()] on it evaluates to
    None and not to that sequence, and leaves the sequence stored in the
    axis.  The axis with explicit data [0., 1., 4.] gets its array back,
    and so does a second call on the axis the first call leaves. *)
Theorem C1_get_data_returns_None :
  Axis.__init__ "x" "s" (Some [0; 1; 2]%float) 0 None None
  = Ok Examples.axis3
  /\ Axis._data Examples.axis3 = None
  /\ Axis.linear_sequence 0 1 3 = [0; 1; 2]%float
  /\ (exists a',
         Axis.get_data Examples.axis3 = Ok (a', None)
         /\ Axis._data a' = Some [0; 1; 2]%float
         /\ Axis.get_data a' = Ok (a', Some [0; 1; 2]%float))
  /\ Axis.get_data Examples.ax_explicit
     = Ok (Examples.ax_explicit, Some [0; 1; 4]%float).
Proof.
  split; [vm_compute; reflexivity | ].
  split; [reflexivity | ].
  split; [vm_compute; reflexivity | ].
  split; [ | reflexivity].
  eexists. split; [vm_compute; reflexivity | ].
  split; reflexivity.
Qed.

(** ** Axis.mean, Axis.min, Axis.max *)

(** C7 (the closed forms miss by one step): on the compact axis of
    offset 0, scaling 1 and size 2, whose sequence is 0., 1., [mean()]
    gives 1. for a mean of 0.5 and [max()] gives 2. for a maximum of 1.;
    with scaling -1, [min()] gives -2. for a minimum of -1. *)
Lemma C7_closed_forms_at_size_two :
  Axis.linear_sequence 0 1 2 = [0; 1]%float
  /\ Axis.mean Examples.axis2 = Ok 1%float
  /\ Np.mean (Axis.linear_sequence 0 1 2) = 0.5%float
  /\ Axis.max Examples.axis2 = Ok 2%float
  /\ Np.max (Axis.linear_sequence 0 1 2) = Ok 1%float
  /\ Axis.linear_sequence 0 (-1) 2 = [0; -1]%float
  /\ Axis.min Examples.axis2_down = Ok (-2)%float
  /\ Np.min (Axis.linear_sequence 0 (-1) 2) = Ok (-1)%float.
Proof. vm_compute. repeat split; reflexivity. Qed.

(** ** Axis.__mul__ and Axis.__add__ *)

(** C10: for an operand that is not a real number both [a * x] and
    [a + x] evaluate to None without raising, and no call to either
    method changes [a]. *)
Theorem C10_non_real_operand (a : Axis.t) (x : pyval) :
  as_Real x = None ->
  Axis.__mul__ a x = Ok (a, None)
  /\ Axis.__add__ a x = Ok (a, None)
  /\ (forall y a' r, Axis.__mul__ a y = Ok (a', r) -> a' = a)
  /\ (forall y a' r, Axis.__add__ a y = Ok (a', r) -> a' = a).
Proof.
  intros Hx. unfold Axis.__mul__, Axis.__add__, deepcopy. rewrite Hx.
  repeat split; try reflexivity.
  - intros y a' r. destruct (as_Real y); [ | congruence].
    destruct (Axis.data a); [congruence | ].
    destruct (Axis._offset a); [ | discriminate].
    cbn. destruct (Axis._scaling a); [congruence | discriminate].
  - intros y a' r. destruct (as_Real y); [ | congruence].
    destruct (Axis.data a); [congruence | ].
    destruct (Axis._offset a); [congruence | discriminate].
Qed.

Lemma C10_non_real_operand_witness :
  Axis.__mul__ Examples.axis3 (PyStr "abc") = Ok (Examples.axis3, None)
  /\ Axis.__add__ Examples.axis3 (PyStr "abc") = Ok (Examples.axis3, None).
Proof.
  split.
  - exact (proj1 (C10_non_real_operand Examples.axis3 (PyStr "abc") eq_refl)).
  - exact (proj1 (proj2 (C10_non_real_operand Examples.axis3 (PyStr "abc") eq_refl))).
Defined.


(** ** AxesManager._check_axis *)

Lemma get_shape_from_index_in_range (self : AxesManager.t) (i : Z) :
  0 <= i < len (AxesManager._data_shape self) ->
  exists v, AxesManager.get_shape_from_index self i = Ok v
            /\ getitem (AxesManager._data_shape self) i = Ok v.
Proof.
  intros [H0 Hlen]. unfold AxesManager.get_shape_from_index.
  destruct (Z.gtb_spec i (len (AxesManager._data_shape self))); [lia | ].
  destruct (Z.ltb_spec i 0); [lia | ]. cbn [orb].
  unfold getitem.
  destruct (nth_error (AxesManager._data_shape self) (Z.to_nat i)) as [v | ] eqn:E.
  - exists v. split; reflexivity.
  - apply nth_error_None in E. unfold len in Hlen. lia.
Qed.

Lemma get_shape_from_index_out_of_range (self : AxesManager.t) (i : Z) :
  ~ (0 <= i < len (AxesManager._data_shape self)) ->
  AxesManager.get_shape_from_index self i = Raise IndexError.
Proof.
  intros H. unfold AxesManager.get_shape_from_index.
  destruct (Z.gtb_spec i (len (AxesManager._data_shape self))); [reflexivity | ].
  destruct (Z.ltb_spec i 0); [reflexivity | ]. cbn [orb].
  unfold getitem.
  destruct (nth_error (AxesManager._data_shape self) (Z.to_nat i)) eqn:E;
    [ | reflexivity].
  assert (Hlt : (Z.to_nat i < List.length (AxesManager._data_shape self))%nat)
    by (apply nth_error_Some; congruence).
  unfold len in *. lia.
Qed.

Lemma check_one_in_shape (self : AxesManager.t) (a : Axis.t) :
  in_shape (AxesManager._data_shape self) a ->
  exists a', AxesManager.check_one self a = Ok a'
             /\ checked (AxesManager._data_shape self) a a'
             /\ Axis.index a' = Axis.index a
             /\ (compact a' -> size_agrees (AxesManager._data_shape self) a').
Proof.
  intros Hin. unfold AxesManager.check_one.
  destruct (get_shape_from_index_in_range self _ Hin) as [v [Hv Hg]].
  rewrite Hv. cbn [bind].
  destruct (Z.eqb_spec v (Axis.size a)) as [Heq | Hne]; cbn [negb].
  - exists a. repeat split; try reflexivity.
    + intros _ Hno. exfalso. apply Hno. unfold size_agrees. congruence.
    + intros _. unfold size_agrees. congruence.
  - cbn [bind]. eexists. split; [reflexivity | ].
    repeat split.
    + intros Hag. exfalso. unfold size_agrees in Hag.
      rewrite Hg in Hag. injection Hag as Hag. congruence.
    + intros Hc _. exists v. split; [exact Hg | ].
      unfold compact in Hc. destruct a as [l u d i s o n]. cbn in *.
      subst d. reflexivity.
    + destruct a as [l u [d | ] i s o n]; reflexivity.
    + destruct a as [l u [d | ] i s o n]; unfold compact, size_agrees; cbn.
      * discriminate.
      * intros _. exact Hg.
Qed.

Lemma check_one_out_of_shape (self : AxesManager.t) (a : Axis.t) :
  ~ in_shape (AxesManager._data_shape self) a ->
  AxesManager.check_one self a = Raise IndexError.
Proof.
  intros H. unfold AxesManager.check_one.
  rewrite (get_shape_from_index_out_of_range self _ H). reflexivity.
Qed.

Lemma check_one_raises_IndexError (self : AxesManager.t) (a : Axis.t) (e : exn) :
  AxesManager.check_one self a = Raise e -> e = IndexError.
Proof.
  unfold AxesManager.check_one, AxesManager.get_shape_from_index, getitem.
  destruct (_ || _).
  - cbn. congruence.
  - destruct (nth_error _ _); cbn; [ | congruence].
    destruct (negb _); cbn; discriminate.
Qed.

Lemma check_loop_in_shape (self : AxesManager.t) (axes : list Axis.t) :
  Forall (in_shape (AxesManager._data_shape self)) axes ->
  exists axes',
    AxesManager.check_loop self axes = Ok axes'
    /\ Forall2 (checked (AxesManager._data_shape self)) axes axes'
    /\ map Axis.index axes' = map Axis.index axes
    /\ Forall (fun a => compact a ->
                        size_agrees (AxesManager._data_shape self) a) axes'.
Proof.
  induction 1 as [ | a rest Ha Hrest IH].
  - exists []. cbn. repeat split; constructor.
  - destruct (check_one_in_shape self a Ha) as [a' [Hone [Hck [Hidx Hsz]]]].
    destruct IH as [rest' [Hloop [Hall2 [Hmap Hall]]]].
    exists (a' :: rest'). cbn [AxesManager.check_loop].
    rewrite Hone. cbn [bind]. rewrite Hloop. cbn [bind].
    repeat split.
    + constructor; assumption.
    + cbn. rewrite Hidx, Hmap. reflexivity.
    + constructor; assumption.
Qed.

(** An axis tagged outside the shape makes the check raise IndexError. *)
Lemma check_axis_out_of_shape (self : AxesManager.t) (axes : list Axis.t) :
  Exists (fun a => ~ in_shape (AxesManager._data_shape self) a) axes ->
  AxesManager._check_axis self axes = Raise IndexError.
Proof.
  intros Hex. unfold AxesManager._check_axis.
  assert (Hloop : AxesManager.check_loop self axes = Raise IndexError).
  { induction Hex as [a rest Ha | a rest Hrest IH]; cbn [AxesManager.check_loop].
    - rewrite (check_one_out_of_shape self a Ha). reflexivity.
    - destruct (AxesManager.check_one self a) as [a' | e] eqn:E; cbn [bind].
      + rewrite IH. reflexivity.
      + rewrite (check_one_raises_IndexError self a e E). reflexivity. }
  rewrite Hloop. reflexivity.
Qed.

(** On an axis with explicit data the size setter is not honoured: the
    axis built from [0., 1., 4.] keeps its three samples on a dimension of
    size 5, and only its scaling and offset are overwritten. *)
Example check_axis_explicit_data :
  AxesManager.__init__ [5] [Examples.ax_explicit] (Some []) None
    AxesManager.no_named_axes
  = Ok (AxesManager.mk [5]
          [Axis.mk "" "" (Some [0; 1; 4]%float) 0 (Some 1%float)
             (Some 0%float) 3]
          (Some []) (Some [0])).
Proof. vm_compute. reflexivity. Qed.

Lemma manage_no_named_axes (self : AxesManager.t) :
  AxesManager._manage_named_axes self AxesManager.no_named_axes = Ok self.
Proof. reflexivity. Qed.

Lemma compute_sig_indexes_some (self : AxesManager.t) (nav : list Z) :
  AxesManager._nav_indexes self = Some nav ->
  exists sig, AxesManager.compute_sig_indexes self = Ok sig.
Proof.
  intros H. unfold AxesManager.compute_sig_indexes, AxesManager.nav_indexes.
  rewrite H. eexists. reflexivity.
Qed.

(** The soundness the check establishes. *)
Lemma check_axis_in_shape (s : AxesManager.t) (l : list Axis.t) :
  let shape := AxesManager._data_shape s in
  Forall (in_shape shape) l ->
  exists am,
    AxesManager._check_axis s l = Ok am
    /\ AxesManager._data_shape am = shape
    /\ Forall2 (checked shape) l (AxesManager._axes am)
    /\ Forall (fun a => compact a -> size_agrees shape a)
         (AxesManager._axes am).
Proof.
  intros shape Hl.
  destruct (check_loop_in_shape s l Hl) as [l' [Hloop [H2 [_ Hall]]]].
  exists (AxesManager.with_axes s l'). unfold AxesManager._check_axis.
  rewrite Hloop. cbn [bind]. repeat split; assumption.
Qed.

Lemma init_in_shape (shape : list Z) (axes : list Axis.t) (nav : list Z)
    (sig : option (list Z)) :
  Forall (in_shape shape) axes ->
  exists am,
    AxesManager.__init__ shape axes (Some nav) sig AxesManager.no_named_axes
    = Ok am
    /\ AxesManager._data_shape am = shape
    /\ Forall2 (checked shape) axes (AxesManager._axes am)
    /\ Forall (fun a => compact a -> size_agrees shape a)
         (AxesManager._axes am).
Proof.
  intros Haxes. unfold AxesManager.__init__.
  assert (Hsig : exists sg,
             match sig with
             | Some s => Ok s
             | None => AxesManager.compute_sig_indexes
                         (AxesManager.mk shape axes (Some nav) None)
             end = Ok sg).
  { destruct sig as [s | ]; [exists s; reflexivity | ].
    apply (compute_sig_indexes_some _ nav). reflexivity. }
  destruct Hsig as [sg Hsg]. rewrite Hsg. cbn [bind].
  destruct (check_axis_in_shape
              (AxesManager.with_sig_indexes
                 (AxesManager.mk shape axes (Some nav) None) (Some sg))
              axes Haxes) as [am [Ham Hrest]].
  cbn [AxesManager.with_sig_indexes AxesManager._axes
       AxesManager._data_shape] in *.
  exists am. rewrite Ham. cbn [bind].
  rewrite manage_no_named_axes. split; [reflexivity | exact Hrest].
Qed.

(** C2 (as stated, refuted): the check raises IndexError on an axis tagged
    with dimension 3 of an array of shape (5,). *)
Lemma C2_check_axis_counterexample :
  AxesManager.__init__ [5] [Examples.ax_far] (Some []) None
    AxesManager.no_named_axes
  = Raise IndexError.
Proof. vm_compute. reflexivity. Qed.

(** Construction with a tuple of navigation indices raises IndexError as
    soon as an axis is tagged outside the shape. *)
Lemma init_out_of_shape (shape : list Z) (axes : list Axis.t) (nav : list Z)
    (sig : option (list Z)) (kw : AxesManager.named_axes) :
  Exists (fun a => ~ in_shape shape a) axes ->
  AxesManager.__init__ shape axes (Some nav) sig kw = Raise IndexError.
Proof.
  intros Hex. unfold AxesManager.__init__.
  assert (Hsig : exists sg,
             match sig with
             | Some s => Ok s
             | None => AxesManager.compute_sig_indexes
                         (AxesManager.mk shape axes (Some nav) None)
             end = Ok sg).
  { destruct sig as [s | ]; [exists s; reflexivity | ].
    apply (compute_sig_indexes_some _ nav). reflexivity. }
  destruct Hsig as [sg Hsg]. rewrite Hsg. cbn [bind].
  pose proof (check_axis_out_of_shape
                (AxesManager.with_sig_indexes
                   (AxesManager.mk shape axes (Some nav) None) (Some sg))
                axes Hex) as Hck.
  cbn [AxesManager.with_sig_indexes AxesManager._axes
       AxesManager._data_shape] in *.
  rewrite Hck. reflexivity.
Qed.

(** C2 (amended): [_check_axis], the assignment to [axes] and the
    construction with a tuple of navigation indices and without the
    named-axis keywords do not raise when every axis handed to them is
    tagged with a dimension of the shape: an axis whose size agrees with
    the shape is kept, a compact axis whose size disagrees becomes the
    linear axis of the right size with scaling 1 and offset 0, and
    afterwards every compact axis has [size == data_shape[index]]; the
    same holds of [append_axis] for the axis appended.  When an axis
    handed to them is tagged outside the shape, each of them raises
    IndexError. *)
Theorem C2_check_axis (self : AxesManager.t) (axes : list Axis.t)
    (axis : Axis.t) (nav : list Z) (sig : option (list Z)) :
  let shape := AxesManager._data_shape self in
  let sound am :=
    Forall (fun a => compact a -> size_agrees shape a) (AxesManager._axes am) in
  (Forall (in_shape shape) axes ->
   (exists am,
       AxesManager._check_axis self axes = Ok am
       /\ AxesManager._data_shape am = shape
       /\ Forall2 (checked shape) axes (AxesManager._axes am)
       /\ sound am)
   /\ (exists am,
          AxesManager.__init__ shape axes (Some nav) sig
            AxesManager.no_named_axes = Ok am
          /\ AxesManager._data_shape am = shape
          /\ Forall2 (checked shape) axes (AxesManager._axes am)
          /\ sound am)
   /\ (exists am,
          AxesManager.set_axes self axes = Ok am
          /\ AxesManager._data_shape am = shape
          /\ Forall2 (checked shape) axes (AxesManager._axes am)
          /\ sound am))
  /\ (in_shape shape axis ->
      exists am,
        AxesManager.append_axis self axis = Ok am
        /\ AxesManager._data_shape am = shape
        /\ Forall2 (checked shape) [axis] (AxesManager._axes am)
        /\ sound am)
  /\ (Exists (fun a => ~ in_shape shape a) axes ->
      AxesManager._check_axis self axes = Raise IndexError
      /\ AxesManager.__init__ shape axes (Some nav) sig
           AxesManager.no_named_axes = Raise IndexError
      /\ AxesManager.set_axes self axes = Raise IndexError)
  /\ (~ in_shape shape axis ->
      AxesManager.append_axis self axis = Raise IndexError).
Proof.
  intros shape sound.
  split; [ | split; [ | split]].
  - intros Haxes. split; [ | split].
    + apply check_axis_in_shape. exact Haxes.
    + apply init_in_shape. exact Haxes.
    + unfold AxesManager.set_axes.
      apply (check_axis_in_shape (AxesManager.with_axes self axes) axes).
      exact Haxes.
  - intros Haxis. unfold AxesManager.append_axis.
    apply (check_axis_in_shape
             (AxesManager.with_axes self (AxesManager._axes self ++ [axis]))
             [axis] (Forall_cons _ Haxis (Forall_nil _))).
  - intros Hex. split; [ | split].
    + apply check_axis_out_of_shape. exact Hex.
    + apply init_out_of_shape. exact Hex.
    + unfold AxesManager.set_axes.
      apply (check_axis_out_of_shape (AxesManager.with_axes self axes) axes).
      exact Hex.
  - intros Haxis. unfold AxesManager.append_axis.
    apply (check_axis_out_of_shape
             (AxesManager.with_axes self (AxesManager._axes self ++ [axis]))
             [axis]).
    constructor. exact Haxis.
Qed.

Lemma C2_check_axis_witness :
  (exists am,
      AxesManager.__init__ [5; 6; 7] [Examples.ax1; Examples.axis3] (Some [0])
        None AxesManager.no_named_axes = Ok am
      /\ AxesManager._data_shape am = [5; 6; 7]
      /\ Forall2 (checked [5; 6; 7]) [Examples.ax1; Examples.axis3]
           (AxesManager._axes am)
      /\ Forall (fun a => compact a -> size_agrees [5; 6; 7] a)
           (AxesManager._axes am))
  /\ AxesManager.append_axis (AxesManager.mk [5] [] (Some []) (Some [0]))
       Examples.ax_far = Raise IndexError.
Proof.
  split.
  - apply (proj1 (proj2
             (proj1 (C2_check_axis (AxesManager.mk [5; 6; 7] [] None None)
                       [Examples.ax1; Examples.axis3] Examples.ax0 [0] None)
                ltac:(repeat constructor; cbn; lia)))).
  - apply (proj2 (proj2 (proj2
             (C2_check_axis (AxesManager.mk [5] [] (Some []) (Some [0]))
                [] Examples.ax_far [] None)))).
    unfold in_shape. cbn. lia.
Defined.



(** ** The nav_indexes setter *)

Lemma Zmem_In (x : Z) (l : list Z) : Zmem x l = true <-> In x l.
Proof.
  unfold Zmem. rewrite existsb_exists. split.
  - intros [y [Hy Heq]]. apply Z.eqb_eq in Heq. subst. exact Hy.
  - intros H. exists x. split; [exact H | apply Z.eqb_refl].
Qed.

Lemma Zmem_not_In (x : Z) (l : list Z) : Zmem x l = false <-> ~ In x l.
Proof.
  rewrite <- Zmem_In. destruct (Zmem x l); split; congruence.
Qed.

Lemma filter_all {A : Type} (p : A -> bool) (l : list A) :
  (forall x, In x l -> p x = true) -> filter p l = l.
Proof.
  induction l as [ | y r IH]; intros H; cbn; [reflexivity | ].
  rewrite (H y (or_introl eq_refl)). f_equal.
  apply IH. intros x Hx. apply H. right. exact Hx.
Qed.

(** Popping the first occurrence from a list without repetition filters
    the value out. *)
Lemma remove_first_filter (x : Z) (l : list Z) :
  NoDup l -> remove_first x l = filter (fun i => negb (Z.eqb i x)) l.
Proof.
  induction 1 as [ | y r Hy Hr IH]; cbn; [reflexivity | ].
  rewrite (Z.eqb_sym y x).
  destruct (Z.eqb_spec x y) as [Heq | Hne]; cbn.
  - subst y. symmetry. apply filter_all.
    intros z Hz. destruct (Z.eqb_spec z x); [subst; contradiction | reflexivity].
  - rewrite IH. reflexivity.
Qed.

Lemma sig_step_filter (x : Z) (l : list Z) :
  NoDup l ->
  (if Zmem x l then remove_first x l else l)
  = filter (fun i => negb (Z.eqb i x)) l.
Proof.
  intros Hl. destruct (Zmem x l) eqn:E.
  - apply remove_first_filter. exact Hl.
  - symmetry. apply filter_all. intros z Hz.
    apply Zmem_not_In in E.
    destruct (Z.eqb_spec z x); [subst; contradiction | reflexivity].
Qed.

Lemma filter_filter {A : Type} (p q : A -> bool) (l : list A) :
  filter p (filter q l) = filter (fun x => q x && p x) l.
Proof.
  induction l as [ | y r IH]; cbn; [reflexivity | ].
  destruct (q y); cbn; [destruct (p y) | ]; rewrite IH; reflexivity.
Qed.

Lemma sig_fold_filter (nav l : list Z) :
  NoDup l ->
  fold_left
    (fun indexes index =>
       if Zmem index indexes then remove_first index indexes else indexes)
    nav l
  = filter (fun i => negb (Zmem i nav)) l.
Proof.
  revert l. induction nav as [ | x nav IH]; intros l Hl; cbn [fold_left].
  - symmetry. apply filter_all. reflexivity.
  - rewrite (sig_step_filter x l Hl).
    rewrite IH by (apply NoDup_filter; exact Hl).
    rewrite filter_filter. apply filter_ext. intros i.
    unfold Zmem. cbn [existsb].
    destruct (Z.eqb i x); reflexivity.
Qed.

Lemma NoDup_range (n : Z) : NoDup (range n).
Proof.
  unfold range. apply Finite.Injective_map_NoDup.
  - intros a b. apply Nat2Z.inj.
  - apply seq_NoDup.
Qed.

(** [compute_sig_indexes] is the complement of the navigation indices
    within the dimension indices. *)
Lemma compute_sig_indexes_complement (self : AxesManager.t) (nav : list Z) :
  AxesManager._nav_indexes self = Some nav ->
  AxesManager.compute_sig_indexes self
  = Ok (complement (AxesManager._data_shape self) nav).
Proof.
  intros H. unfold AxesManager.compute_sig_indexes, AxesManager.nav_indexes.
  rewrite H. f_equal. apply sig_fold_filter. apply NoDup_range.
Qed.

Lemma nav_valid_forallb (self : AxesManager.t) (nav : list Z) :
  AxesManager.nav_valid self nav
  = forallb (fun i => Zmem i (AxesManager.get_axes_index self)) nav.
Proof.
  induction nav as [ | i r IH]; cbn; [reflexivity | ].
  destruct (Zmem i (AxesManager.get_axes_index self)); cbn;
    [exact IH | reflexivity].
Qed.

Lemma sig_valid_forallb (self : AxesManager.t) (nav sig : list Z) :
  AxesManager._nav_indexes self = Some nav ->
  (forall i, In i sig -> ~ In i nav) ->
  AxesManager.sig_valid self sig
  = Ok (forallb (fun i => Zmem i (AxesManager.get_axes_index self)) sig).
Proof.
  intros Hnav. induction sig as [ | i r IH]; intros Hdis; cbn;
    [reflexivity | ].
  rewrite Hnav.
  assert (Hi : Zmem i nav = false)
    by (apply Zmem_not_In; apply Hdis; left; reflexivity).
  rewrite Hi.
  destruct (Zmem i (AxesManager.get_axes_index self)); cbn;
    [ | reflexivity].
  apply IH. intros j Hj. apply Hdis. right. exact Hj.
Qed.

Lemma complement_not_nav (shape nav : list Z) (i : Z) :
  In i (complement shape nav) -> ~ In i nav.
Proof.
  unfold complement. rewrite filter_In. intros [_ H].
  apply Zmem_not_In. destruct (Zmem i nav); [discriminate | reflexivity].
Qed.


Lemma forallb_declared_false (idx l : list Z) :
  forallb (fun i => Zmem i idx) l = false <-> (exists i, In i l /\ ~ In i idx).
Proof.
  induction l as [ | x r IH]; cbn.
  - split; [discriminate | intros [i [[] _]]].
  - destruct (Zmem x idx) eqn:E; cbn.
    + rewrite IH. split.
      * intros [i [Hi Hn]]. exists i. split; [right; exact Hi | exact Hn].
      * intros [i [[Hi | Hi] Hn]].
        -- subst i. apply Zmem_In in E. contradiction.
        -- exists i. split; assumption.
    + split; [ | reflexivity]. intros _. exists x.
      split; [left; reflexivity | apply Zmem_not_In; exact E].
Qed.

(** What the assignment does, in terms of the two validation loops. *)
Lemma set_nav_indexes_spec (self : AxesManager.t) (old nav : list Z) :
  AxesManager._nav_indexes self = Some old ->
  let idx := AxesManager.get_axes_index self in
  let shape := AxesManager._data_shape self in
  let nav' := if forallb (fun i => Zmem i idx) nav then nav else old in
  AxesManager.set_nav_indexes self (Some nav)
  = Ok (AxesManager.mk shape (AxesManager._axes self) (Some nav')
          (if forallb (fun i => Zmem i idx) (complement shape nav')
           then Some (complement shape nav')
           else AxesManager._sig_indexes self)).
Proof.
  intros Hold idx shape nav'. unfold AxesManager.set_nav_indexes.
  rewrite nav_valid_forallb. fold idx. subst nav'.
  destruct (forallb (fun i => Zmem i idx) nav).
  - set (self1 := AxesManager.with_nav_indexes self (Some nav)).
    rewrite (compute_sig_indexes_complement self1 nav eq_refl). cbn [bind].
    unfold AxesManager.set_sig_indexes.
    rewrite (sig_valid_forallb self1 nav _ eq_refl (complement_not_nav _ nav)).
    cbn [bind].
    change (AxesManager.get_axes_index self1) with idx.
    change (AxesManager._data_shape self1) with shape.
    destruct (forallb _ (complement shape nav)); reflexivity.
  - rewrite (compute_sig_indexes_complement self old Hold). cbn [bind].
    unfold AxesManager.set_sig_indexes.
    rewrite (sig_valid_forallb self old _ Hold (complement_not_nav _ old)).
    cbn [bind]. fold idx. fold shape.
    destruct (forallb _ (complement shape old)).
    + unfold AxesManager.with_sig_indexes. rewrite Hold. reflexivity.
    + destruct self as [sh ax nv sg]. cbn in *. subst nv. reflexivity.
Qed.





(** ** AxesManager.__init__ *)

Ltac bind_inv H :=
  repeat match type of H with
    | bind ?m _ = Ok _ =>
        let E := fresh "E" in
        destruct m eqn:E; cbn [bind] in H; [ | discriminate H]
    | (let '(_, _) := ?p in _) = Ok _ => destruct p
    | (if ?c then _ else _) = Ok _ => destruct c
    | match ?x with _ => _ end = Ok _ => destruct x
    | Raise _ = Ok _ => discriminate H
    end.

Lemma same_indexes_refl (s : AxesManager.t) : same_indexes s s.
Proof. repeat split. Qed.

Lemma same_indexes_trans (s1 s2 s3 : AxesManager.t) :
  same_indexes s1 s2 -> same_indexes s2 s3 -> same_indexes s1 s3.
Proof.
  unfold same_indexes. intros [A [B C]] [D [E F]].
  repeat split; congruence.
Qed.

Lemma check_axis_same_indexes (s s' : AxesManager.t) (l : list Axis.t) :
  AxesManager._check_axis s l = Ok s' -> same_indexes s s'.
Proof.
  unfold AxesManager._check_axis. intros H. bind_inv H.
  injection H as <-. repeat split.
Qed.

Lemma append_rebuilt_same_indexes (s s' : AxesManager.t) (a : Axis.t) (i : Z) :
  AxesManager.append_rebuilt s a i = Ok s' -> same_indexes s s'.
Proof.
  unfold AxesManager.append_rebuilt. intros H. bind_inv H.
  injection H as <-. repeat split.
Qed.

Lemma manage_x_axis_same_indexes (s s' : AxesManager.t) (xa : option Axis.t)
    (m : bool) :
  AxesManager.manage_x_axis s xa = Ok (s', m) -> same_indexes s s'.
Proof.
  unfold AxesManager.manage_x_axis. intros H.
  destruct xa as [xa | ].
  - match type of H with
    | bind ?c _ = _ => destruct c as [index | ]
    end; cbn [bind] in H; [ | discriminate H].
    destruct (AxesManager.append_rebuilt s xa index) as [s1 | ] eqn:E;
      cbn [bind] in H; [ | discriminate H].
    injection H as <- _. exact (append_rebuilt_same_indexes _ _ _ _ E).
  - injection H as <- _. apply same_indexes_refl.
Qed.

Lemma manage_y_axis_same_indexes (s s' : AxesManager.t) (ya : option Axis.t)
    (m m' : bool) :
  AxesManager.manage_y_axis s m ya = Ok (s', m') -> same_indexes s s'.
Proof.
  unfold AxesManager.manage_y_axis. intros H.
  destruct ya as [ya | ]; [ | injection H as <- _; apply same_indexes_refl].
  destruct (_ =? 2); [ | injection H as <- _; apply same_indexes_refl].
  destruct (AxesManager._has_get_axis_from_index s 0) as [[has o] | ];
    cbn [bind] in H; [ | discriminate H].
  destruct (negb has); [ | injection H as <- _; apply same_indexes_refl].
  destruct (AxesManager.append_rebuilt s ya 0) as [s1 | ] eqn:E;
    cbn [bind] in H; [ | discriminate H].
  injection H as <- _. exact (append_rebuilt_same_indexes _ _ _ _ E).
Qed.

Lemma manage_nav_axis_same_indexes (s s' : AxesManager.t)
    (na : option Axis.t) (k : Z) (m m' : bool) :
  AxesManager.manage_nav_axis s m na k = Ok (s', m') -> same_indexes s s'.
Proof.
  unfold AxesManager.manage_nav_axis. intros H.
  destruct na as [na | ]; [ | injection H as <- _; apply same_indexes_refl].
  destruct (AxesManager.nav_indexes s) as [nav | ]; [ | discriminate H].
  destruct (len nav >? k); [ | injection H as <- _; apply same_indexes_refl].
  destruct (getitem nav k) as [index | ]; cbn [bind] in H; [ | discriminate H].
  destruct (AxesManager.append_rebuilt s na index) as [s1 | ] eqn:E;
    cbn [bind] in H; [ | discriminate H].
  injection H as <- _. exact (append_rebuilt_same_indexes _ _ _ _ E).
Qed.

Lemma manage_named_axes_same_indexes (s s' : AxesManager.t)
    (kw : AxesManager.named_axes) :
  AxesManager._manage_named_axes s kw = Ok s' -> same_indexes s s'.
Proof.
  unfold AxesManager._manage_named_axes. intros H.
  destruct (AxesManager.manage_x_axis s _) as [[s1 m1] | ] eqn:E1;
    cbn [bind] in H; [ | discriminate H].
  destruct (AxesManager.manage_y_axis s1 m1 _) as [[s2 m2] | ] eqn:E2;
    cbn [bind] in H; [ | discriminate H].
  destruct (AxesManager.manage_nav_axis s2 m2 _ 0) as [[s3 m3] | ] eqn:E3;
    cbn [bind] in H; [ | discriminate H].
  destruct (AxesManager.manage_nav_axis s3 m3 _ 1) as [[s4 m4] | ] eqn:E4;
    cbn [bind] in H; [ | discriminate H].
  apply manage_x_axis_same_indexes in E1.
  apply manage_y_axis_same_indexes in E2.
  apply manage_nav_axis_same_indexes in E3.
  apply manage_nav_axis_same_indexes in E4.
  assert (H4 : same_indexes s s4)
    by (eauto using same_indexes_trans).
  destruct m4.
  - apply check_axis_same_indexes in H. eauto using same_indexes_trans.
  - injection H as <-. exact H4.
Qed.

(** The constructor stores the [nav_indexes] it is given, whatever they
    are. *)
Lemma init_nav_indexes_verbatim (shape : list Z) (axes : list Axis.t)
    (nav sig : option (list Z)) (kw : AxesManager.named_axes)
    (am : AxesManager.t) :
  AxesManager.__init__ shape axes nav sig kw = Ok am ->
  AxesManager._nav_indexes am = nav /\ AxesManager._data_shape am = shape.
Proof.
  unfold AxesManager.__init__. intros H.
  destruct (match sig with Some s => Ok s | None => _ end) as [sg | ];
    cbn [bind] in H; [ | discriminate H].
  destruct (AxesManager._check_axis _ _) as [s1 | ] eqn:E1;
    cbn [bind] in H; [ | discriminate H].
  apply check_axis_same_indexes in E1.
  apply manage_named_axes_same_indexes in H.
  destruct (same_indexes_trans _ _ _ E1 H) as [Hs [Hn _]].
  split; [exact Hn | exact Hs].
Qed.

(** C9 (as stated, refuted): with [nav_indexes=(7,)] on an array of shape
    (5,), no axes and a [nav_x_axis] keyword, construction raises
    IndexError: the named axis is tagged with dimension 7. *)
Lemma C9_init_nav_indexes_counterexample :
  ~ In 7 (map Axis.index (@nil Axis.t))
  /\ AxesManager.__init__ [5] [] (Some [7]) None
       (AxesManager.mk_named_axes None None (Some Examples.ax_nav) None)
     = Raise IndexError.
Proof. split; [intros [] | vm_compute; reflexivity]. Qed.

(** C9 (amended): when every axis is tagged with a dimension of the shape
    and no named-axis keyword is given, construction succeeds for any
    [nav_indexes] tuple, and [nav_indexes] is the supplied tuple verbatim
    even if it holds an index without a declared axis; the later
    assignment of that tuple goes through the setter's validation, which
    keeps the previous value instead.  Whenever a construction succeeds,
    with or without keywords, [nav_indexes] is the supplied tuple. *)
Theorem C9_init_nav_indexes (shape : list Z) (axes : list Axis.t)
    (nav : list Z) (sig : option (list Z)) :
  Forall (in_shape shape) axes ->
  (exists am,
      AxesManager.__init__ shape axes (Some nav) sig AxesManager.no_named_axes
      = Ok am
      /\ AxesManager._nav_indexes am = Some nav
      /\ ((exists i, In i nav /\ ~ In i (AxesManager.get_axes_index am)) ->
          forall old am0,
            AxesManager._nav_indexes am0 = Some old ->
            AxesManager._axes am0 = AxesManager._axes am ->
            exists am1,
              AxesManager.set_nav_indexes am0 (Some nav) = Ok am1
              /\ AxesManager._nav_indexes am1 = Some old))
  /\ (forall kw am,
         AxesManager.__init__ shape axes (Some nav) sig kw = Ok am ->
         AxesManager._nav_indexes am = Some nav).
Proof.
  intros Haxes. split.
  - destruct (init_in_shape shape axes nav sig Haxes) as [am [Ham _]].
    exists am. split; [exact Ham | ].
    split; [exact (proj1 (init_nav_indexes_verbatim _ _ _ _ _ _ Ham)) | ].
    intros Hex old am0 Hold Hax.
    pose proof (set_nav_indexes_spec am0 old nav Hold) as Hspec.
    cbv zeta in Hspec.
    assert (Hidx : AxesManager.get_axes_index am0 = AxesManager.get_axes_index am)
      by (unfold AxesManager.get_axes_index; rewrite Hax; reflexivity).
    rewrite Hidx in Hspec.
    apply forallb_declared_false in Hex. rewrite Hex in Hspec.
    eexists. split; [exact Hspec | reflexivity].
  - intros kw am Ham.
    exact (proj1 (init_nav_indexes_verbatim _ _ _ _ _ _ Ham)).
Qed.

Lemma C9_init_nav_indexes_witness :
  exists am,
    AxesManager.__init__ [5; 6] [Examples.ax0] (Some [0; 4]) None
      AxesManager.no_named_axes = Ok am
    /\ AxesManager._nav_indexes am = Some [0; 4].
Proof.
  destruct (proj1 (C9_init_nav_indexes [5; 6] [Examples.ax0] [0; 4] None
                     ltac:(repeat constructor; cbn; lia)))
    as [am [Ham [Hnav _]]].
  exists am. split; [exact Ham | exact Hnav].
Defined.


(** ** DataBase: dimensionality *)

Lemma shape_eqb_eq (s1 s2 : list Z) : Np.shape_eqb s1 s2 = true <-> s1 = s2.
Proof.
  unfold Np.shape_eqb. destruct (list_eq_dec Z.eq_dec s1 s2); split;
    congruence.
Qed.

Lemma shape_eqb_refl (s : list Z) : Np.shape_eqb s s = true.
Proof. apply shape_eqb_eq. reflexivity. Qed.

Lemma check_data_type_inv (d : DataBase.data_arg) (l : list Np.ndarray) :
  DataBase._check_data_type d = Ok l ->
  exists first rest, l = first :: rest /\ len (Np.shape first) <> 0.
Proof.
  unfold DataBase._check_data_type. intros H.
  destruct (match d with
            | DataBase.DataList l0 => Some l0
            | DataBase.DataArray a => Some [a]
            | DataBase.DataNumber x => Some [Np.mk_ndarray [1] [x]]
            | _ => None
            end) as [l0 | ]; [ | discriminate H].
  destruct l0 as [ | first rest]; [discriminate H | ].
  cbn in H. destruct (Z.eqb_spec (len (Np.shape first)) 0); [discriminate H | ].
  injection H as <-. exists first, rest. split; [reflexivity | assumption].
Qed.

Lemma check_same_shape_inv (self : DataBase.t) (l : list Np.ndarray) :
  DataBase._check_same_shape self l = Ok tt ->
  Forall (fun a => Np.shape a = DataBase._shape self) l.
Proof.
  induction l as [ | a r IH]; cbn; intros H; constructor.
  - destruct (Np.shape_eqb (Np.shape a) (DataBase.shape self)) eqn:E;
      [ | discriminate H].
    apply shape_eqb_eq in E. exact E.
  - apply IH.
    destruct (Np.shape_eqb (Np.shape a) (DataBase.shape self));
      [exact H | discriminate H].
Qed.

(** The dimensionality [get_dim_from_data] derives from a shape and a
    size. *)
Lemma dim_cases (shape : list Z) (size : Z) (dim : DataDim) :
  dim = (if (len shape =? 1) && (size =? 1) then Data0D
         else if (len shape =? 1) && (size >? 1) then Data1D
         else if len shape =? 2 then Data2D
         else DataND) ->
  (len shape = 1 -> size = 1 -> dim = Data0D)
  /\ (len shape = 1 -> size > 1 -> dim = Data1D)
  /\ (len shape = 2 -> dim = Data2D)
  /\ (~ (len shape = 1 /\ size >= 1) -> len shape <> 2 -> dim = DataND).
Proof.
  intros ->.
  destruct (Z.eqb_spec (len shape) 1) as [H1 | H1];
    destruct (Z.eqb_spec size 1) as [S1 | S1];
    destruct (Z.gtb_spec size 1) as [G1 | G1];
    destruct (Z.eqb_spec (len shape) 2) as [H2 | H2];
    cbn; repeat split; intros; try reflexivity; try lia.
Qed.

(** What a successful construction has established. *)
Lemma DataBase_init_inv (name : string) (source : DataSource)
    (dim : option DataDim) (distribution : DataDistribution)
    (d : DataBase.data_arg) (labels : list string) (origin : option string)
    (self : DataBase.t) :
  DataBase.__init__ name source dim distribution d labels origin = Ok self ->
  exists first rest,
    DataBase._check_data_type d = Ok (first :: rest)
    /\ DataBase._data self = first :: rest
    /\ DataBase._shape self = Np.shape first
    /\ DataBase._size self = Np.size first
    /\ DataBase._length self = len (first :: rest)
    /\ DataBase._name self = name
    /\ DataBase.origin self = origin
    /\ Forall (fun a => Np.shape a = Np.shape first) (first :: rest)
    /\ DataBase._dim self
       = Some (if (len (Np.shape first) =? 1) && (Np.size first =? 1)
               then Data0D
               else if (len (Np.shape first) =? 1) && (Np.size first >? 1)
                    then Data1D
                    else if len (Np.shape first) =? 2 then Data2D
                         else DataND).
Proof.
  unfold DataBase.__init__, DataBase.set_data. intros H.
  destruct (DataBase._check_data_type d) as [l | ] eqn:Ed;
    cbn [bind] in H; [ | discriminate H].
  destruct (check_data_type_inv d l Ed) as [first [rest [-> Hnd]]].
  unfold DataBase._check_shape_dim_consistency, DataBase.get_dim_from_data,
    DataBase.check_shape_from_data in H.
  cbn [getitem nth_error Z.to_nat bind] in H.
  set (dimv := if (len (Np.shape first) =? 1) && (Np.size first =? 1)
               then Data0D
               else if (len (Np.shape first) =? 1) && (Np.size first >? 1)
                    then Data1D
                    else if len (Np.shape first) =? 2 then Data2D
                         else DataND) in *.
  cbn [DataBase.with_length DataBase.with_size DataBase.with_shape
       DataBase._shape DataBase._size DataBase._dim DataBase._name
       DataBase.origin DataBase._source DataBase._distribution
       DataBase._data DataBase._length DataBase._labels] in H.
  fold dimv in H.
  match type of H with
  | bind (bind ?c _) _ = _ =>
      assert (Hc : c = Ok (DataBase.mk name origin source distribution
                             (Some dimv) [] (Np.shape first) (Np.size first)
                             (len (first :: rest)) []))
  end.
  { destruct dim as [given | ]; [ | reflexivity].
    destruct (DataDim_eqb given dimv) eqn:E; cbn [negb]; [ | reflexivity].
    assert (given = dimv) by (destruct given, dimv; cbn in E; congruence).
    subst given. reflexivity. }
  rewrite Hc in H. cbn [bind] in H.
  destruct (DataBase._check_same_shape _ _) as [[] | ] eqn:Es;
    cbn [bind] in H; [ | discriminate H].
  apply check_same_shape_inv in Es. cbn in Es.
  injection H as <-. exists first, rest. cbn.
  repeat split; try reflexivity; assumption.
Qed.

(** Construction succeeds on a non-empty list of arrays of one shape with
    at least one dimension. *)
Lemma DataBase_init_total (name : string) (source : DataSource)
    (dim : option DataDim) (distribution : DataDistribution)
    (first : Np.ndarray) (rest : list Np.ndarray) (labels : list string)
    (origin : option string) :
  len (Np.shape first) <> 0 ->
  Forall (fun a => Np.shape a = Np.shape first) rest ->
  exists self,
    DataBase.__init__ name source dim distribution
      (DataBase.DataList (first :: rest)) labels origin = Ok self.
Proof.
  intros Hnd Hrest.
  unfold DataBase.__init__, DataBase.set_data, DataBase._check_data_type.
  cbn [getitem nth_error Z.to_nat bind].
  destruct (Z.eqb_spec (len (Np.shape first)) 0) as [ | _]; [contradiction | ].
  cbn [bind].
  unfold DataBase._check_shape_dim_consistency, DataBase.get_dim_from_data,
    DataBase.check_shape_from_data.
  cbn [getitem nth_error Z.to_nat bind].
  match goal with
  | |- exists self, bind (bind ?c _) _ = _ =>
      assert (Hc : exists s1, c = Ok s1
                              /\ DataBase._shape s1 = Np.shape first)
  end.
  { cbn [DataBase.with_length DataBase.with_size DataBase.with_shape
         DataBase._dim].
    destruct dim as [given | ]; [ | eexists; split; reflexivity].
    destruct (negb _); eexists; split; reflexivity. }
  destruct Hc as [s1 [-> Hs1]]. cbn [bind].
  assert (Hsame : DataBase._check_same_shape s1 (first :: rest) = Ok tt).
  { assert (Hall : Forall (fun a => Np.shape a = Np.shape first) (first :: rest))
      by (constructor; [reflexivity | exact Hrest]).
    revert Hall. generalize (first :: rest) as l.
    induction l as [ | a r IH]; intros Hall; cbn; [reflexivity | ].
    inversion Hall as [ | ? ? Ha Hr]; subst.
    unfold DataBase.shape. rewrite Hs1, Ha, shape_eqb_refl. cbn.
    apply IH. exact Hr. }
  rewrite Hsame. cbn [bind]. eexists. reflexivity.
Qed.

Lemma DataBase_init_wf (name : string) (source : DataSource)
    (dim : option DataDim) (distribution : DataDistribution)
    (d : DataBase.data_arg) (labels : list string) (origin : option string)
    (self : DataBase.t) :
  DataBase.__init__ name source dim distribution d labels origin = Ok self ->
  DataBase_wf self.
Proof.
  intros H. apply DataBase_init_inv in H.
  destruct H as [first [rest [_ [Hd [Hs [_ [Hl [_ [_ [Hall _]]]]]]]]]].
  split.
  - rewrite Hl, Hd. reflexivity.
  - rewrite Hd, Hs. exact Hall.
Qed.

(** The shapes quoted by the specification. *)
Example dim_of_quoted_shapes :
  (exists d, DataBase.__init__ "d" raw None uniform
               (DataBase.DataList [Np.zeros [1]]) [] None = Ok d
             /\ DataBase.dim d = Some Data0D)
  /\ (exists d, DataBase.__init__ "d" raw None uniform
                  (DataBase.DataList [Np.zeros [100]]) [] None = Ok d
                /\ DataBase.dim d = Some Data1D)
  /\ (exists d, DataBase.__init__ "d" raw None uniform
                  (DataBase.DataList [Np.zeros [50; 100]]) [] None = Ok d
                /\ DataBase.dim d = Some Data2D)
  /\ (exists d, DataWithAxes.__init__ "d" raw None uniform
                  (DataBase.DataList [Np.zeros [3; 50; 100]]) [] None
                  [] (Some []) AxesManager.no_named_axes = Ok d
                /\ DataBase.dim (DataWithAxes.base d) = Some DataND).
Proof.
  repeat split; eexists; (split; [vm_compute; reflexivity | reflexivity]).
Qed.

(** The arrays [_check_data_type] makes of the [data] argument. *)
Lemma check_data_type_arg (d : DataBase.data_arg) (first : Np.ndarray)
    (rest : list Np.ndarray) :
  DataBase._check_data_type d = Ok (first :: rest) ->
  d = DataBase.DataList (first :: rest)
  \/ (d = DataBase.DataArray first /\ rest = [])
  \/ (exists v, d = DataBase.DataNumber v
                /\ first = Np.mk_ndarray [1] [v] /\ rest = []).
Proof.
  unfold DataBase._check_data_type.
  destruct d as [ | l | a | v | ]; cbn; try discriminate.
  - destruct l as [ | a l]; cbn; [discriminate | ].
    destruct (len (Np.shape a) =? 0); [discriminate | ].
    intros H. injection H as -> ->. left. reflexivity.
  - destruct (len (Np.shape a) =? 0); [discriminate | ].
    intros H. injection H as -> <-. right. left. split; reflexivity.
  - intros H. injection H as <- <-. right. right. exists v.
    repeat split.
Qed.

(** C6: a DataBase constructed without a forced [dim] holds the arrays it
    was given (a lone array or a number wrapped in a list), a non-empty
    list of arrays of one shape; its [shape] is the shape of the first
    array, its [size] the product of that shape, and its [dim] is Data0D
    for a shape of length 1 and size 1, Data1D for a shape of length 1 and
    size greater than 1, Data2D for a shape of length 2, and DataND for
    any other shape.  The construction succeeds on every non-empty list
    of arrays of one shape with at least one dimension. *)
Theorem C6_dim_from_shape (name : string) (source : DataSource)
    (distribution : DataDistribution) (labels : list string)
    (origin : option string) :
  let init d :=
    DataBase.__init__ name source None distribution d labels origin in
  (forall d self,
      init d = Ok self ->
      exists first rest,
        (d = DataBase.DataList (first :: rest)
         \/ (d = DataBase.DataArray first /\ rest = [])
         \/ (exists v, d = DataBase.DataNumber v
                       /\ first = Np.mk_ndarray [1] [v] /\ rest = []))
        /\ DataBase.data self = first :: rest
        /\ Forall (fun a => Np.shape a = Np.shape first) rest
        /\ DataBase.shape self = Np.shape first
        /\ DataBase.size self = fold_left Z.mul (Np.shape first) 1
        /\ (len (Np.shape first) = 1 -> DataBase.size self = 1 ->
            DataBase.dim self = Some Data0D)
        /\ (len (Np.shape first) = 1 -> DataBase.size self > 1 ->
            DataBase.dim self = Some Data1D)
        /\ (len (Np.shape first) = 2 -> DataBase.dim self = Some Data2D)
        /\ (~ (len (Np.shape first) = 1 /\ DataBase.size self >= 1) ->
            len (Np.shape first) <> 2 ->
            DataBase.dim self = Some DataND))
  /\ (forall first rest,
         Np.shape first <> [] ->
         Forall (fun a => Np.shape a = Np.shape first) rest ->
         exists self, init (DataBase.DataList (first :: rest)) = Ok self).
Proof.
  intros init. split.
  - intros d self H. apply DataBase_init_inv in H.
    destruct H as [first [rest [Hck [Hd [Hs [Hz [_ [_ [_ [Hall Hdim]]]]]]]]]].
    exists first, rest.
    unfold DataBase.dim, DataBase.data, DataBase.shape, DataBase.size.
    rewrite Hd, Hs, Hz, Hdim.
    split; [exact (check_data_type_arg d first rest Hck) | ].
    split; [reflexivity | ].
    split; [inversion Hall; assumption | ].
    split; [reflexivity | ]. split; [reflexivity | ].
    destruct (dim_cases (Np.shape first) (Np.size first) _ eq_refl)
      as [A [B [C D]]].
    repeat split; intros; f_equal; auto.
  - intros first rest Hne Hrest.
    apply DataBase_init_total; [ | exact Hrest].
    unfold len. destruct (Np.shape first); [contradiction | ].
    cbn [List.length]. lia.
Qed.

Lemma C6_dim_from_shape_witness :
  exists self,
    DataBase.__init__ "d" raw None uniform
      (DataBase.DataList [Np.zeros [100]; Np.zeros [100]]) [] None = Ok self
    /\ DataBase.data self = [Np.zeros [100]; Np.zeros [100]]
    /\ DataBase.shape self = [100]
    /\ DataBase.size self = 100
    /\ DataBase.dim self = Some Data1D.
Proof.
  destruct (proj2 (C6_dim_from_shape "d" raw uniform [] None)
              (Np.zeros [100]) [Np.zeros [100]]
              ltac:(discriminate) ltac:(repeat constructor))
    as [self Hself].
  exists self. split; [exact Hself | ].
  destruct (proj1 (C6_dim_from_shape "d" raw uniform [] None) _ self Hself)
    as [first [rest [Harg [Hd [_ [Hs [Hz [_ [H1 _]]]]]]]]].
  destruct Harg as [Harg | [[Harg _] | [v [Harg _]]]]; try discriminate Harg.
  injection Harg as <- <-.
  split; [exact Hd | ]. split; [exact Hs | ]. split; [exact Hz | ].
  apply H1; [reflexivity | rewrite Hz; reflexivity].
Defined.


(** ** DataBase: addition, subtraction and equality *)

Example db_one_built :
  DataBase.__init__ "a" raw None uniform
    (DataBase.DataList [Np.mk_ndarray [1] [1%float]]) [] None
  = Ok Examples.db_one.
Proof. vm_compute. reflexivity. Qed.

Example db_big_built :
  DataBase.__init__ "b" raw None uniform
    (DataBase.DataList [Np.mk_ndarray [1] [1e20%float]]) [] None
  = Ok Examples.db_big.
Proof. vm_compute. reflexivity. Qed.

Lemma nth_error_middle {A : Type} (p : list A) (x : A) (s : list A) :
  nth_error (p ++ x :: s) (List.length p) = Some x.
Proof. induction p as [ | y p IH]; cbn; [reflexivity | exact IH]. Qed.

Lemma getitem_middle (d : DataBase.t) (p : list Np.ndarray) (x : Np.ndarray)
    (s : list Np.ndarray) :
  DataBase._data d = p ++ x :: s ->
  DataBase._length d = len (DataBase._data d) ->
  DataBase.__getitem__ d (Z.of_nat (List.length p)) = Ok x.
Proof.
  intros Hd Hl. unfold DataBase.__getitem__, DataBase.__len__, DataBase.length.
  rewrite Hl, Hd. unfold len. rewrite length_app. cbn [List.length].
  destruct (Z.leb_spec 0 (Z.of_nat (List.length p))); [ | lia].
  destruct (Z.ltb_spec (Z.of_nat (List.length p))
              (Z.of_nat (List.length p + S (List.length s)))); [ | lia].
  cbn [andb]. unfold getitem, DataBase.data. rewrite Hd, Nat2Z.id.
  rewrite nth_error_middle. reflexivity.
Qed.

Lemma list_set_middle {A : Type} (p : list A) (x v : A) (s : list A) :
  DataBase.list_set (p ++ x :: s) (List.length p) v = Ok (p ++ v :: s).
Proof.
  induction p as [ | y p IH]; cbn; [reflexivity | ].
  rewrite IH. reflexivity.
Qed.

Lemma setitem_middle (a : DataBase.t) (p : list Np.ndarray)
    (x v : Np.ndarray) (s : list Np.ndarray) :
  DataBase._length a = len (p ++ x :: s) ->
  Np.shape v = DataBase._shape a ->
  DataBase.__setitem__ (DataBase.with_data a (p ++ x :: s))
    (Z.of_nat (List.length p)) v
  = Ok (DataBase.with_data a (p ++ v :: s)).
Proof.
  intros Hl Hs. unfold DataBase.__setitem__, DataBase.__len__, DataBase.length.
  cbn [DataBase.with_data DataBase._length DataBase.shape DataBase._shape
       DataBase.data DataBase._data].
  rewrite Hl, Hs, shape_eqb_refl. unfold len. rewrite length_app.
  cbn [List.length].
  destruct (Z.leb_spec 0 (Z.of_nat (List.length p))); [ | lia].
  destruct (Z.ltb_spec (Z.of_nat (List.length p))
              (Z.of_nat (List.length p + S (List.length s)))); [ | lia].
  cbn [andb]. rewrite Nat2Z.id, list_set_middle. reflexivity.
Qed.

Lemma with_data_same (a : DataBase.t) :
  DataBase.with_data a (DataBase._data a) = a.
Proof. destruct a. reflexivity. Qed.

Lemma range_len {A : Type} (l : list A) :
  range (len l) = map Z.of_nat (seq 0 (List.length l)).
Proof. unfold range, len. rewrite Nat2Z.id. reflexivity. Qed.

Section Loops.

Variable np_broadcast :
  (float -> float -> float) -> Np.ndarray -> Np.ndarray -> result Np.ndarray.

(** The addition loop, started at any index: the arrays still to visit are
    replaced by the sums. *)
Lemma add_loop_spec (self other a : DataBase.t) :
  DataBase._length self = len (DataBase._data self) ->
  DataBase._length other = len (DataBase._data other) ->
  DataBase._length a = len (DataBase._data self) ->
  forall ss so,
    Forall2 (fun x y => Np.shape x = Np.shape y) ss so ->
    Forall (fun x => Np.shape x = DataBase._shape a) ss ->
    forall ps po pre,
      DataBase._data self = ps ++ ss ->
      DataBase._data other = po ++ so ->
      List.length po = List.length ps ->
      List.length pre = List.length ps ->
      DataBase.add_loop np_broadcast self other
        (DataBase.with_data a (pre ++ ss))
        (map Z.of_nat (seq (List.length ps) (List.length ss)))
      = Ok (DataBase.with_data a (pre ++ zipw PrimFloat.add ss so)).
Proof.
  intros Hls Hlo Hla ss so H2.
  induction H2 as [ | x y ss so Hxy H2 IH]; intros Hsh ps po pre Hs Ho Hpo Hpre.
  - reflexivity.
  - inversion Hsh as [ | ? ? Hx Hss]; subst.
    cbn [List.length seq map DataBase.add_loop].
    rewrite (getitem_middle self ps x ss Hs Hls). cbn [bind].
    rewrite <- Hpo.
    rewrite (getitem_middle other po y so Ho Hlo). cbn [bind].
    rewrite Hxy, shape_eqb_refl. cbn [negb].
    unfold DataBase.np_binop. rewrite Hxy, shape_eqb_refl. cbn [bind].
    rewrite Hpo, <- Hpre.
    rewrite setitem_middle;
      [ | rewrite Hla, Hs; unfold len; rewrite !length_app; cbn; lia
        | cbn; congruence ].
    cbn [bind].
    specialize (IH Hss (ps ++ [x]) (po ++ [y])
                  (pre ++ [Np.mk_ndarray (Np.shape y)
                             (Np.map2 PrimFloat.add (Np.flat x) (Np.flat y))])).
    rewrite !length_app in IH. cbn [List.length] in IH.
    rewrite <- !app_assoc in IH. cbn [app] in IH.
    rewrite Hpre, <- (Nat.add_1_r (List.length ps)).
    rewrite IH; try assumption; try lia.
    unfold zipw. cbn. rewrite Hxy. reflexivity.
Qed.

(** The subtraction loop, likewise. *)
Lemma sub_loop_spec (self other a : DataBase.t) :
  DataBase._length self = len (DataBase._data self) ->
  DataBase._length other = len (DataBase._data other) ->
  DataBase._length a = len (DataBase._data self) ->
  forall ss so,
    Forall2 (fun x y => Np.shape x = Np.shape y) ss so ->
    Forall (fun x => Np.shape x = DataBase._shape a) ss ->
    forall ps po pre,
      DataBase._data self = ps ++ ss ->
      DataBase._data other = po ++ so ->
      List.length po = List.length ps ->
      List.length pre = List.length ps ->
      DataBase.sub_loop np_broadcast self other
        (DataBase.with_data a (pre ++ ss))
        (map Z.of_nat (seq (List.length ps) (List.length ss)))
      = Ok (DataBase.with_data a (pre ++ zipw PrimFloat.sub ss so)).
Proof.
  intros Hls Hlo Hla ss so H2.
  induction H2 as [ | x y ss so Hxy H2 IH]; intros Hsh ps po pre Hs Ho Hpo Hpre.
  - reflexivity.
  - inversion Hsh as [ | ? ? Hx Hss]; subst.
    cbn [List.length seq map DataBase.sub_loop].
    rewrite (getitem_middle self ps x ss Hs Hls). cbn [bind].
    rewrite <- Hpo.
    rewrite (getitem_middle other po y so Ho Hlo). cbn [bind].
    unfold DataBase.np_binop. rewrite Hxy, shape_eqb_refl. cbn [bind].
    rewrite Hpo, <- Hpre.
    rewrite setitem_middle;
      [ | rewrite Hla, Hs; unfold len; rewrite !length_app; cbn; lia
        | cbn; congruence ].
    cbn [bind].
    specialize (IH Hss (ps ++ [x]) (po ++ [y])
                  (pre ++ [Np.mk_ndarray (Np.shape y)
                             (Np.map2 PrimFloat.sub (Np.flat x) (Np.flat y))])).
    rewrite !length_app in IH. cbn [List.length] in IH.
    rewrite <- !app_assoc in IH. cbn [app] in IH.
    rewrite Hpre, <- (Nat.add_1_r (List.length ps)).
    rewrite IH; try assumption; try lia.
    unfold zipw. cbn. rewrite Hxy. reflexivity.
Qed.

End Loops.

(** The comparison loop: the arrays still to visit are compared pairwise. *)
Lemma eq_loop_spec (self other : DataBase.t) :
  DataBase._length self = len (DataBase._data self) ->
  DataBase._length other = len (DataBase._data other) ->
  forall ss so,
    Forall2 (fun x y => Np.shape x = Np.shape y) ss so ->
    forall ps po eq,
      DataBase._data self = ps ++ ss ->
      DataBase._data other = po ++ so ->
      List.length po = List.length ps ->
      DataBase.eq_loop self other
        (map Z.of_nat (seq (List.length ps) (List.length ss))) eq
      = Ok (eq && forallb (fun p => DataBase.allclose (fst p) (snd p))
                    (combine ss so)).
Proof.
  intros Hls Hlo ss so H2.
  induction H2 as [ | x y ss so Hxy H2 IH]; intros ps po eq Hs Ho Hpo.
  - cbn. rewrite andb_true_r. reflexivity.
  - cbn [List.length seq map DataBase.eq_loop].
    rewrite (getitem_middle self ps x ss Hs Hls). cbn [bind].
    rewrite <- Hpo.
    rewrite (getitem_middle other po y so Ho Hlo). cbn [bind].
    rewrite Hxy, shape_eqb_refl. cbn [negb].
    specialize (IH (ps ++ [x]) (po ++ [y]) (eq && DataBase.allclose x y)).
    rewrite !length_app in IH. cbn [List.length] in IH.
    rewrite <- !app_assoc in IH. cbn [app] in IH.
    rewrite Hpo, <- (Nat.add_1_r (List.length ps)).
    rewrite IH; try assumption; try lia.
    cbn. rewrite andb_assoc. reflexivity.
Qed.

Lemma zipw_length (f : float -> float -> float) (la lb : list Np.ndarray) :
  List.length la = List.length lb ->
  List.length (zipw f la lb) = List.length la.
Proof.
  intros H. unfold zipw. rewrite length_map, length_combine. lia.
Qed.

Lemma zipw_shapes (f : float -> float -> float) (la lb : list Np.ndarray) :
  Forall2 (fun x y => Np.shape x = Np.shape y) la lb ->
  Forall2 (fun x y => Np.shape x = Np.shape y) (zipw f la lb) lb
  /\ Forall2 (fun x y => Np.shape x = Np.shape y) (zipw f la lb) la.
Proof.
  induction 1 as [ | x y la lb Hxy H2 [IH1 IH2]]; cbn.
  - split; constructor.
  - split; constructor; cbn; try assumption; reflexivity.
Qed.

Lemma zipw_shape_all (f : float -> float -> float) (la lb : list Np.ndarray)
    (sh : list Z) :
  Forall (fun x => Np.shape x = sh) la ->
  Forall (fun x => Np.shape x = sh) (zipw f la lb).
Proof.
  intros H. revert lb. induction H as [ | x la Hx Hla IH]; intros lb.
  - constructor.
  - destruct lb as [ | y lb]; cbn; constructor; [exact Hx | apply IH].
Qed.

Lemma round_trip_forallb (la lb : list Np.ndarray) :
  forallb (fun p => DataBase.allclose (fst p) (snd p))
    (combine (zipw PrimFloat.sub (zipw PrimFloat.add la lb) lb) la)
  = forallb (fun p => round_trip_close (fst p) (snd p)) (combine la lb).
Proof.
  unfold zipw.
  revert lb. induction la as [ | x la IH]; intros lb; [reflexivity | ].
  destruct lb as [ | y lb]; [reflexivity | ].
  cbn [combine map forallb fst snd]. rewrite IH. reflexivity.
Qed.

(** C8 (as stated, refuted): for a = [1.] and b = [1e20] the sum rounds to
    1e20, so (a + b) - b is [0.], which is not close to [1.]:
    [(a + b) - b == a] is False. *)
Lemma C8_add_sub_counterexample :
  exists s r,
    DataBase.__add__ no_broadcast Examples.db_one Examples.db_big = Ok s
    /\ DataBase.__sub__ no_broadcast s Examples.db_big = Ok r
    /\ DataBase.data r = [Np.mk_ndarray [1] [0%float]]
    /\ DataBase.__eq__ r Examples.db_one = Ok false.
Proof.
  do 2 eexists.
  split; [vm_compute; reflexivity | ].
  split; [vm_compute; reflexivity | ].
  split; vm_compute; reflexivity.
Qed.

(** C8 (amended): for two DataBase [a] and [b] of the same length whose
    arrays have pairwise the same shape, [a + b] and then [- b] are
    computed without raising; the result has the name, the length and the
    shapes of [a], its arrays hold (x + y) - y element by element, and
    [(a + b) - b == a] is True exactly when every array pair satisfies
    [np.allclose((x + y) - y, x)] in binary64 arithmetic. *)
Theorem C8_add_sub_eq
    (np_broadcast :
       (float -> float -> float) -> Np.ndarray -> Np.ndarray -> result Np.ndarray)
    (a b : DataBase.t) :
  DataBase_wf a ->
  DataBase._length b = len (DataBase._data b) ->
  DataBase.__len__ a = DataBase.__len__ b ->
  Forall2 (fun x y => Np.shape x = Np.shape y)
    (DataBase.data a) (DataBase.data b) ->
  exists s r,
    DataBase.__add__ np_broadcast a b = Ok s
    /\ DataBase.__sub__ np_broadcast s b = Ok r
    /\ r = DataBase.with_data a
             (zipw PrimFloat.sub
                (zipw PrimFloat.add (DataBase.data a) (DataBase.data b))
                (DataBase.data b))
    /\ DataBase.__eq__ r a
       = Ok (forallb (fun p => round_trip_close (fst p) (snd p))
               (combine (DataBase.data a) (DataBase.data b))).
Proof.
  intros [Hla Hsh] Hlb Hlen H2.
  unfold DataBase.data in *.
  assert (Hn : List.length (DataBase._data b) = List.length (DataBase._data a)).
  { unfold DataBase.__len__, DataBase.length in Hlen.
    rewrite Hla, Hlb in Hlen. unfold len in Hlen. lia. }
  set (sums := zipw PrimFloat.add (DataBase._data a) (DataBase._data b)).
  set (diffs := zipw PrimFloat.sub sums (DataBase._data b)).
  assert (Hsums : List.length sums = List.length (DataBase._data a))
    by (apply zipw_length; lia).
  exists (DataBase.with_data a sums), (DataBase.with_data a diffs).
  split; [ | split; [ | split]].
  - unfold DataBase.__add__, deepcopy. rewrite <- Hlen, Z.eqb_refl.
    unfold DataBase.__len__, DataBase.length. rewrite Hla, range_len.
    pose proof (add_loop_spec np_broadcast a b a Hla Hlb Hla
                  (DataBase._data a) (DataBase._data b) H2 Hsh
                  [] [] [] eq_refl eq_refl eq_refl eq_refl) as Hloop.
    cbn [app List.length] in Hloop. rewrite with_data_same in Hloop.
    exact Hloop.
  - unfold DataBase.__sub__, deepcopy.
    unfold DataBase.__len__, DataBase.length.
    cbn [DataBase.with_data DataBase._length].
    unfold DataBase.__len__, DataBase.length in Hlen.
    rewrite <- Hlen, Z.eqb_refl. rewrite Hla, range_len, <- Hsums.
    pose proof (sub_loop_spec np_broadcast (DataBase.with_data a sums) b a)
      as Hloop.
    cbn [DataBase.with_data DataBase._length DataBase._data] in Hloop.
    specialize (Hloop ltac:(rewrite Hla; unfold len; congruence) Hlb
                  ltac:(rewrite Hla; unfold len; congruence)
                  sums (DataBase._data b)
                  (proj1 (zipw_shapes _ _ _ H2))
                  (zipw_shape_all _ _ _ _ Hsh)
                  [] [] [] eq_refl eq_refl eq_refl eq_refl).
    cbn [app List.length] in Hloop. exact Hloop.
  - reflexivity.
  - unfold DataBase.__eq__, DataBase.name, DataBase.__len__, DataBase.length.
    cbn [DataBase.with_data DataBase._name DataBase._length].
    rewrite String.eqb_refl, Z.eqb_refl. cbn [andb negb].
    rewrite Hla, range_len.
    assert (Hdiffs : List.length diffs = List.length (DataBase._data a))
      by (unfold diffs; rewrite zipw_length; lia).
    rewrite <- Hdiffs.
    pose proof (eq_loop_spec (DataBase.with_data a diffs) a) as Hloop.
    cbn [DataBase.with_data DataBase._length DataBase._data] in Hloop.
    specialize (Hloop ltac:(rewrite Hla; unfold len; congruence) Hla
                  diffs (DataBase._data a)).
    assert (Hshapes : Forall2 (fun x y => Np.shape x = Np.shape y)
                        diffs (DataBase._data a)).
    { unfold diffs.
      assert (Hs2 : Forall2 (fun x y => Np.shape x = Np.shape y)
                      sums (DataBase._data b))
        by (apply zipw_shapes; exact H2).
      clear - H2 Hs2. unfold sums in *.
      revert Hs2. induction H2 as [ | x y la lb Hxy H2 IH]; cbn; intros Hs2.
      - constructor.
      - inversion Hs2; subst. constructor; [reflexivity | ].
        apply IH. assumption. }
    specialize (Hloop Hshapes [] [] true eq_refl eq_refl eq_refl).
    cbn [app List.length andb] in Hloop. rewrite Hloop.
    unfold diffs, sums. rewrite round_trip_forallb. reflexivity.
Qed.

Lemma C8_add_sub_eq_witness :
  exists s r,
    DataBase.__add__ no_broadcast Examples.db_one Examples.db_one = Ok s
    /\ DataBase.__sub__ no_broadcast s Examples.db_one = Ok r
    /\ r = DataBase.with_data Examples.db_one
             (zipw PrimFloat.sub
                (zipw PrimFloat.add (DataBase.data Examples.db_one)
                   (DataBase.data Examples.db_one))
                (DataBase.data Examples.db_one))
    /\ DataBase.__eq__ r Examples.db_one
       = Ok (forallb (fun p => round_trip_close (fst p) (snd p))
               (combine (DataBase.data Examples.db_one)
                  (DataBase.data Examples.db_one))).
Proof.
  apply (C8_add_sub_eq no_broadcast Examples.db_one Examples.db_one).
  - split; [reflexivity | repeat constructor].
  - reflexivity.
  - reflexivity.
  - repeat constructor.
Defined.


(** ** DataToExport.append *)

Example dwa_built (name : string) (origin : option string) (v : float) :
  DataWithAxes.__init__ name raw None uniform
    (DataBase.DataList [Np.mk_ndarray [1] [v]]) [] origin [] (Some [])
    AxesManager.no_named_axes
  = Ok (Examples.dwa name origin v).
Proof. reflexivity. Qed.

Lemma first_match_Some {A : Type} (p : A -> bool) (l : list A) (ind : Z)
    (obj : A) (pos : Z) :
  first_match p l ind = Some (obj, pos) ->
  exists pre suf,
    l = pre ++ obj :: suf
    /\ pos = ind + len pre
    /\ p obj = true
    /\ Forall (fun m => p m = false) pre.
Proof.
  revert ind. induction l as [ | m rest IH]; intros ind H; cbn in H;
    [discriminate H | ].
  destruct (p m) eqn:E.
  - injection H as -> <-. exists [], rest.
    repeat split; [cbn; lia | exact E | constructor].
  - destruct (IH _ H) as [pre [suf [-> [-> [Hp Hpre]]]]].
    exists (m :: pre), suf. repeat split.
    + unfold len. cbn [List.length]. lia.
    + exact Hp.
    + constructor; assumption.
Qed.

Lemma first_match_None {A : Type} (p : A -> bool) (l : list A) (ind : Z) :
  first_match p l ind = None -> Forall (fun m => p m = false) l.
Proof.
  revert ind. induction l as [ | m rest IH]; intros ind H; cbn in H;
    [constructor | ].
  destruct (p m) eqn:E; [discriminate H | ].
  constructor; [exact E | exact (IH _ H)].
Qed.

Lemma first_match_ext {A : Type} (p q : A -> bool) (l : list A) (ind : Z) :
  (forall m, p m = q m) -> first_match p l ind = first_match q l ind.
Proof.
  intros H. revert ind. induction l as [ | m rest IH]; intros ind; cbn;
    [reflexivity | ].
  rewrite H, IH. reflexivity.
Qed.

Section Lookup.

Variables (A V : Type).
Variable attr : A -> V.
Variable eqb : V -> V -> bool.

Lemma find_all_from_head (l : list A) (v : V) (ind : Z) :
  hd_error (DaqUtils.find_all_from A V attr eqb l v ind)
  = first_match (fun m => eqb (attr m) v) l ind.
Proof.
  revert ind. induction l as [ | m rest IH]; intros ind; cbn;
    [reflexivity | ].
  destruct (eqb (attr m) v); [reflexivity | apply IH].
Qed.

(** Searching the selected objects finds the first selected pair. *)
Lemma find_in_selection (sel : list (A * Z)) (v : V) (k0 : Z) :
  match DaqUtils.find_all_from A V attr eqb (map fst sel) v k0 with
  | (obj, k) :: _ =>
      exists j ind,
        k = k0 + Z.of_nat j
        /\ nth_error sel j = Some (obj, ind)
        /\ find (fun p => eqb (attr (fst p)) v) sel = Some (obj, ind)
  | [] => find (fun p => eqb (attr (fst p)) v) sel = None
  end.
Proof.
  revert k0. induction sel as [ | [m i] rest IH]; intros k0; cbn;
    [reflexivity | ].
  destruct (eqb (attr m) v) eqn:E.
  - exists O, i. repeat split. lia.
  - specialize (IH (k0 + 1)).
    destruct (DaqUtils.find_all_from A V attr eqb (map fst rest) v (k0 + 1))
      as [ | [obj k] tl]; [exact IH | ].
    destruct IH as [j [ind [Hk [Hnth Hfind]]]].
    exists (S j), ind. repeat split; [lia | exact Hnth | exact Hfind].
Qed.

End Lookup.

Lemma find_selection_first_match (q : DataWithAxes.t -> bool)
    (l : list DataWithAxes.t) (nm : string) (ind : Z) :
  find (fun p => q (fst p))
    (DaqUtils.find_all_from _ _ DataWithAxes.name String.eqb l nm ind)
  = first_match (fun m => String.eqb (DataWithAxes.name m) nm && q m) l ind.
Proof.
  revert ind. induction l as [ | m rest IH]; intros ind; cbn;
    [reflexivity | ].
  destruct (String.eqb (DataWithAxes.name m) nm); cbn.
  - destruct (q m); [reflexivity | apply IH].
  - apply IH.
Qed.

(** The lookup of [append] returns the first member that answers it. *)
Lemma get_data_from_name_origin_spec (self : DataToExport.t)
    (x : DataWithAxes.t) :
  DataToExport.get_data_from_name_origin self (DataWithAxes.name x)
    (DataWithAxes.origin x)
  = first_match (key_match x) (DataToExport.data self) 0.
Proof.
  unfold DataToExport.get_data_from_name_origin, key_match.
  destruct (DataWithAxes.origin x) as [o | ] eqn:Eo.
  - set (sel := DaqUtils.find_all _ _ DataWithAxes.name String.eqb
                  (DataToExport.data self) (DataWithAxes.name x)).
    unfold DaqUtils.find_first, DaqUtils.find_all.
    pose proof (find_in_selection _ _ DataWithAxes.origin
                  DataToExport.option_string_eqb sel (Some o) 0) as Hsel.
    rewrite <- (find_selection_first_match
                  (fun m => DataToExport.option_string_eqb
                              (DataWithAxes.origin m) (Some o))).
    fold (DaqUtils.find_all _ _ DataWithAxes.name String.eqb
            (DataToExport.data self) (DataWithAxes.name x)).
    fold sel.
    destruct (DaqUtils.find_all_from _ _ DataWithAxes.origin
                DataToExport.option_string_eqb (map fst sel) (Some o) 0)
      as [ | [obj k] tl].
    + symmetry. exact Hsel.
    + destruct Hsel as [j [ind [Hk [Hnth Hfind]]]].
      rewrite Hfind. f_equal. f_equal.
      rewrite Hk. cbn. rewrite Nat2Z.id.
      apply nth_error_nth. rewrite nth_error_map, Hnth. reflexivity.
  - unfold DaqUtils.find_first, DaqUtils.find_all.
    pose proof (find_all_from_head _ _ DataWithAxes.name String.eqb
                  (DataToExport.data self) (DataWithAxes.name x) 0) as Hhd.
    rewrite (first_match_ext _
               (fun m => String.eqb (DataWithAxes.name m) (DataWithAxes.name x)))
      by (intros m; apply andb_true_r).
    rewrite <- Hhd.
    destruct (DaqUtils.find_all_from _ _ DataWithAxes.name String.eqb
                (DataToExport.data self) (DataWithAxes.name x) 0)
      as [ | [obj k] tl]; reflexivity.
Qed.

(** Comparing two members whose length attributes are right never
    raises. *)
Lemma eq_loop_total (self other : DataBase.t) :
  DataBase._length self = len (DataBase._data self) ->
  DataBase._length other = len (DataBase._data other) ->
  forall ss so ps po eq,
    DataBase._data self = ps ++ ss ->
    DataBase._data other = po ++ so ->
    List.length po = List.length ps ->
    List.length so = List.length ss ->
    exists r,
      DataBase.eq_loop self other
        (map Z.of_nat (seq (List.length ps) (List.length ss))) eq = Ok r.
Proof.
  intros Hls Hlo ss.
  induction ss as [ | x ss IH]; intros so ps po eq Hs Ho Hpo Hso.
  - exists eq. reflexivity.
  - destruct so as [ | y so]; [discriminate Hso | ].
    cbn [List.length seq map DataBase.eq_loop].
    rewrite (getitem_middle self ps x ss Hs Hls). cbn [bind].
    rewrite <- Hpo.
    rewrite (getitem_middle other po y so Ho Hlo). cbn [bind].
    destruct (negb _); [exists false; reflexivity | ].
    specialize (IH so (ps ++ [x]) (po ++ [y]) (eq && DataBase.allclose x y)).
    rewrite !length_app in IH. cbn [List.length] in IH.
    rewrite <- !app_assoc in IH. cbn [app] in IH.
    rewrite Hpo, <- (Nat.add_1_r (List.length ps)).
    apply IH; try assumption; try lia.
    cbn in Hso. lia.
Qed.

Lemma member_eq_total (m obj : DataWithAxes.t) :
  member_wf m -> member_wf obj ->
  exists r, DataWithAxes.__eq__ m obj = Ok r.
Proof.
  unfold member_wf, DataWithAxes.__eq__, DataBase.__eq__. intros Hm Ho.
  destruct (String.eqb _ _); cbn [andb negb]; [ | exists false; reflexivity].
  destruct (Z.eqb_spec (DataBase.__len__ (DataWithAxes.base m))
              (DataBase.__len__ (DataWithAxes.base obj))) as [Hlen | _];
    cbn [negb]; [ | exists false; reflexivity].
  unfold DataBase.__len__, DataBase.length in *.
  rewrite Hm, range_len.
  apply (eq_loop_total _ _ Hm Ho _ (DataBase._data (DataWithAxes.base obj))
           [] [] true eq_refl eq_refl eq_refl).
  rewrite Hm, Ho in Hlen. unfold len in Hlen. lia.
Qed.

(** [self.data.index(obj)] stops at the object itself at the latest, and
    exactly there when no earlier member compares equal to it. *)
Lemma list_index_spec (pre : list DataWithAxes.t) :
  forall (ind : Z) (obj item : DataWithAxes.t) (suf : list DataWithAxes.t),
    Forall member_wf pre -> member_wf obj ->
    exists i : nat,
      DataToExport.list_index (pre ++ item :: suf) obj (ind + len pre) ind
      = Ok (ind + Z.of_nat i)
      /\ (i <= List.length pre)%nat
      /\ (Forall (fun m => DataWithAxes.__eq__ m obj = Ok false) pre ->
          i = List.length pre).
Proof.
  induction pre as [ | m pre IH]; intros ind obj item suf Hpre Hobj.
  - exists O. cbn. rewrite Z.add_0_r, Z.eqb_refl. repeat split. lia.
  - inversion Hpre as [ | ? ? Hm Hpre']; subst.
    cbn [app DataToExport.list_index].
    assert (Hne : (ind =? ind + len (m :: pre)) = false).
    { apply Z.eqb_neq. unfold len. cbn [List.length]. lia. }
    rewrite Hne.
    destruct (member_eq_total m obj Hm Hobj) as [r Hr]. rewrite Hr.
    cbn [bind]. destruct r.
    + exists O. rewrite Z.add_0_r. repeat split; [cbn; lia | ].
      intros Hall. inversion Hall; subst. congruence.
    + destruct (IH (ind + 1) obj item suf Hpre' Hobj) as [i [Hi [Hle Hlast]]].
      exists (S i).
      replace (ind + len (m :: pre)) with (ind + 1 + len pre)
        by (unfold len; cbn [List.length]; lia).
      rewrite Hi. repeat split.
      * f_equal. lia.
      * cbn. lia.
      * intros Hall. inversion Hall; subst. cbn. f_equal. auto.
Qed.

Lemma pop_middle {A : Type} (pre : list A) (x : A) (suf : list A) :
  DataToExport.pop (pre ++ x :: suf) (List.length pre) = pre ++ suf.
Proof.
  induction pre as [ | y pre IH]; cbn; [reflexivity | ].
  rewrite IH. reflexivity.
Qed.

Lemma pop_length {A : Type} (l : list A) (i : nat) :
  (i < List.length l)%nat ->
  S (List.length (DataToExport.pop l i)) = List.length l.
Proof.
  revert i. induction l as [ | y l IH]; intros i Hi; cbn in *; [lia | ].
  destruct i as [ | i]; [reflexivity | ].
  cbn. rewrite IH by lia. reflexivity.
Qed.

Lemma pop_app {A : Type} (l : list A) (x : A) (i : nat) :
  (i < List.length l)%nat ->
  DataToExport.pop (l ++ [x]) i = DataToExport.pop l i ++ [x].
Proof.
  revert i. induction l as [ | y l IH]; intros i Hi; cbn in *; [lia | ].
  destruct i as [ | i]; [reflexivity | ].
  cbn. rewrite IH by lia. reflexivity.
Qed.

Lemma pop_Forall {A : Type} (P : A -> Prop) (l : list A) (i : nat) :
  Forall P l -> Forall P (DataToExport.pop l i).
Proof.
  intros H. revert i. induction H as [ | y l Hy Hl IH]; intros i; cbn.
  - destruct i; constructor.
  - destruct i as [ | i]; [exact Hl | ].
    constructor; [exact Hy | apply IH].
Qed.

Lemma first_match_middle {A : Type} (p : A -> bool) (pre : list A) (x : A)
    (suf : list A) (ind : Z) :
  Forall (fun m => p m = false) pre -> p x = true ->
  first_match p (pre ++ x :: suf) ind = Some (x, ind + len pre).
Proof.
  intros H Hx. revert ind. induction H as [ | m l Hm Hl IH]; intros ind; cbn.
  - rewrite Hx. f_equal. f_equal. unfold len. cbn. lia.
  - rewrite Hm, IH. f_equal. f_equal. unfold len. cbn [List.length]. lia.
Qed.

Lemma member_eq_other_name (m obj : DataWithAxes.t) :
  DataWithAxes.name m <> DataWithAxes.name obj ->
  DataWithAxes.__eq__ m obj = Ok false.
Proof.
  intros H. unfold DataWithAxes.__eq__, DataBase.__eq__.
  unfold DataWithAxes.name in H. apply String.eqb_neq in H. rewrite H.
  reflexivity.
Qed.

(** What [append] does, in terms of the first member that answers its
    lookup. *)
Lemma append_spec (self : DataToExport.t) (x : DataWithAxes.t) :
  Forall member_wf (DataToExport.data self) ->
  (Forall (fun m => key_match x m = false) (DataToExport.data self)
   /\ DataToExport.append self x
      = Ok (DataToExport.mk (DataToExport.name self)
              (DataToExport.data self ++ [x])))
  \/ (exists pre obj suf i,
         DataToExport.data self = pre ++ obj :: suf
         /\ key_match x obj = true
         /\ Forall (fun m => key_match x m = false) pre
         /\ (i <= List.length pre)%nat
         /\ DataToExport.append self x
            = Ok (DataToExport.mk (DataToExport.name self)
                    (DataToExport.pop (DataToExport.data self) i ++ [x]))
         /\ (Forall (fun m => DataWithAxes.__eq__ m obj = Ok false) pre ->
             i = List.length pre)).
Proof.
  intros Hwf. unfold DataToExport.append, deepcopy.
  rewrite get_data_from_name_origin_spec.
  destruct (first_match (key_match x) (DataToExport.data self) 0)
    as [[obj pos] | ] eqn:E.
  - right. destruct (first_match_Some _ _ _ _ _ E)
      as [pre [suf [Hd [Hpos [Hk Hpre]]]]].
    assert (Hwf' : Forall member_wf pre /\ member_wf obj).
    { rewrite Hd in Hwf. apply Forall_app in Hwf. destruct Hwf as [H1 H2].
      inversion H2; subst. split; assumption. }
    destruct Hwf' as [Hwpre Hwobj].
    destruct (list_index_spec pre 0 obj obj suf Hwpre Hwobj)
      as [i [Hi [Hle Hlast]]].
    exists pre, obj, suf, i. rewrite Hpos, Hd, Hi. cbn [bind].
    rewrite Z.add_0_l, Nat2Z.id.
    repeat split; try assumption.
    unfold DataToExport.data in Hd. rewrite Hd. reflexivity.
  - left. split; [exact (first_match_None _ _ _ E) | reflexivity].
Qed.

Lemma key_match_set_origin (x m : DataWithAxes.t) (o : string) :
  DataWithAxes.origin x = Some o ->
  key_match x m = true
  <-> DataWithAxes.name m = DataWithAxes.name x
      /\ DataWithAxes.origin m = Some o.
Proof.
  intros Ho. unfold key_match. rewrite Ho. rewrite andb_true_iff.
  rewrite String.eqb_eq. unfold DataToExport.option_string_eqb.
  destruct (DataWithAxes.origin m) as [om | ].
  - rewrite String.eqb_eq. split; intros [H1 H2]; split; congruence.
  - split; intros [H1 H2]; discriminate.
Qed.

Lemma not_true_false (b : bool) : b <> true -> b = false.
Proof. destruct b; congruence. Qed.

(** An earlier member that compares equal is popped in place of the
    member found: with members ("n", "o1") and ("n", "o2") holding the same
    array, appending another ("n", "o2") drops the "o1" member and leaves
    two members with the pair ("n", "o2"). *)
Example append_pops_equal_earlier_member :
  DataToExport.append
    (DataToExport.__init__ "toexp"
       [Examples.dwa "n" (Some "o1"%string) 0;
        Examples.dwa "n" (Some "o2"%string) 0])
    (Examples.dwa "n" (Some "o2"%string) 5)
  = Ok (DataToExport.mk "toexp"
          [Examples.dwa "n" (Some "o2"%string) 0;
           Examples.dwa "n" (Some "o2"%string) 5]).
Proof. vm_compute. reflexivity. Qed.

(** C3 (as stated, refuted): a member named "n" with origin "o1" is not
    kept when a DataWithAxes named "n" with no origin is appended: the
    lookup is then by name alone. *)
Lemma C3_append_counterexample :
  let a := Examples.dwa "n" (Some "o1"%string) 1 in
  let b := Examples.dwa "n" None 2 in
  DataWithAxes.name a = DataWithAxes.name b
  /\ DataWithAxes.origin a <> DataWithAxes.origin b
  /\ exists d,
       DataToExport.append (DataToExport.__init__ "toexp" [a]) b = Ok d
       /\ DataToExport.data d = [b]
       /\ ~ In a (DataToExport.data d).
Proof.
  cbv zeta. split; [reflexivity | ]. split; [discriminate | ].
  eexists. split; [vm_compute; reflexivity | ].
  split; [reflexivity | ].
  cbn. intros [H | []]. discriminate H.
Qed.

(** When the first member that answers the lookup has no member before
    it that compares equal to it, [append] removes that member and adds
    the new one at the end. *)
Lemma append_replaces (self : DataToExport.t) (x : DataWithAxes.t)
    (pre : list DataWithAxes.t) (obj : DataWithAxes.t)
    (suf : list DataWithAxes.t) :
  Forall member_wf (DataToExport.data self) ->
  DataToExport.data self = pre ++ obj :: suf ->
  key_match x obj = true ->
  Forall (fun m => key_match x m = false) pre ->
  Forall (fun m => DataWithAxes.__eq__ m obj = Ok false) pre ->
  DataToExport.append self x
  = Ok (DataToExport.mk (DataToExport.name self) (pre ++ suf ++ [x])).
Proof.
  intros Hwf Hd Hobj Hpre Heq.
  destruct (append_spec self x Hwf) as [[Hall _] | Hsome].
  - exfalso. rewrite Hd in Hall. apply Forall_app in Hall.
    destruct Hall as [_ Hall]. inversion Hall; subst. congruence.
  - destruct Hsome
      as [pre' [obj' [suf' [i [Hd' [Hk [Hpre' [_ [Happ Hlast]]]]]]]]].
    pose proof (first_match_middle (key_match x) pre obj suf 0 Hpre Hobj)
      as H1.
    pose proof (first_match_middle (key_match x) pre' obj' suf' 0 Hpre' Hk)
      as H2.
    rewrite <- Hd in H1. rewrite <- Hd' in H2. rewrite H1 in H2.
    injection H2 as Hobj' Hlen. subst obj'.
    assert (Hpp : pre' = pre /\ suf' = suf).
    { assert (Hl : List.length pre' = List.length pre)
        by (unfold len in Hlen; lia).
      rewrite Hd in Hd'. clear - Hd' Hl. revert pre' Hd' Hl.
      induction pre as [ | m pre IH]; intros [ | m' pre'] Hd' Hl;
        cbn in *; try discriminate.
      - injection Hd' as <-. split; reflexivity.
      - injection Hd' as <- Hd'.
        destruct (IH pre' Hd' ltac:(lia)) as [-> ->]. split; reflexivity. }
    destruct Hpp as [-> ->].
    rewrite Happ, (Hlast Heq), Hd, pop_middle, <- app_assoc. reflexivity.
Qed.

(** What answering the lookup of [append] means. *)
Lemma key_match_iff (x m : DataWithAxes.t) :
  key_match x m = true
  <-> DataWithAxes.name m = DataWithAxes.name x
      /\ (DataWithAxes.origin x = None
          \/ DataWithAxes.origin m = DataWithAxes.origin x).
Proof.
  unfold key_match. rewrite andb_true_iff, String.eqb_eq.
  destruct (DataWithAxes.origin x) as [o | ] eqn:Eo.
  - unfold DataToExport.option_string_eqb.
    destruct (DataWithAxes.origin m) as [om | ].
    + rewrite String.eqb_eq. split.
      * intros [H1 H2]. split; [exact H1 | right; congruence].
      * intros [H1 [H2 | H2]]; [discriminate | ]. split; congruence.
    + split.
      * intros [_ H]. discriminate H.
      * intros [_ [H | H]]; discriminate H.
  - split; intros [H _]; split; auto.
Qed.

(** C3 (amended): the lookup of [append] is answered by a member with the
    name of [x] and, when the origin of [x] is set, with its origin; with
    the origin of [x] unset the name alone decides.  If no member answers,
    [append] adds [x] at the end and keeps every member; so after
    appending [x] and then a [y] whose origin is set and is not the origin
    of [x], both are members.  If a member answers and no member before
    the first that answers compares equal to it, [append] removes that
    first member and adds [x] at the end, so the length is preserved; with
    the origin of [x] unset this is always so, and the first member with
    the name of [x] is the one replaced. *)
Theorem C3_append (self : DataToExport.t) (x : DataWithAxes.t) :
  Forall member_wf (DataToExport.data self) ->
  member_wf x ->
  let answers m :=
    DataWithAxes.name m = DataWithAxes.name x
    /\ (DataWithAxes.origin x = None
        \/ DataWithAxes.origin m = DataWithAxes.origin x) in
  ((forall m, In m (DataToExport.data self) -> ~ answers m) ->
   DataToExport.append self x
   = Ok (DataToExport.mk (DataToExport.name self)
           (DataToExport.data self ++ [x])))
  /\ (forall pre obj suf,
         DataToExport.data self = pre ++ obj :: suf ->
         answers obj ->
         (forall m, In m pre -> ~ answers m) ->
         (forall m, In m pre -> DataWithAxes.__eq__ m obj = Ok false) ->
         exists d,
           DataToExport.append self x = Ok d
           /\ DataToExport.data d = pre ++ suf ++ [x]
           /\ len (DataToExport.data d) = len (DataToExport.data self))
  /\ (DataWithAxes.origin x = None ->
      forall pre obj suf,
        DataToExport.data self = pre ++ obj :: suf ->
        DataWithAxes.name obj = DataWithAxes.name x ->
        (forall m, In m pre -> DataWithAxes.name m <> DataWithAxes.name x) ->
        DataToExport.append self x
        = Ok (DataToExport.mk (DataToExport.name self) (pre ++ suf ++ [x])))
  /\ (forall y oy,
         DataWithAxes.origin y = Some oy ->
         DataWithAxes.origin x <> Some oy ->
         exists d1 d2,
           DataToExport.append self x = Ok d1
           /\ DataToExport.append d1 y = Ok d2
           /\ In x (DataToExport.data d2)
           /\ In y (DataToExport.data d2)).
Proof.
  intros Hwf Hwx answers.
  assert (Hans : forall m, key_match x m = true <-> answers m)
    by (intros m; apply key_match_iff).
  assert (Hno : forall l,
             (forall m, In m l -> ~ answers m) ->
             Forall (fun m => key_match x m = false) l).
  { intros l Hl. apply Forall_forall. intros m Hm. apply not_true_false.
    intros Hk. apply (Hl m Hm). apply Hans. exact Hk. }
  split; [ | split; [ | split]].
  - intros Hnone.
    destruct (append_spec self x Hwf) as [[_ Happ] | Hsome]; [exact Happ | ].
    destruct Hsome as [pre [obj [suf [i [Hd [Hk _]]]]]].
    exfalso. apply (Hnone obj).
    + rewrite Hd. apply in_or_app. right. left. reflexivity.
    + apply Hans. exact Hk.
  - intros pre obj suf Hd Hobj Hpre Heq.
    eexists. split.
    + apply (append_replaces self x pre obj suf Hwf Hd).
      * apply Hans. exact Hobj.
      * apply Hno. exact Hpre.
      * apply Forall_forall. exact Heq.
    + rewrite Hd. cbn [DataToExport.data DataToExport._data].
      split; [reflexivity | ].
      unfold len. repeat rewrite length_app. cbn [List.length]. lia.
  - intros Ho pre obj suf Hd Hobj Hpre.
    apply (append_replaces self x pre obj suf Hwf Hd).
    + apply Hans. split; [exact Hobj | left; exact Ho].
    + apply Hno. intros m Hm [Hn _]. exact (Hpre m Hm Hn).
    + apply Forall_forall. intros m Hm. apply member_eq_other_name.
      rewrite Hobj. exact (Hpre m Hm).
  - intros y oy Hoy Hneq.
    assert (H1 : exists l1,
               DataToExport.append self x
               = Ok (DataToExport.mk (DataToExport.name self) (l1 ++ [x]))
               /\ Forall member_wf l1).
    { destruct (append_spec self x Hwf) as [[_ Happ] | Hsome].
      - exists (DataToExport.data self). split; assumption.
      - destruct Hsome as [pre [obj [suf [i [_ [_ [_ [_ [Happ _]]]]]]]]].
        exists (DataToExport.pop (DataToExport.data self) i).
        split; [exact Happ | apply pop_Forall; exact Hwf]. }
    destruct H1 as [l1 [Happ1 Hwf1]].
    set (d1 := DataToExport.mk (DataToExport.name self) (l1 ++ [x])).
    assert (Hwfd1 : Forall member_wf (DataToExport.data d1)).
    { cbn. apply Forall_app. split; [exact Hwf1 | ].
      constructor; [exact Hwx | constructor]. }
    assert (Hxy : key_match y x = false).
    { apply not_true_false. intros Hk.
      apply (key_match_set_origin y x oy Hoy) in Hk.
      destruct Hk as [_ Hk]. congruence. }
    exists d1.
    destruct (append_spec d1 y Hwfd1) as [[_ Happ2] | Hsome].
    + eexists. split; [exact Happ1 | ]. split; [exact Happ2 | ].
      cbn. split; apply in_or_app.
      * left. apply in_or_app. right. left. reflexivity.
      * right. left. reflexivity.
    + destruct Hsome as [pre [obj [suf [i [Hd [Hk [_ [Hle [Happ2 _]]]]]]]]].
      cbn [DataToExport.data DataToExport._data d1] in Hd.
      assert (Hsuf : exists suf', suf = suf' ++ [x] /\ l1 = pre ++ obj :: suf').
      { destruct (@exists_last _ (obj :: suf) ltac:(discriminate))
          as [tl [z Htl]].
        rewrite Htl, app_assoc in Hd. apply app_inj_tail in Hd.
        destruct Hd as [Hl1 Hz]. subst z.
        destruct tl as [ | t tl].
        - cbn in Htl. injection Htl as -> _. congruence.
        - cbn in Htl. injection Htl as -> ->.
          exists tl. split; [reflexivity | exact Hl1]. }
      destruct Hsuf as [suf' [-> Hl1]].
      eexists. split; [exact Happ1 | ]. split; [exact Happ2 | ].
      cbn [DataToExport.data DataToExport._data d1].
      rewrite pop_app
        by (rewrite Hl1, length_app; cbn [List.length]; lia).
      split; apply in_or_app.
      * left. apply in_or_app. right. left. reflexivity.
      * right. left. reflexivity.
Qed.

Lemma C3_append_witness :
  (exists d1 d2,
      DataToExport.append (DataToExport.__init__ "toexp" [])
        (Examples.dwa "n" (Some "o1"%string) 1) = Ok d1
      /\ DataToExport.append d1 (Examples.dwa "n" (Some "o2"%string) 2) = Ok d2
      /\ In (Examples.dwa "n" (Some "o1"%string) 1) (DataToExport.data d2)
      /\ In (Examples.dwa "n" (Some "o2"%string) 2) (DataToExport.data d2))
  /\ DataToExport.append
       (DataToExport.mk "toexp"
          [Examples.dwa "m" (Some "o1"%string) 1;
           Examples.dwa "n" (Some "o1"%string) 2;
           Examples.dwa "n" (Some "o2"%string) 3])
       (Examples.dwa "n" None 4)
     = Ok (DataToExport.mk "toexp"
             [Examples.dwa "m" (Some "o1"%string) 1;
              Examples.dwa "n" (Some "o2"%string) 3;
              Examples.dwa "n" None 4]).
Proof.
  split.
  - apply (proj2 (proj2 (proj2
             (C3_append (DataToExport.__init__ "toexp" [])
                (Examples.dwa "n" (Some "o1"%string) 1)
                (Forall_nil _) eq_refl)))
             (Examples.dwa "n" (Some "o2"%string) 2) "o2"%string eq_refl).
    discriminate.
  - apply (proj1 (proj2 (proj2
             (C3_append
                (DataToExport.mk "toexp"
                   [Examples.dwa "m" (Some "o1"%string) 1;
                    Examples.dwa "n" (Some "o1"%string) 2;
                    Examples.dwa "n" (Some "o2"%string) 3])
                (Examples.dwa "n" None 4)
                ltac:(repeat constructor) eq_refl)))
             eq_refl
             [Examples.dwa "m" (Some "o1"%string) 1]
             (Examples.dwa "n" (Some "o1"%string) 2)
             [Examples.dwa "n" (Some "o2"%string) 3]
             eq_refl eq_refl).
    intros m [<- | []]. cbn. discriminate.
Defined.

(** ** DataToExport: origin of the members *)

(** C5 (as stated, refuted): a DataWithAxes without origin appended to the
    DataToExport named "toexp" is stored without origin. *)
Lemma C5_append_origin_counterexample :
  exists d,
    DataToExport.append (DataToExport.__init__ "toexp" [])
      (Examples.dwa "n" None 1) = Ok d
    /\ map DataWithAxes.origin (DataToExport.data d) = [None]
    /\ DataToExport.name d = "toexp"%string.
Proof.
  eexists. split; [vm_compute; reflexivity | ]. split; reflexivity.
Qed.

(** C5 (amended): the members handed to the constructor or assigned to
    [data] are stored with origin [self.name] when their origin is unset
    and with their own origin otherwise; [append] stores its argument at
    the end as it is, origin included, and keeps the name of the
    container. *)
Theorem C5_origin_assignment (self : DataToExport.t) (name : string)
    (ds : list DataWithAxes.t) (x : DataWithAxes.t) :
  Forall member_wf (DataToExport.data self) ->
  let assigned owner m :=
    match DataWithAxes.origin m with
    | None => DataWithAxes.set_origin m (Some owner)
    | Some _ => m
    end in
  DataToExport.__init__ name ds = DataToExport.mk name (map (assigned name) ds)
  /\ DataToExport.set_data self ds
     = DataToExport.mk (DataToExport.name self)
         (map (assigned (DataToExport.name self)) ds)
  /\ (forall m, In m ds ->
        DataWithAxes.origin (assigned name m)
        = Some (match DataWithAxes.origin m with
                | None => name
                | Some o => o
                end))
  /\ (exists d l,
         DataToExport.append self x = Ok d
         /\ DataToExport.data d = l ++ [x]
         /\ DataToExport.name d = DataToExport.name self).
Proof.
  intros Hwf assigned. split; [reflexivity | ]. split; [reflexivity | ].
  split.
  - intros m _. unfold assigned.
    destruct (DataWithAxes.origin m) as [o | ] eqn:E; [exact E | reflexivity].
  - destruct (append_spec self x Hwf) as [[_ Happ] | Hsome].
    + eexists. eexists. split; [exact Happ | ]. split; reflexivity.
    + destruct Hsome as [pre [obj [suf [i [_ [_ [_ [_ [Happ _]]]]]]]]].
      eexists. eexists. split; [exact Happ | ]. split; reflexivity.
Qed.

Lemma C5_origin_assignment_witness :
  exists d l,
    DataToExport.append
      (DataToExport.__init__ "toexp" [Examples.dwa "n" None 1])
      (Examples.dwa "m" None 2) = Ok d
    /\ DataToExport.data d = l ++ [Examples.dwa "m" None 2]
    /\ DataToExport.name d = "toexp"%string.
Proof.
  apply (proj2 (proj2 (proj2
           (C5_origin_assignment
              (DataToExport.__init__ "toexp" [Examples.dwa "n" None 1])
              "toexp" [] (Examples.dwa "m" None 2)
              ltac:(repeat constructor))))).
Defined.

(** * Further properties *)

(** ** Axis.__init__ *)

(** X1: the constructor raises ValueError on a negative index and
    IndexError on an empty data array.  Otherwise it succeeds: without
    data the axis is compact with the scaling and offset given and size 0;
    with data [x :: r] the size is the number of samples, and the axis is
    compact with offset [x] and scaling the mean difference (whatever
    scaling and offset were given) when the samples pass the linearity
    test, and keeps the samples with the scaling and offset given
    otherwise. *)
Theorem X1_axis_init (label units : string) (d : option (list float))
    (ind : Z) (sc off : option float) :
  (ind < 0 -> Axis.__init__ label units d ind sc off = Raise ValueError)
  /\ (0 <= ind -> d = Some [] ->
      Axis.__init__ label units d ind sc off = Raise IndexError)
  /\ (0 <= ind -> d = None ->
      Axis.__init__ label units d ind sc off
      = Ok (Axis.mk label units None ind sc off 0))
  /\ (0 <= ind -> forall x r, d = Some (x :: r) ->
      Axis.__init__ label units d ind sc off
      = Ok (if linear_samples (x :: r)
            then Axis.mk label units None ind
                   (Some (Np.mean (Np.diff (x :: r)))) (Some x)
                   (len (x :: r))
            else Axis.mk label units (Some (x :: r)) ind sc off
                   (len (x :: r)))).
Proof.
  unfold Axis.__init__, Axis.set_index, Axis._check_index_valid.
  repeat split.
  - intros Hneg. destruct (Z.ltb_spec ind 0); [ | lia].
    destruct d; reflexivity.
  - intros Hpos ->. destruct (Z.ltb_spec ind 0); [lia | ]. reflexivity.
  - intros Hpos ->. destruct (Z.ltb_spec ind 0); [lia | ]. reflexivity.
  - intros Hpos x r ->. destruct (Z.ltb_spec ind 0); [lia | ].
    cbn [bind Axis.set_data].
    unfold Axis.get_scale_offset_from_data, Axis.is_axis_linear.
    cbn [Axis.with_data Axis.with_size Axis.with_index Axis._data
         Axis._label Axis._units Axis._index Axis._scaling Axis._offset
         Axis._size].
    fold (linear_samples (x :: r)).
    destruct (linear_samples (x :: r)); reflexivity.
Qed.

Lemma X1_axis_init_witness :
  Axis.__init__ "x" "s" (Some [0; 1; 4]%float) 0 None None
  = Ok (if linear_samples [0; 1; 4]%float
        then Axis.mk "x" "s" None 0
               (Some (Np.mean (Np.diff [0; 1; 4]%float))) (Some 0%float)
               (len [0; 1; 4]%float)
        else Axis.mk "x" "s" (Some [0; 1; 4]%float) 0 None None
               (len [0; 1; 4]%float)).
Proof.
  apply (proj2 (proj2 (proj2
           (X1_axis_init "x" "s" (Some [0; 1; 4]%float) 0 None None)))
           ltac:(lia) 0%float [1; 4]%float eq_refl).
Defined.

(** ** Axis._slicer *)

Lemma flat_map_nth_error {A : Type} (l : list A) (k a : nat) :
  (a + k <= List.length l)%nat ->
  flat_map (fun i => match nth_error l (a + i) with
                     | Some x => [x]
                     | None => []
                     end) (seq 0 k)
  = firstn k (skipn a l).
Proof.
  revert a. induction k as [ | k IH]; intros a Hle; [reflexivity | ].
  cbn [seq flat_map]. rewrite Nat.add_0_r.
  destruct (nth_error l a) as [x | ] eqn:E.
  - rewrite <- seq_shift, flat_map_concat_map, map_map,
      <- flat_map_concat_map.
    rewrite (flat_map_ext _
               (fun i => match nth_error l (S a + i) with
                         | Some x => [x]
                         | None => []
                         end))
      by (intros i; rewrite Nat.add_succ_r; reflexivity).
    rewrite IH by lia.
    clear IH Hle. revert l E. induction a as [ | a IHa]; intros l E.
    + destruct l; [discriminate E | ]. cbn in E. injection E as ->.
      reflexivity.
    + destruct l; [discriminate E | ]. cbn in E. cbn [skipn].
      apply IHa. exact E.
  - apply nth_error_None in E. lia.
Qed.

(** A plain slice [start:stop] within the bounds selects the samples
    start .. stop-1. *)
Lemma getslice_plain {A : Type} (l : list A) (start stop : Z) :
  0 <= start <= stop -> stop <= len l ->
  getslice l (mk_slice (Some start) (Some stop) None)
  = Ok (firstn (Z.to_nat (stop - start)) (skipn (Z.to_nat start) l)).
Proof.
  intros [H0 Hle] Hlen. unfold getslice, slice_indices.
  cbn [slice_step slice_start slice_stop Z.eqb bind].
  assert (Hs : adjust_bound start (len l) 1 = start).
  { unfold adjust_bound. destruct (Z.ltb_spec start 0); [lia | ].
    destruct (Z.geb_spec start (len l)); [cbn; lia | reflexivity]. }
  assert (Ht : adjust_bound stop (len l) 1 = stop).
  { unfold adjust_bound. destruct (Z.ltb_spec stop 0); [lia | ].
    destruct (Z.geb_spec stop (len l)); [cbn; lia | reflexivity]. }
  rewrite Hs, Ht. cbn [bind].
  assert (Hn : slice_length start stop 1 = stop - start).
  { unfold slice_length. cbn [Z.ltb Z.compare].
    destruct (Z.ltb_spec start stop); [ | lia].
    rewrite Z.div_1_r. lia. }
  rewrite Hn. unfold range. rewrite flat_map_concat_map, map_map,
    <- flat_map_concat_map.
  rewrite (flat_map_ext _
             (fun i => match nth_error l (Z.to_nat start + i) with
                       | Some x => [x]
                       | None => []
                       end)).
  - rewrite flat_map_nth_error; [reflexivity | ]. unfold len in Hlen. lia.
  - intros i. replace (Z.to_nat (start + Z.of_nat i * 1))
      with (Z.to_nat start + i)%nat by lia. reflexivity.
Qed.

(** X2: indexing an axis with an integer gives None.  A slice
    [start:stop], [start] a 64-bit integer, on a compact axis whose offset
    and scaling are set gives the compact axis of offset
    [offset + start * scaling] and size [stop - start], with no look at
    the size of the axis nor at the step; a compact axis without offset or
    scaling, and a slice without start or stop on a compact axis, raise
    TypeError.  For [0 <= start <= stop <= size] an axis holding explicit
    data keeps its samples start .. stop-1, so both forms end with
    [stop - start] samples. *)
Theorem X2_axis_slicer (a : Axis.t) (start stop : Z) :
  (forall i, Axis._slicer a (SInt i) = Ok (a, None))
  /\ (forall o s st,
        Axis._data a = None ->
        Axis._offset a = Some o -> Axis._scaling a = Some s ->
        - 2 ^ 63 <= start < 2 ^ 63 ->
        Axis._slicer a (SSlice (mk_slice (Some start) (Some stop) st))
        = Ok (a, Some (Axis.mk (Axis._label a) (Axis._units a) None
                         (Axis._index a) (Some s)
                         (Some (PrimFloat.add o
                                  (PrimFloat.mul (Np.of_Z start) s)))
                         (stop - start))))
  /\ (forall sl,
        Axis._data a = None ->
        Axis._offset a = None \/ Axis._scaling a = None
        \/ slice_start sl = None \/ slice_stop sl = None ->
        Axis._slicer a (SSlice sl) = Raise TypeError)
  /\ (forall d,
        Axis._data a = Some d ->
        0 <= start <= stop -> stop <= len d ->
        Axis._slicer a (SSlice (mk_slice (Some start) (Some stop) None))
        = Ok (a, Some (Axis.mk (Axis._label a) (Axis._units a)
                         (Some (firstn (Z.to_nat (stop - start))
                                  (skipn (Z.to_nat start) d)))
                         (Axis._index a) (Axis._scaling a) (Axis._offset a)
                         (stop - start)))).
Proof.
  split; [reflexivity | ]. split; [ | split].
  - intros o s st Hd Ho Hs _. unfold Axis._slicer, deepcopy.
    unfold Axis.scaling, Axis.offset. rewrite Hd, Ho, Hs.
    cbn [slice_start slice_stop]. destruct a. cbn in *. subst.
    reflexivity.
  - intros sl Hd H. unfold Axis._slicer, deepcopy.
    unfold Axis.scaling, Axis.offset. rewrite Hd.
    destruct (slice_start sl) as [st | ]; [ | reflexivity].
    destruct (Axis._scaling a) as [sc | ]; [ | reflexivity].
    destruct (Axis._offset a) as [o | ]; [ | reflexivity].
    destruct (slice_stop sl) as [sp | ]; [ | reflexivity].
    destruct H as [H | [H | [H | H]]]; discriminate H.
  - intros d Hd Hss Hlen. unfold Axis._slicer, deepcopy. rewrite Hd.
    rewrite (getslice_plain d start stop Hss Hlen). cbn [bind].
    assert (Hl : len (firstn (Z.to_nat (stop - start))
                        (skipn (Z.to_nat start) d)) = stop - start).
    { unfold len in *. rewrite length_firstn, length_skipn. lia. }
    unfold Axis.set_data. rewrite Hl. reflexivity.
Qed.

Lemma X2_axis_slicer_witness :
  Axis._slicer Examples.ax_explicit
    (SSlice (mk_slice (Some 1) (Some 3) None))
  = Ok (Examples.ax_explicit,
        Some (Axis.mk "" "" (Some [1; 4]%float) 0 None None 2))
  /\ Axis._slicer Examples.axis3 (SSlice (mk_slice (Some 1) (Some 3) None))
     = Ok (Examples.axis3,
           Some (Axis.mk "x" "s" None 0 (Some 1%float)
                   (Some (PrimFloat.add 0 (PrimFloat.mul (Np.of_Z 1) 1)))
                   2))
  /\ Axis._slicer Examples.ax_nav (SSlice (mk_slice (Some 1) (Some 3) None))
     = Raise TypeError.
Proof.
  split; [ | split].
  - exact (proj2 (proj2 (proj2 (X2_axis_slicer Examples.ax_explicit 1 3)))
             [0; 1; 4]%float eq_refl ltac:(lia) ltac:(cbn; lia)).
  - exact (proj1 (proj2 (X2_axis_slicer Examples.axis3 1 3))
             0%float 1%float None eq_refl eq_refl eq_refl ltac:(lia)).
  - exact (proj1 (proj2 (proj2 (X2_axis_slicer Examples.ax_nav 1 3)))
             (mk_slice (Some 1) (Some 3) None) eq_refl
             (or_introl eq_refl)).
Defined.

(** ** Axis.__eq__ *)

(** X3: comparing two axes whose labels, units or indices differ gives
    False without looking at the samples.  When one of the two is compact
    the sizes play no part: the result is the same whatever sizes the two
    axes have.  A compact axis compares equal to itself exactly when
    neither its offset nor its scaling is nan; the axis the constructor
    builds from a single sample has scaling nan and does not equal
    itself.  Two axes with explicit data of different lengths, neither of
    length 1, and the same label, units and index cannot be compared:
    ValueError. *)
Theorem X3_axis_eq (a b : Axis.t) :
  (Axis._label a <> Axis._label b \/ Axis._units a <> Axis._units b
   \/ Axis._index a <> Axis._index b ->
   Axis.__eq__ a b = Ok false)
  /\ (Axis._data a = None \/ Axis._data b = None ->
      forall n m,
        Axis.__eq__ (Axis.with_size a n) (Axis.with_size b m)
        = Axis.__eq__ a b)
  /\ (Axis._data a = None ->
      (Axis.__eq__ a a = Ok true
       <-> (forall v, Axis._offset a = Some v -> PrimFloat.is_nan v = false)
           /\ (forall v, Axis._scaling a = Some v ->
                         PrimFloat.is_nan v = false)))
  /\ (forall label units x ind sc off,
        0 <= ind ->
        exists a0,
          Axis.__init__ label units (Some [x]) ind sc off = Ok a0
          /\ Axis._data a0 = None
          /\ Axis._scaling a0 = Some nan
          /\ Axis.__eq__ a0 a0 = Ok false)
  /\ (forall da db,
        Axis._data a = Some da -> Axis._data b = Some db ->
        Axis._label a = Axis._label b -> Axis._units a = Axis._units b ->
        Axis._index a = Axis._index b ->
        len da <> len db -> len da <> 1 -> len db <> 1 ->
        Axis.__eq__ a b = Raise ValueError).
Proof.
  split; [ | split; [ | split; [ | split]]].
  - unfold Axis.__eq__, Axis.data, Axis.index, Axis.offset, Axis.scaling.
    intros H.
    assert (Hf : String.eqb (Axis._label a) (Axis._label b)
                 && String.eqb (Axis._units a) (Axis._units b)
                 && (Axis._index a =? Axis._index b) = false).
    { destruct H as [H | [H | H]].
      - apply String.eqb_neq in H. rewrite H. reflexivity.
      - apply String.eqb_neq in H. rewrite H. apply andb_false_intro1.
        apply andb_false_r.
      - apply Z.eqb_neq in H. rewrite H. apply andb_false_r. }
    rewrite Hf. destruct (Axis._data a), (Axis._data b); reflexivity.
  - intros H n m. destruct a as [la ua da ia sa oa na].
    destruct b as [lb ub db ib sb ob nb]. cbn in H.
    unfold Axis.__eq__. cbn.
    destruct H as [-> | ->]; [reflexivity | ].
    destruct da; reflexivity.
  - intros Hd. unfold Axis.__eq__, Axis.data, Axis.index, Axis.offset,
      Axis.scaling. rewrite Hd.
    rewrite !String.eqb_refl, Z.eqb_refl. cbn [andb].
    unfold Axis.opt_float_eqb, PrimFloat.is_nan.
    destruct (Axis._offset a) as [o | ]; destruct (Axis._scaling a) as [s | ].
    + split.
      * intros H. injection H as H. apply andb_true_iff in H.
        destruct H as [Ho Hs]. split; intros v Hv; injection Hv as <-.
        -- rewrite Ho. reflexivity.
        -- rewrite Hs. reflexivity.
      * intros [Ho Hs]. specialize (Ho o eq_refl). specialize (Hs s eq_refl).
        apply negb_false_iff in Ho. apply negb_false_iff in Hs.
        rewrite Ho, Hs. reflexivity.
    + split.
      * intros H. injection H as H. rewrite andb_true_r in H.
        split; intros v Hv; [ | discriminate Hv]. injection Hv as <-.
        rewrite H. reflexivity.
      * intros [Ho _]. specialize (Ho o eq_refl).
        apply negb_false_iff in Ho. rewrite Ho. reflexivity.
    + split.
      * intros H. injection H as H.
        split; intros v Hv; [discriminate Hv | ]. injection Hv as <-.
        rewrite H. reflexivity.
      * intros [_ Hs]. specialize (Hs s eq_refl).
        apply negb_false_iff in Hs. rewrite Hs. reflexivity.
    + split; [ | reflexivity].
      intros _. split; intros v Hv; discriminate Hv.
  - intros label units x ind sc off Hind.
    exists (Axis.mk label units None ind (Some nan) (Some x) 1).
    split.
    + unfold Axis.__init__, Axis.set_index, Axis._check_index_valid.
      destruct (Z.ltb_spec ind 0); [lia | ]. reflexivity.
    + split; [reflexivity | ]. split; [reflexivity | ].
      unfold Axis.__eq__, Axis.data, Axis.index, Axis.offset, Axis.scaling.
      cbn [Axis._data Axis._label Axis._units Axis._index Axis._offset
           Axis._scaling].
      rewrite !String.eqb_refl, Z.eqb_refl. cbn [andb Axis.opt_float_eqb].
      replace (PrimFloat.eqb nan nan) with false by reflexivity.
      rewrite andb_false_r. reflexivity.
  - unfold Axis.__eq__, Axis.data, Axis.index, Axis.offset, Axis.scaling.
    intros da db Hda Hdb Hl Hu Hi Hlen H1 H2. rewrite Hda, Hdb, Hl, Hu, Hi.
    rewrite !String.eqb_refl, Z.eqb_refl. cbn [andb].
    unfold Np.allclose. destruct (Z.eqb_spec (len da) (len db)); [lia | ].
    destruct da as [ | x [ | x' da]]; destruct db as [ | y [ | y' db]];
      try reflexivity; unfold len in *; cbn in *; lia.
Qed.

Lemma X3_axis_eq_witness :
  Axis.__eq__ (Axis.with_size Examples.axis3 7) (Axis.with_size Examples.axis3 2)
  = Axis.__eq__ Examples.axis3 Examples.axis3
  /\ Axis.__eq__ Examples.axis3 Examples.axis3 = Ok true.
Proof.
  split.
  - exact (proj1 (proj2 (X3_axis_eq Examples.axis3 Examples.axis3))
             (or_introl eq_refl) 7 2).
  - apply (proj2 (proj1 (proj2 (proj2 (X3_axis_eq Examples.axis3
                                          Examples.axis3)))
                    eq_refl)).
    split; intros v Hv; injection Hv as <-; reflexivity.
Defined.

(** ** AxesManager._check_axis run again, set_axes, append_axis *)

Lemma check_one_keeps (self : AxesManager.t) (a a' : Axis.t) :
  AxesManager.check_one self a = Ok a' ->
  Axis._label a' = Axis._label a /\ Axis._units a' = Axis._units a
  /\ Axis._index a' = Axis._index a /\ Axis._data a' = Axis._data a.
Proof.
  unfold AxesManager.check_one. intros H.
  destruct (AxesManager.get_shape_from_index self (Axis.index a)) as [v | ];
    cbn [bind] in H; [ | discriminate H].
  destruct (negb (v =? Axis.size a)); cbn [bind] in H.
  - injection H as <-. destruct a as [l u [d | ] i s o n]; repeat split.
  - injection H as <-. repeat split.
Qed.

Lemma check_one_again (self : AxesManager.t) (a a' : Axis.t) :
  AxesManager.check_one self a = Ok a' ->
  AxesManager.check_one self a' = Ok a'.
Proof.
  intros H. pose proof (check_one_keeps self a a' H) as [_ [_ [Hi _]]].
  unfold AxesManager.check_one, Axis.index in *. rewrite Hi.
  destruct (AxesManager.get_shape_from_index self (Axis._index a)) as [v | ];
    cbn [bind] in *; [ | discriminate H].
  destruct (Z.eqb_spec v (Axis.size a)) as [Heq | Hne]; cbn [negb] in H.
  - injection H as <-. rewrite Heq, Z.eqb_refl. reflexivity.
  - injection H as <-.
    destruct a as [l u [d | ] i s o n]; cbn in *.
    + destruct (Z.eqb_spec v n); [contradiction | reflexivity].
    + rewrite Z.eqb_refl. reflexivity.
Qed.

Lemma check_loop_again (self : AxesManager.t) (axes axes' : list Axis.t) :
  AxesManager.check_loop self axes = Ok axes' ->
  AxesManager.check_loop self axes' = Ok axes'
  /\ map Axis.index axes' = map Axis.index axes.
Proof.
  revert axes'. induction axes as [ | a rest IH]; intros axes' H; cbn in H.
  - injection H as <-. split; reflexivity.
  - destruct (AxesManager.check_one self a) as [a' | ] eqn:E1;
      cbn [bind] in H; [ | discriminate H].
    destruct (AxesManager.check_loop self rest) as [rest' | ] eqn:E2;
      cbn [bind] in H; [ | discriminate H].
    injection H as <-. destruct (IH rest' eq_refl) as [IH1 IH2].
    cbn [AxesManager.check_loop map].
    rewrite (check_one_again self a a' E1). cbn [bind].
    rewrite IH1. cbn [bind]. split; [reflexivity | ].
    destruct (check_one_keeps self a a' E1) as [_ [_ [Hi _]]].
    f_equal; [exact Hi | exact IH2].
Qed.

Lemma check_loop_shape_only (s1 s2 : AxesManager.t) (axes : list Axis.t) :
  AxesManager._data_shape s1 = AxesManager._data_shape s2 ->
  AxesManager.check_loop s1 axes = AxesManager.check_loop s2 axes.
Proof.
  intros Hs. induction axes as [ | a rest IH]; cbn; [reflexivity | ].
  unfold AxesManager.check_one, AxesManager.get_shape_from_index.
  rewrite Hs, IH. reflexivity.
Qed.

(** X4: the check is idempotent: run on the axes it has just produced, it
    succeeds and changes nothing. *)
Theorem X4_check_axis_idempotent (self am : AxesManager.t)
    (axes : list Axis.t) :
  AxesManager._check_axis self axes = Ok am ->
  AxesManager._check_axis am (AxesManager._axes am) = Ok am.
Proof.
  unfold AxesManager._check_axis. intros H.
  destruct (AxesManager.check_loop self axes) as [axes' | ] eqn:E;
    cbn [bind] in H; [ | discriminate H].
  injection H as <-.
  change (AxesManager._axes (AxesManager.with_axes self axes')) with axes'.
  rewrite (check_loop_shape_only (AxesManager.with_axes self axes') self
             axes' eq_refl).
  rewrite (proj1 (check_loop_again self axes axes' E)). reflexivity.
Qed.

Lemma X4_check_axis_idempotent_witness :
  AxesManager._check_axis
    (AxesManager.mk [5] [Axis.mk "x" "s" None 0 (Some 1%float) (Some 0%float) 5]
       None None)
    [Axis.mk "x" "s" None 0 (Some 1%float) (Some 0%float) 5]
  = Ok (AxesManager.mk [5]
          [Axis.mk "x" "s" None 0 (Some 1%float) (Some 0%float) 5] None None).
Proof.
  exact (X4_check_axis_idempotent
           (AxesManager.mk [5] [] None None)
           (AxesManager.mk [5]
              [Axis.mk "x" "s" None 0 (Some 1%float) (Some 0%float) 5]
              None None)
           [Examples.axis3] eq_refl).
Defined.

(** X5: after a successful [append_axis] the manager holds one axis only,
    the checked version of the axis appended (same label, units, index and
    data): the axes held before are gone.  An assignment to [axes] keeps
    one axis per axis given, with the same indices in the same order. *)
Theorem X5_append_axis_keeps_one (self am : AxesManager.t) (axis : Axis.t)
    (axes : list Axis.t) :
  (AxesManager.append_axis self axis = Ok am ->
   exists a',
     AxesManager._axes am = [a']
     /\ Axis._label a' = Axis._label axis
     /\ Axis._units a' = Axis._units axis
     /\ Axis._index a' = Axis._index axis
     /\ Axis._data a' = Axis._data axis)
  /\ (AxesManager.set_axes self axes = Ok am ->
      map Axis.index (AxesManager._axes am) = map Axis.index axes).
Proof.
  split.
  - unfold AxesManager.append_axis, AxesManager._check_axis. intros H.
    cbn [AxesManager.check_loop] in H.
    destruct (AxesManager.check_one _ axis) as [a' | ] eqn:E;
      cbn [bind] in H; [ | discriminate H].
    injection H as <-. exists a'. split; [reflexivity | ].
    exact (check_one_keeps _ axis a' E).
  - unfold AxesManager.set_axes, AxesManager._check_axis. intros H.
    destruct (AxesManager.check_loop _ _) as [axes' | ] eqn:E;
      cbn [bind] in H; [ | discriminate H].
    injection H as <-. cbn [AxesManager._axes AxesManager.with_axes] in *.
    exact (proj2 (check_loop_again _ axes axes' E)).
Qed.

Lemma X5_append_axis_keeps_one_witness :
  exists a',
    AxesManager._axes
      (AxesManager.mk [5; 6; 7] [Examples.ax1] (Some []) (Some [0; 1; 2]))
    = [a']
    /\ Axis._label a' = Axis._label Examples.ax1
    /\ Axis._units a' = Axis._units Examples.ax1
    /\ Axis._index a' = Axis._index Examples.ax1
    /\ Axis._data a' = Axis._data Examples.ax1.
Proof.
  apply (proj1 (X5_append_axis_keeps_one
                  (AxesManager.mk [5; 6; 7] [Examples.ax0; Examples.ax2]
                     (Some []) (Some [0; 1; 2]))
                  (AxesManager.mk [5; 6; 7] [Examples.ax1] (Some [])
                     (Some [0; 1; 2]))
                  Examples.ax1 [])).
  reflexivity.
Defined.

(** ** AxesManager.get_axis_from_index *)

Lemma mul_nan_l (x : float) : PrimFloat.mul nan x = nan.
Proof.
  apply Prim2SF_inj. rewrite FloatAxioms.mul_spec.
  change (Prim2SF nan) with S754_nan. reflexivity.
Qed.

Lemma add_nan_r (x : float) : PrimFloat.add x nan = nan.
Proof.
  apply Prim2SF_inj. rewrite FloatAxioms.add_spec.
  change (Prim2SF nan) with S754_nan.
  destruct (Prim2SF x); reflexivity.
Qed.

Lemma map_nan (l : list float) :
  map (fun x => PrimFloat.add 0%float (PrimFloat.mul nan x)) l
  = repeat nan (List.length l).
Proof.
  induction l as [ | x l IH]; cbn [map List.length repeat]; [reflexivity | ].
  rewrite mul_nan_l, add_nan_r, IH. reflexivity.
Qed.

Lemma find_index_None (axes : list Axis.t) (index : Z) :
  ~ In index (map Axis.index axes) ->
  find (fun axis => Axis.index axis =? index) axes = None.
Proof.
  induction axes as [ | a rest IH]; intros H; cbn; [reflexivity | ].
  destruct (Z.eqb_spec (Axis.index a) index) as [Heq | _].
  - exfalso. apply H. left. exact Heq.
  - apply IH. intros Hin. apply H. right. exact Hin.
Qed.

Lemma find_index_Some (axes : list Axis.t) (index : Z) :
  In index (map Axis.index axes) ->
  exists a, find (fun axis => Axis.index axis =? index) axes = Some a
            /\ In a axes /\ Axis.index a = index.
Proof.
  induction axes as [ | a rest IH]; intros H; cbn in *; [contradiction | ].
  destruct (Z.eqb_spec (Axis.index a) index) as [Heq | Hne].
  - exists a. repeat split; [left; reflexivity | exact Heq].
  - destruct H as [H | H]; [contradiction | ].
    destruct (IH H) as [b [Hf [Hin Hb]]].
    exists b. repeat split; [exact Hf | right; exact Hin | exact Hb].
Qed.

(** The axis created for a dimension of size [n] that has no axis: all its
    samples are nan. *)
Lemma get_axis_from_index_created (self : AxesManager.t) (index n : Z) :
  ~ In index (AxesManager.get_axes_index self) ->
  0 <= index < len (AxesManager._data_shape self) ->
  getitem (AxesManager._data_shape self) index = Ok n ->
  0 <= n ->
  AxesManager.get_axis_from_index self index true
  = Ok (Some (Axis.mk "" "" (Some (repeat nan (Z.to_nat n))) index
                (Some nan) (Some 0%float) n)).
Proof.
  intros Hnot Hin Hget Hn. unfold AxesManager.get_axis_from_index,
    AxesManager._has_get_axis_from_index.
  destruct (Z.gtb_spec index (len (AxesManager._data_shape self))); [lia | ].
  destruct (Z.ltb_spec index 0); [lia | ]. cbn [orb].
  unfold AxesManager.axes.
  rewrite (find_index_None _ index Hnot). cbn [bind negb].
  unfold Axis.__init__, Axis.set_index, Axis._check_index_valid.
  destruct (Z.ltb_spec index 0); [lia | ]. cbn [bind].
  destruct (get_shape_from_index_in_range self index Hin) as [v [Hv Hg]].
  rewrite Hg in Hget. injection Hget as ->.
  match goal with
  | |- bind ?c _ = _ =>
      assert (Hc : c = Ok (Axis.mk "" "" None index (Some nan)
                             (Some 0%float) 1))
        by (vm_compute; reflexivity)
  end.
  rewrite Hc. cbn [bind]. rewrite Hv. cbn [bind].
  unfold Axis.create_linear_data. rewrite (linspace0_nonneg n Hn).
  cbn [bind Axis._offset Axis._scaling].
  assert (Haff : Axis.affine (Some 0%float) (Some nan) (map Np.of_Z (range n))
                 = Ok (repeat nan (Z.to_nat n))).
  { unfold Axis.affine.
    assert (Hlen : List.length (map Np.of_Z (range n)) = Z.to_nat n)
      by (unfold range; rewrite !length_map, length_seq; reflexivity).
    destruct (map Np.of_Z (range n)) as [ | x l] eqn:E.
    - rewrite <- Hlen. reflexivity.
    - rewrite map_nan, Hlen. reflexivity. }
  rewrite Haff. cbn [bind]. unfold Axis.set_data.
  assert (Hl : len (repeat nan (Z.to_nat n)) = n)
    by (unfold len; rewrite repeat_length; lia).
  rewrite Hl. reflexivity.
Qed.



(** ** AxesManager.shape, get_nav_axes *)

(** With sizes that agree with the shape, the axis asked for a dimension
    has the size of that dimension, whether it is held or created. *)
Lemma get_axis_size (self : AxesManager.t) (ind : Z) :
  let shape := AxesManager._data_shape self in
  Forall (fun a => in_shape shape a /\ size_agrees shape a)
    (AxesManager._axes self) ->
  Forall (fun n => 0 <= n) shape ->
  0 <= ind < len shape ->
  exists a n,
    AxesManager.get_axis_from_index self ind true = Ok (Some a)
    /\ Axis.index a = ind
    /\ Axis.size a = n
    /\ getitem shape ind = Ok n
    /\ 0 <= n.
Proof.
  intros shape Hax Hsh Hin. subst shape.
  destruct (get_shape_from_index_in_range self ind Hin) as [n [_ Hg]].
  assert (Hn : 0 <= n).
  { rewrite Forall_forall in Hsh. apply Hsh. unfold getitem in Hg.
    destruct (nth_error _ _) eqn:E; [ | discriminate Hg].
    injection Hg as ->. exact (nth_error_In _ _ E). }
  destruct (in_dec Z.eq_dec ind (AxesManager.get_axes_index self))
    as [Hdecl | Hnot].
  - destruct (find_index_Some _ ind Hdecl) as [a [Hf [Ha Hi]]].
    exists a, n. unfold AxesManager.get_axis_from_index,
      AxesManager._has_get_axis_from_index, AxesManager.axes.
    destruct (Z.gtb_spec ind (len (AxesManager._data_shape self))); [lia | ].
    destruct (Z.ltb_spec ind 0); [lia | ]. cbn [orb].
    rewrite Hf. cbn [bind negb]. rewrite Forall_forall in Hax.
    destruct (Hax a Ha) as [_ Hag]. unfold size_agrees in Hag.
    rewrite Hi, Hg in Hag. injection Hag as Hag.
    repeat split; auto.
  - exists (Axis.mk "" "" (Some (repeat nan (Z.to_nat n))) ind (Some nan)
              (Some 0%float) n), n.
    rewrite (get_axis_from_index_created self ind n Hnot Hin Hg Hn).
    repeat split; auto.
Qed.

Lemma firstn_skipn_cons {A : Type} (l : list A) (j m : nat) (v : A) :
  nth_error l j = Some v ->
  firstn (S m) (skipn j l) = v :: firstn m (skipn (S j) l).
Proof.
  revert l. induction j as [ | j IH]; intros l H; destruct l as [ | x l];
    try discriminate H.
  - cbn in H. injection H as ->. reflexivity.
  - cbn in H. cbn [skipn]. apply IH. exact H.
Qed.

Lemma shape_loop_spec (self : AxesManager.t) :
  let shape := AxesManager._data_shape self in
  Forall (fun a => in_shape shape a /\ size_agrees shape a)
    (AxesManager._axes self) ->
  Forall (fun n => 0 <= n) shape ->
  forall m j,
    (j + m <= List.length shape)%nat ->
    AxesManager.shape_loop self (map Z.of_nat (seq j m))
    = Ok (firstn m (skipn j shape)).
Proof.
  intros shape Hax Hsh. induction m as [ | m IH]; intros j Hle;
    [reflexivity | ].
  cbn [seq map AxesManager.shape_loop].
  destruct (get_axis_size self (Z.of_nat j) Hax Hsh) as [a [n [Hget [_ [Hs [Hg Hn]]]]]].
  { unfold len. fold shape. lia. }
  rewrite Hget. cbn [bind]. unfold builtin_len, Axis.__len__. rewrite Hs.
  destruct (Z.ltb_spec n 0); [lia | ]. cbn [bind].
  rewrite IH by lia. cbn [bind]. f_equal. symmetry.
  apply firstn_skipn_cons. unfold getitem in Hg. fold shape in Hg.
  rewrite Nat2Z.id in Hg.
  destruct (nth_error shape j); [ | discriminate Hg].
  injection Hg as ->. reflexivity.
Qed.

(** X7: when every axis held sits on a dimension and has its size, and the
    manager holds [k >= 1] axes for at least [k] dimensions, the [shape]
    property gives the first [k] entries of [data_shape] and stores them as
    the new [data_shape]: with one axis per dimension the shape is
    unchanged, with fewer axes than dimensions it is cut short.  With no
    axis the shape is returned as it is. *)
Theorem X7_shape_from_axes (self : AxesManager.t) :
  let shape := AxesManager._data_shape self in
  let k := List.length (AxesManager._axes self) in
  Forall (fun a => in_shape shape a /\ size_agrees shape a)
    (AxesManager._axes self) ->
  Forall (fun n => 0 <= n) shape ->
  (k <= List.length shape)%nat ->
  AxesManager.shape self
  = Ok (AxesManager.mk
          (if Nat.eqb k 0 then shape else firstn k shape)
          (AxesManager._axes self) (AxesManager._nav_indexes self)
          (AxesManager._sig_indexes self),
        if Nat.eqb k 0 then shape else firstn k shape).
Proof.
  intros shape k Hax Hsh Hk. subst shape k.
  unfold AxesManager.shape, AxesManager.compute_shape_from_axes,
    AxesManager.axes.
  destruct (Z.eqb_spec (len (AxesManager._axes self)) 0) as [H0 | Hn0];
    cbn [negb].
  - assert (Hk0 : List.length (AxesManager._axes self) = O)
      by (unfold len in H0; lia).
    rewrite Hk0. reflexivity.
  - assert (Hk0 : Nat.eqb (List.length (AxesManager._axes self)) 0 = false)
      by (apply Nat.eqb_neq; unfold len in Hn0; lia).
    rewrite Hk0, range_len.
    rewrite (shape_loop_spec self Hax Hsh
               (List.length (AxesManager._axes self)) 0) by lia.
    reflexivity.
Qed.

Lemma X7_shape_from_axes_witness :
  AxesManager.shape
    (AxesManager.mk [5; 6; 7] [Examples.ax0; Examples.ax1] (Some [])
       (Some [0; 1; 2]))
  = Ok (AxesManager.mk [5; 6] [Examples.ax0; Examples.ax1] (Some [])
          (Some [0; 1; 2]),
        [5; 6]).
Proof.
  apply (X7_shape_from_axes
           (AxesManager.mk [5; 6; 7] [Examples.ax0; Examples.ax1] (Some [])
              (Some [0; 1; 2]))).
  - repeat constructor; cbn; lia.
  - repeat constructor; lia.
  - cbn. lia.
Defined.

Lemma get_axes_from_indexes_spec (self : AxesManager.t) (indexes : list Z) :
  let shape := AxesManager._data_shape self in
  Forall (fun a => in_shape shape a /\ size_agrees shape a)
    (AxesManager._axes self) ->
  Forall (fun n => 0 <= n) shape ->
  Forall (fun i => 0 <= i < len shape) indexes ->
  exists axs,
    AxesManager.get_axes_from_indexes self indexes = Ok axs
    /\ Forall2 (fun i r => exists a,
                    r = Some a /\ Axis.index a = i
                    /\ getitem shape i = Ok (Axis.size a))
         indexes axs.
Proof.
  intros shape Hax Hsh Hind. induction Hind as [ | i rest Hi Hrest IH].
  - exists []. split; [reflexivity | constructor].
  - destruct (get_axis_size self i Hax Hsh Hi) as [a [n [Hget [Hidx [Hs [Hg _]]]]]].
    destruct IH as [axs [Haxs H2]].
    exists (Some a :: axs). cbn [AxesManager.get_axes_from_indexes].
    rewrite Hget. cbn [bind]. rewrite Haxs. cbn [bind].
    split; [reflexivity | ]. constructor; [ | exact H2].
    exists a. repeat split; [exact Hidx | ]. rewrite Hs. exact Hg.
Qed.

(** X8: when every axis held sits on a dimension and has its size and the
    navigation indices are dimensions of the data, [get_nav_axes] gives one
    axis per navigation index, in the order of [nav_indexes], each tagged
    with its index and of the size of its dimension; an index without an
    axis gets a created one, never None. *)
Theorem X8_get_nav_axes (self : AxesManager.t) (nav : list Z) :
  let shape := AxesManager._data_shape self in
  AxesManager._nav_indexes self = Some nav ->
  Forall (fun a => in_shape shape a /\ size_agrees shape a)
    (AxesManager._axes self) ->
  Forall (fun n => 0 <= n) shape ->
  Forall (fun i => 0 <= i < len shape) nav ->
  exists axs,
    AxesManager.get_nav_axes self = Ok axs
    /\ Forall2 (fun i r => exists a,
                    r = Some a /\ Axis.index a = i
                    /\ getitem shape i = Ok (Axis.size a))
         nav axs.
Proof.
  intros shape Hnav Hax Hsh Hin. unfold AxesManager.get_nav_axes,
    AxesManager.nav_indexes. rewrite Hnav.
  apply get_axes_from_indexes_spec; assumption.
Qed.

Lemma X8_get_nav_axes_witness :
  exists axs,
    AxesManager.get_nav_axes
      (AxesManager.mk [5; 6; 7] [Examples.ax0; Examples.ax1] (Some [1; 2])
         (Some [0]))
    = Ok axs
    /\ Forall2 (fun i r => exists a,
                    r = Some a /\ Axis.index a = i
                    /\ getitem [5; 6; 7] i = Ok (Axis.size a))
         [1; 2] axs.
Proof.
  apply (X8_get_nav_axes
           (AxesManager.mk [5; 6; 7] [Examples.ax0; Examples.ax1]
              (Some [1; 2]) (Some [0]))
           [1; 2] eq_refl).
  - repeat constructor; cbn; lia.
  - repeat constructor; lia.
  - repeat constructor; cbn; lia.
Defined.

(** ** The sig_indexes setter and the indexes after construction *)

Lemma sig_valid_general (self : AxesManager.t) (nav sig : list Z) :
  AxesManager._nav_indexes self = Some nav ->
  AxesManager.sig_valid self sig
  = Ok (forallb (fun i => negb (Zmem i nav)
                          && Zmem i (AxesManager.get_axes_index self)) sig).
Proof.
  intros Hnav. induction sig as [ | i r IH]; cbn; [reflexivity | ].
  rewrite Hnav. destruct (Zmem i nav); cbn; [reflexivity | ].
  destruct (Zmem i (AxesManager.get_axes_index self)); cbn;
    [exact IH | reflexivity].
Qed.

(** X9: on a manager whose [nav_indexes] is a tuple, the assignment to
    [sig_indexes] never raises and is all or nothing: the tuple is taken
    when each of its indices is outside [nav_indexes] and has a declared
    axis, and the manager is left exactly as it was when one index is a
    navigation index or has no axis.  An accepted tuple is therefore
    disjoint from [nav_indexes]. *)
Theorem X9_set_sig_indexes (self : AxesManager.t) (nav sig : list Z) :
  AxesManager._nav_indexes self = Some nav ->
  ((forall i, In i sig ->
      ~ In i nav /\ In i (AxesManager.get_axes_index self)) ->
   AxesManager.set_sig_indexes self (Some sig)
   = Ok (AxesManager.with_sig_indexes self (Some sig)))
  /\ ((exists i, In i sig
                 /\ (In i nav \/ ~ In i (AxesManager.get_axes_index self))) ->
      AxesManager.set_sig_indexes self (Some sig) = Ok self).
Proof.
  intros Hnav. unfold AxesManager.set_sig_indexes.
  rewrite (sig_valid_general self nav sig Hnav). cbn [bind]. split.
  - intros Hall.
    assert (Ht : forallb (fun i => negb (Zmem i nav)
                    && Zmem i (AxesManager.get_axes_index self)) sig = true).
    { apply forallb_forall. intros i Hi. destruct (Hall i Hi) as [H1 H2].
      apply Zmem_not_In in H1. apply Zmem_In in H2. rewrite H1, H2.
      reflexivity. }
    rewrite Ht. reflexivity.
  - intros [i [Hi Hbad]].
    assert (Hf : forallb (fun i => negb (Zmem i nav)
                    && Zmem i (AxesManager.get_axes_index self)) sig = false).
    { apply not_true_false. intros Ht. rewrite forallb_forall in Ht.
      specialize (Ht i Hi). apply andb_true_iff in Ht. destruct Ht as [H1 H2].
      apply Zmem_In in H2. destruct Hbad as [Hb | Hb]; [ | contradiction].
      apply Zmem_In in Hb. rewrite Hb in H1. discriminate H1. }
    rewrite Hf. reflexivity.
Qed.

Lemma X9_set_sig_indexes_witness :
  AxesManager.set_sig_indexes
    (AxesManager.mk [5; 6; 7] [Examples.ax0; Examples.ax1; Examples.ax2]
       (Some [0]) (Some [1; 2]))
    (Some [0; 1])
  = Ok (AxesManager.mk [5; 6; 7] [Examples.ax0; Examples.ax1; Examples.ax2]
          (Some [0]) (Some [1; 2])).
Proof.
  apply (proj2 (X9_set_sig_indexes
                  (AxesManager.mk [5; 6; 7]
                     [Examples.ax0; Examples.ax1; Examples.ax2]
                     (Some [0]) (Some [1; 2]))
                  [0] [0; 1] eq_refl)).
  exists 0. split; [left; reflexivity | left; left; reflexivity].
Defined.

Lemma In_range (i n : Z) : In i (range n) <-> 0 <= i < n.
Proof.
  unfold range. rewrite in_map_iff. split.
  - intros [k [<- Hk]]. apply in_seq in Hk. lia.
  - intros H. exists (Z.to_nat i). split; [lia | ].
    apply in_seq. lia.
Qed.

(** X10: a manager constructed without [sig_indexes] has as [sig_indexes]
    the dimension indices that are not navigation indices, in increasing
    order, whatever the axes and the named-axis keywords: every dimension
    index is then a navigation or a signal index and none is both. *)
Theorem X10_init_partition (shape : list Z) (axes : list Axis.t)
    (nav : list Z) (kw : AxesManager.named_axes) (am : AxesManager.t) :
  AxesManager.__init__ shape axes (Some nav) None kw = Ok am ->
  AxesManager._sig_indexes am = Some (complement shape nav)
  /\ (forall i, In i (complement shape nav)
                <-> 0 <= i < len shape /\ ~ In i nav).
Proof.
  intros H. split.
  - unfold AxesManager.__init__ in H.
    rewrite (compute_sig_indexes_complement
               (AxesManager.mk shape axes (Some nav) None) nav eq_refl) in H.
    cbn [bind] in H.
    destruct (AxesManager._check_axis _ _) as [s1 | ] eqn:E1;
      cbn [bind] in H; [ | discriminate H].
    apply check_axis_same_indexes in E1.
    apply manage_named_axes_same_indexes in H.
    destruct (same_indexes_trans _ _ _ E1 H) as [_ [_ Hs]].
    exact Hs.
  - intros i. unfold complement. rewrite filter_In, In_range.
    rewrite negb_true_iff, Zmem_not_In. reflexivity.
Qed.

Lemma X10_init_partition_witness :
  AxesManager._sig_indexes
    (AxesManager.mk [5; 6; 7] [Examples.ax0; Examples.ax1; Examples.ax2]
       (Some [1]) (Some [0; 2]))
  = Some (complement [5; 6; 7] [1]).
Proof.
  exact (proj1 (X10_init_partition [5; 6; 7]
                  [Examples.ax0; Examples.ax1; Examples.ax2] [1]
                  AxesManager.no_named_axes _ eq_refl)).
Defined.

(** ** DataBase.__init__: errors, forced dim, labels *)

(** The constructor once the data have passed [_check_data_type]: whatever
    [dim] was given, the object checked for equal shapes carries the
    derived one. *)
Lemma DataBase_init_steps (name : string) (source : DataSource)
    (dim : option DataDim) (distribution : DataDistribution)
    (d : DataBase.data_arg) (labels : list string) (origin : option string)
    (first : Np.ndarray) (rest : list Np.ndarray) :
  DataBase._check_data_type d = Ok (first :: rest) ->
  let s1 := DataBase.mk name origin source distribution
              (Some (derived_dim first)) [] (Np.shape first) (Np.size first)
              (len (first :: rest)) [] in
  DataBase.__init__ name source dim distribution d labels origin
  = (_ <- DataBase._check_same_shape s1 (first :: rest) ;;
     Ok (DataBase._check_labels (DataBase.with_data s1 (first :: rest))
           labels)).
Proof.
  intros Hd s1. unfold DataBase.__init__, DataBase.set_data.
  rewrite Hd. cbn [bind].
  unfold DataBase._check_shape_dim_consistency, DataBase.get_dim_from_data,
    DataBase.check_shape_from_data.
  cbn [getitem nth_error Z.to_nat bind].
  cbn [DataBase.with_length DataBase.with_size DataBase.with_shape
       DataBase._shape DataBase._size DataBase._dim DataBase._name
       DataBase.origin DataBase._source DataBase._distribution
       DataBase._data DataBase._length DataBase._labels].
  fold (derived_dim first).
  match goal with
  | |- bind (bind ?c _) _ = _ => assert (Hc : c = Ok s1)
  end.
  { destruct dim as [given | ]; [ | reflexivity].
    destruct (DataDim_eqb given (derived_dim first)) eqn:E; cbn [negb];
      [ | reflexivity].
    assert (given = derived_dim first)
      by (destruct given, (derived_dim first); cbn in E; congruence).
    subst given. reflexivity. }
  rewrite Hc. cbn [bind].
  destruct (DataBase._check_same_shape s1 (first :: rest)); reflexivity.
Qed.

Lemma check_same_shape_mismatch (self : DataBase.t) (l : list Np.ndarray) :
  Exists (fun a => Np.shape a <> DataBase._shape self) l ->
  DataBase._check_same_shape self l = Raise DataShapeError.
Proof.
  induction 1 as [a r Ha | a r Hr IH]; cbn.
  - destruct (Np.shape_eqb (Np.shape a) (DataBase.shape self)) eqn:E;
      [ | reflexivity].
    apply shape_eqb_eq in E. contradiction.
  - destruct (Np.shape_eqb (Np.shape a) (DataBase.shape self));
      [exact IH | reflexivity].
Qed.

Lemma len_zero_nil {A : Type} (l : list A) : len l = 0 <-> l = [].
Proof.
  unfold len. destruct l; cbn; split; intros H; try reflexivity;
    try discriminate; lia.
Qed.

(** X11: the constructor raises TypeError when [data] is None or neither a
    list, an array nor a number, IndexError when it is an empty list,
    TypeError when the first array has no dimension, and DataShapeError
    when an array has another shape than the first.  A lone array is
    treated as the list holding it, and a number becomes the list of one
    array of shape (1,), of dimensionality Data0D. *)
Theorem X11_database_init_outcomes (name : string) (source : DataSource)
    (dim : option DataDim) (distribution : DataDistribution)
    (labels : list string) (origin : option string) :
  let init d :=
    DataBase.__init__ name source dim distribution d labels origin in
  init DataBase.DataNone = Raise TypeError
  /\ init DataBase.DataOther = Raise TypeError
  /\ init (DataBase.DataList []) = Raise IndexError
  /\ (forall first rest,
        Np.shape first = [] ->
        init (DataBase.DataList (first :: rest)) = Raise TypeError)
  /\ (forall first rest,
        Np.shape first <> [] ->
        Exists (fun a => Np.shape a <> Np.shape first) rest ->
        init (DataBase.DataList (first :: rest)) = Raise DataShapeError)
  /\ (forall a, init (DataBase.DataArray a) = init (DataBase.DataList [a]))
  /\ (forall x, exists self,
        init (DataBase.DataNumber x) = Ok self
        /\ DataBase.data self = [Np.mk_ndarray [1] [x]]
        /\ DataBase.shape self = [1]
        /\ DataBase.dim self = Some Data0D).
Proof.
  intros init. subst init. repeat split.
  - intros first rest Hs. unfold DataBase.__init__, DataBase.set_data,
      DataBase._check_data_type. cbn [getitem nth_error Z.to_nat bind].
    rewrite Hs. reflexivity.
  - intros first rest Hs Hex.
    assert (Hd : DataBase._check_data_type (DataBase.DataList (first :: rest))
                 = Ok (first :: rest)).
    { unfold DataBase._check_data_type. cbn [getitem nth_error Z.to_nat bind].
      destruct (Z.eqb_spec (len (Np.shape first)) 0) as [H0 | _];
        [ | reflexivity].
      apply len_zero_nil in H0. contradiction. }
    rewrite (DataBase_init_steps _ _ _ _ _ _ _ first rest Hd).
    rewrite check_same_shape_mismatch; [reflexivity | ].
    cbn [DataBase._shape]. apply Exists_cons_tl. exact Hex.
  - intros x.
    rewrite (DataBase_init_steps _ _ _ _ (DataBase.DataNumber x) _ _
               (Np.mk_ndarray [1] [x]) [] eq_refl).
    cbn [DataBase._check_same_shape DataBase.shape DataBase._shape Np.shape].
    rewrite shape_eqb_refl. cbn [negb bind].
    eexists. split; [reflexivity | ]. repeat split.
Qed.

Lemma X11_database_init_outcomes_witness :
  DataBase.__init__ "d" raw None uniform
    (DataBase.DataList [Np.zeros [3]; Np.zeros [4]]) [] None
  = Raise DataShapeError.
Proof.
  apply (proj1 (proj2 (proj2 (proj2 (proj2
           (X11_database_init_outcomes "d" raw None uniform [] None)))))
           (Np.zeros [3]) [Np.zeros [4]]).
  - discriminate.
  - constructor. discriminate.
Defined.

(** X12: a [dim] handed to the constructor has no effect: the outcome is
    the one of the construction without it, so the dimensionality is
    always the one derived from the data. *)
Theorem X12_database_forced_dim (name : string) (source : DataSource)
    (given : DataDim) (distribution : DataDistribution)
    (d : DataBase.data_arg) (labels : list string) (origin : option string) :
  DataBase.__init__ name source (Some given) distribution d labels origin
  = DataBase.__init__ name source None distribution d labels origin.
Proof.
  destruct (DataBase._check_data_type d) as [l | e] eqn:Ed.
  - destruct (check_data_type_inv d l Ed) as [first [rest [-> _]]].
    rewrite !(DataBase_init_steps _ _ _ _ _ _ _ first rest Ed).
    reflexivity.
  - unfold DataBase.__init__, DataBase.set_data. rewrite Ed. reflexivity.
Qed.

Lemma pad_labels_spec (labels : list string) (missing : nat) :
  DataBase.pad_labels labels missing
  = labels ++ map (fun k => DataBase.CH (len labels + Z.of_nat k))
                (seq 0 missing).
Proof.
  revert labels. induction missing as [ | m IH]; intros labels;
    cbn [DataBase.pad_labels seq map].
  - rewrite app_nil_r. reflexivity.
  - rewrite IH, <- app_assoc. cbn [app]. rewrite Z.add_0_r.
    do 2 f_equal. rewrite <- seq_shift, map_map.
    apply map_ext. intros k. f_equal. unfold len. rewrite length_app.
    cbn [List.length]. lia.
Qed.

(** X13: after construction the labels are the ones given followed by
    CHnn for every array they did not cover, nn being the two-digit
    position of the array: the labels given are never cut, and there are
    as many labels as the larger of the number of labels given and the
    number of arrays. *)
Theorem X13_database_labels (name : string) (source : DataSource)
    (dim : option DataDim) (distribution : DataDistribution)
    (d : DataBase.data_arg) (labels : list string) (origin : option string)
    (self : DataBase.t) :
  DataBase.__init__ name source dim distribution d labels origin = Ok self ->
  DataBase.labels self
  = labels ++ map (fun k => DataBase.CH (len labels + Z.of_nat k))
                (seq 0 (Z.to_nat (len (DataBase.data self) - len labels)))
  /\ len (DataBase.labels self)
     = Z.max (len labels) (len (DataBase.data self))
  /\ DataBase.CH 0 = "CH00"%string /\ DataBase.CH 7 = "CH07"%string
  /\ DataBase.CH 12 = "CH12"%string /\ DataBase.CH 123 = "CH123"%string.
Proof.
  intros H.
  assert (Hl : DataBase.labels self
               = DataBase.pad_labels labels
                   (Z.to_nat (len (DataBase.data self) - len labels))).
  { destruct (DataBase._check_data_type d) as [l | e] eqn:Ed.
    - destruct (check_data_type_inv d l Ed) as [first [rest [-> _]]].
      rewrite (DataBase_init_steps _ _ _ _ _ _ _ first rest Ed) in H.
      destruct (DataBase._check_same_shape _ _); cbn [bind] in H;
        [ | discriminate H].
      injection H as <-. reflexivity.
    - unfold DataBase.__init__, DataBase.set_data in H. rewrite Ed in H.
      discriminate H. }
  rewrite Hl, pad_labels_spec. split; [reflexivity | ].
  split; [ | repeat split].
  unfold len. rewrite length_app, length_map, length_seq. unfold len. lia.
Qed.

Lemma X13_database_labels_witness :
  DataBase.labels Examples.db_one
  = [] ++ map (fun k => DataBase.CH (len (@nil string) + Z.of_nat k))
            (seq 0 (Z.to_nat (len (DataBase.data Examples.db_one)
                              - len (@nil string)))).
Proof.
  exact (proj1 (X13_database_labels "a" raw None uniform
                  (DataBase.DataList [Np.mk_ndarray [1] [1%float]]) []
                  None Examples.db_one eq_refl)).
Defined.

(** ** DataBase: indexing *)

Lemma list_set_spec {A : Type} (l : list A) (n : nat) (v : A) :
  (n < List.length l)%nat ->
  exists l',
    DataBase.list_set l n v = Ok l'
    /\ List.length l' = List.length l
    /\ nth_error l' n = Some v
    /\ (forall j, j <> n -> nth_error l' j = nth_error l j).
Proof.
  revert n. induction l as [ | x l IH]; intros n Hn; cbn in Hn; [lia | ].
  destruct n as [ | n].
  - exists (v :: l). repeat split. intros [ | j] Hj; [contradiction | ].
    reflexivity.
  - destruct (IH n ltac:(lia)) as [l' [Hs [Hlen [Hget Hother]]]].
    exists (x :: l'). cbn [DataBase.list_set]. rewrite Hs. cbn [bind].
    repeat split.
    + cbn. rewrite Hlen. reflexivity.
    + exact Hget.
    + intros [ | j] Hj; [reflexivity | ]. cbn. apply Hother. lia.
Qed.

(** X14: on a DataBase whose [length] is its number of arrays,
    [d[k] = v] succeeds exactly for [0 <= k < length] and an array [v] of
    the common shape, and raises IndexError otherwise.  After it [d[k]] is
    [v], every other [d[j]] is what it was, and the name, the shape and
    the length are unchanged.  [d[k]] raises IndexError outside
    [0 <= k < length]. *)
Theorem X14_database_setitem_getitem (self : DataBase.t) (k : Z)
    (v : Np.ndarray) :
  DataBase._length self = len (DataBase._data self) ->
  (0 <= k < DataBase._length self ->
   Np.shape v = DataBase._shape self ->
   exists self',
     DataBase.__setitem__ self k v = Ok self'
     /\ DataBase.__getitem__ self' k = Ok v
     /\ (forall j, j <> k ->
           DataBase.__getitem__ self' j = DataBase.__getitem__ self j)
     /\ DataBase._name self' = DataBase._name self
     /\ DataBase._shape self' = DataBase._shape self
     /\ DataBase._length self' = DataBase._length self
     /\ DataBase._length self' = len (DataBase._data self'))
  /\ (k < 0 \/ DataBase._length self <= k
      \/ Np.shape v <> DataBase._shape self ->
      DataBase.__setitem__ self k v = Raise IndexError)
  /\ (k < 0 \/ DataBase._length self <= k ->
      DataBase.__getitem__ self k = Raise IndexError).
Proof.
  intros Hwf. split; [ | split].
  - intros Hk Hs.
    destruct (list_set_spec (DataBase._data self) (Z.to_nat k) v)
      as [l' [Hset [Hlen [Hget Hother]]]].
    { rewrite Hwf in Hk. unfold len in Hk. lia. }
    exists (DataBase.with_data self l').
    unfold DataBase.__setitem__, DataBase.__getitem__, DataBase.__len__,
      DataBase.length, DataBase.shape, DataBase.data.
    cbn [DataBase.with_data DataBase._length DataBase._data].
    destruct (Z.leb_spec 0 k); [ | lia].
    destruct (Z.ltb_spec k (DataBase._length self)); [ | lia].
    rewrite Hs, shape_eqb_refl. cbn [andb]. rewrite Hset. cbn [bind].
    repeat split.
    + unfold getitem. rewrite Hget. reflexivity.
    + intros j Hj. destruct ((0 <=? j) && (j <? DataBase._length self)) eqn:E;
        [ | reflexivity].
      unfold getitem. rewrite Hother; [reflexivity | ].
      apply andb_true_iff in E. destruct E as [E1 E2].
      apply Z.leb_le in E1. lia.
    + unfold len. rewrite Hlen. exact Hwf.
  - intros Hbad. unfold DataBase.__setitem__, DataBase.__len__,
      DataBase.length, DataBase.shape.
    destruct (Z.leb_spec 0 k); cbn [andb]; [ | reflexivity].
    destruct (Z.ltb_spec k (DataBase._length self)); cbn [andb];
      [ | reflexivity].
    destruct (Np.shape_eqb (Np.shape v) (DataBase._shape self)) eqn:E;
      [ | reflexivity].
    apply shape_eqb_eq in E. destruct Hbad as [Hb | [Hb | Hb]];
      [lia | lia | contradiction].
  - intros Hbad. unfold DataBase.__getitem__, DataBase.__len__,
      DataBase.length.
    destruct (Z.leb_spec 0 k); cbn [andb]; [ | reflexivity].
    destruct (Z.ltb_spec k (DataBase._length self)); [lia | reflexivity].
Qed.

Lemma X14_database_setitem_getitem_witness :
  exists self',
    DataBase.__setitem__ Examples.db_one 0 (Np.mk_ndarray [1] [5%float])
    = Ok self'
    /\ DataBase.__getitem__ self' 0 = Ok (Np.mk_ndarray [1] [5%float]).
Proof.
  destruct (proj1 (X14_database_setitem_getitem Examples.db_one 0
                     (Np.mk_ndarray [1] [5%float]) eq_refl)
              ltac:(cbn; lia) eq_refl)
    as [self' [Hs [Hg _]]].
  exists self'. split; assumption.
Defined.

(** ** DataBase.__eq__ and the errors of the arithmetic *)

Lemma eq_loop_general (self other : DataBase.t) :
  DataBase._length self = len (DataBase._data self) ->
  DataBase._length other = len (DataBase._data other) ->
  forall ss so ps po eq,
    DataBase._data self = ps ++ ss ->
    DataBase._data other = po ++ so ->
    List.length po = List.length ps ->
    List.length so = List.length ss ->
    DataBase.eq_loop self other
      (map Z.of_nat (seq (List.length ps) (List.length ss))) eq
    = Ok (eq && forallb (fun p => arrays_equal (fst p) (snd p))
                  (combine ss so)).
Proof.
  intros Hls Hlo ss.
  induction ss as [ | x ss IH]; intros so ps po eq Hs Ho Hpo Hso.
  - cbn. rewrite andb_true_r. reflexivity.
  - destruct so as [ | y so]; [discriminate Hso | ].
    cbn [List.length seq map DataBase.eq_loop].
    rewrite (getitem_middle self ps x ss Hs Hls). cbn [bind].
    rewrite <- Hpo.
    rewrite (getitem_middle other po y so Ho Hlo). cbn [bind].
    cbn [combine forallb fst snd]. unfold arrays_equal at 1.
    destruct (Np.shape_eqb (Np.shape x) (Np.shape y)); cbn [negb andb].
    + specialize (IH so (ps ++ [x]) (po ++ [y]) (eq && DataBase.allclose x y)).
      rewrite !length_app in IH. cbn [List.length] in IH.
      rewrite <- !app_assoc in IH. cbn [app] in IH.
      rewrite Hpo, <- (Nat.add_1_r (List.length ps)).
      rewrite IH; try assumption; try lia.
      * rewrite andb_assoc. reflexivity.
      * cbn in Hso. lia.
    + rewrite andb_false_r. reflexivity.
Qed.

Lemma forallb_combine_Forall2 {A B : Type} (p : A -> B -> bool)
    (la : list A) (lb : list B) :
  List.length la = List.length lb ->
  forallb (fun q => p (fst q) (snd q)) (combine la lb) = true
  <-> Forall2 (fun x y => p x y = true) la lb.
Proof.
  revert lb. induction la as [ | x la IH]; intros lb Hlen;
    destruct lb as [ | y lb]; try discriminate Hlen; cbn.
  - split; [constructor | reflexivity].
  - rewrite andb_true_iff, IH by (cbn in Hlen; lia). split.
    + intros [H1 H2]. constructor; assumption.
    + intros H. inversion H; subst. split; assumption.
Qed.

(** X15: on two DataBase whose [length] is their number of arrays, [==]
    never raises, and it is True exactly when the names are equal, the
    two hold the same number of arrays, and the arrays at the same place
    have the same shape and are close ([np.allclose] of the first against
    the second); origin, labels, source and dim play no part. *)
Theorem X15_database_eq (a b : DataBase.t) :
  DataBase._length a = len (DataBase._data a) ->
  DataBase._length b = len (DataBase._data b) ->
  (exists r, DataBase.__eq__ a b = Ok r)
  /\ (DataBase.__eq__ a b = Ok true
      <-> DataBase._name a = DataBase._name b
          /\ Forall2 (fun x y => Np.shape x = Np.shape y
                                 /\ DataBase.allclose x y = true)
               (DataBase._data a) (DataBase._data b)).
Proof.
  intros Ha Hb.
  assert (Hspec :
    DataBase.__eq__ a b
    = Ok (String.eqb (DataBase._name a) (DataBase._name b)
          && (len (DataBase._data a) =? len (DataBase._data b))
          && forallb (fun p => arrays_equal (fst p) (snd p))
               (combine (DataBase._data a) (DataBase._data b)))).
  { unfold DataBase.__eq__, DataBase.name, DataBase.__len__, DataBase.length.
    rewrite Ha, Hb.
    destruct (String.eqb (DataBase._name a) (DataBase._name b));
      cbn [andb negb]; [ | reflexivity].
    destruct (Z.eqb_spec (len (DataBase._data a)) (len (DataBase._data b)))
      as [Hlen | _]; cbn [negb]; [ | reflexivity].
    rewrite range_len.
    pose proof (eq_loop_general a b Ha Hb (DataBase._data a)
                  (DataBase._data b) [] [] true eq_refl eq_refl eq_refl)
      as Hloop.
    cbn [app List.length] in Hloop.
    rewrite Hloop; [reflexivity | unfold len in Hlen; lia]. }
  split; [rewrite Hspec; eexists; reflexivity | ].
  rewrite Hspec. split.
  - intros H. injection H as H.
    apply andb_true_iff in H. destruct H as [H H3].
    apply andb_true_iff in H. destruct H as [H1 H2].
    apply String.eqb_eq in H1. apply Z.eqb_eq in H2.
    split; [exact H1 | ].
    apply forallb_combine_Forall2 in H3; [ | unfold len in H2; lia].
    eapply Forall2_impl; [ | exact H3].
    intros x y Hxy. unfold arrays_equal in Hxy.
    apply andb_true_iff in Hxy. destruct Hxy as [Hs Hc].
    apply shape_eqb_eq in Hs. split; assumption.
  - intros [Hn H2].
    assert (Hlen : List.length (DataBase._data a)
                   = List.length (DataBase._data b))
      by (eapply Forall2_length; exact H2).
    apply String.eqb_eq in Hn. rewrite Hn. unfold len. rewrite Hlen.
    rewrite Z.eqb_refl. cbn [andb]. f_equal.
    apply forallb_combine_Forall2; [exact Hlen | ].
    eapply Forall2_impl; [ | exact H2].
    intros x y [Hs Hc]. unfold arrays_equal. rewrite Hs, shape_eqb_refl, Hc.
    reflexivity.
Qed.

Lemma X15_database_eq_witness :
  DataBase.__eq__ Examples.db_one Examples.db_big = Ok true
  <-> DataBase._name Examples.db_one = DataBase._name Examples.db_big
      /\ Forall2 (fun x y => Np.shape x = Np.shape y
                             /\ DataBase.allclose x y = true)
           (DataBase._data Examples.db_one)
           (DataBase._data Examples.db_big).
Proof.
  exact (proj2 (X15_database_eq Examples.db_one Examples.db_big
                  eq_refl eq_refl)).
Defined.

Section AddErrors.

Variable np_broadcast :
  (float -> float -> float) -> Np.ndarray -> Np.ndarray -> result Np.ndarray.

Lemma add_loop_general (self other a : DataBase.t) :
  DataBase._length self = len (DataBase._data self) ->
  DataBase._length other = len (DataBase._data other) ->
  DataBase._length a = len (DataBase._data self) ->
  forall ss so ps po pre,
    Forall (fun x => Np.shape x = DataBase._shape a) ss ->
    DataBase._data self = ps ++ ss ->
    DataBase._data other = po ++ so ->
    List.length po = List.length ps ->
    List.length pre = List.length ps ->
    List.length so = List.length ss ->
    DataBase.add_loop np_broadcast self other
      (DataBase.with_data a (pre ++ ss))
      (map Z.of_nat (seq (List.length ps) (List.length ss)))
    = if forallb (fun p => Np.shape_eqb (Np.shape (fst p)) (Np.shape (snd p)))
           (combine ss so)
      then Ok (DataBase.with_data a (pre ++ zipw PrimFloat.add ss so))
      else Raise ValueError.
Proof.
  intros Hls Hlo Hla ss.
  induction ss as [ | x ss IH]; intros so ps po pre Hsh Hs Ho Hpo Hpre Hso.
  - destruct so; reflexivity.
  - destruct so as [ | y so]; [discriminate Hso | ].
    inversion Hsh as [ | ? ? Hx Hss]; subst.
    cbn [List.length seq map DataBase.add_loop combine forallb fst snd].
    rewrite (getitem_middle self ps x ss Hs Hls). cbn [bind].
    rewrite <- Hpo.
    rewrite (getitem_middle other po y so Ho Hlo). cbn [bind].
    destruct (Np.shape_eqb (Np.shape x) (Np.shape y)) eqn:Exy;
      cbn [negb andb]; [ | reflexivity].
    unfold DataBase.np_binop. rewrite Exy. cbn [bind].
    rewrite Hpo, <- Hpre.
    rewrite setitem_middle;
      [ | rewrite Hla, Hs; unfold len; rewrite !length_app; cbn; lia
        | cbn; congruence ].
    cbn [bind].
    specialize (IH so (ps ++ [x]) (po ++ [y])
                  (pre ++ [Np.mk_ndarray (Np.shape x)
                             (Np.map2 PrimFloat.add (Np.flat x) (Np.flat y))])).
    rewrite !length_app in IH. cbn [List.length] in IH.
    rewrite <- !app_assoc in IH. cbn [app] in IH.
    rewrite Hpre, <- (Nat.add_1_r (List.length ps)).
    rewrite IH; try assumption; try lia.
    + reflexivity.
    + cbn in Hso. lia.
Qed.

(** X16: for a DataBase [a] as its constructor leaves it and a DataBase
    [b] whose [length] is its number of arrays: [a + b] and [a - b] raise
    TypeError when the lengths differ; with equal lengths [a + b] raises
    ValueError as soon as two arrays at the same place differ in shape,
    and otherwise is [a] with every array replaced by the element-wise
    sum. *)
Theorem X16_database_add_outcomes (a b : DataBase.t) :
  DataBase_wf a ->
  DataBase._length b = len (DataBase._data b) ->
  (DataBase.__len__ a <> DataBase.__len__ b ->
   DataBase.__add__ np_broadcast a b = Raise TypeError
   /\ DataBase.__sub__ np_broadcast a b = Raise TypeError)
  /\ (DataBase.__len__ a = DataBase.__len__ b ->
      ~ Forall2 (fun x y => Np.shape x = Np.shape y)
          (DataBase.data a) (DataBase.data b) ->
      DataBase.__add__ np_broadcast a b = Raise ValueError)
  /\ (DataBase.__len__ a = DataBase.__len__ b ->
      Forall2 (fun x y => Np.shape x = Np.shape y)
        (DataBase.data a) (DataBase.data b) ->
      DataBase.__add__ np_broadcast a b
      = Ok (DataBase.with_data a
              (zipw PrimFloat.add (DataBase.data a) (DataBase.data b)))).
Proof.
  intros [Hla Hsh] Hlb.
  assert (Hadd : DataBase.__len__ a = DataBase.__len__ b ->
            DataBase.__add__ np_broadcast a b
            = if forallb (fun p => Np.shape_eqb (Np.shape (fst p))
                                     (Np.shape (snd p)))
                   (combine (DataBase._data a) (DataBase._data b))
              then Ok (DataBase.with_data a
                         (zipw PrimFloat.add (DataBase._data a)
                            (DataBase._data b)))
              else Raise ValueError).
  { intros Hlen. unfold DataBase.__add__, deepcopy.
    rewrite <- Hlen, Z.eqb_refl.
    unfold DataBase.__len__, DataBase.length in *. rewrite Hla, range_len.
    pose proof (add_loop_general a b a Hla Hlb Hla (DataBase._data a)
                  (DataBase._data b) [] [] [] Hsh eq_refl eq_refl eq_refl
                  eq_refl) as Hloop.
    cbn [app List.length] in Hloop. rewrite with_data_same in Hloop.
    apply Hloop. rewrite Hla, Hlb in Hlen. unfold len in Hlen. lia. }
  assert (Hn : DataBase.__len__ a = DataBase.__len__ b ->
               List.length (DataBase._data a) = List.length (DataBase._data b)).
  { unfold DataBase.__len__, DataBase.length. rewrite Hla, Hlb.
    unfold len. lia. }
  split; [ | split].
  - intros Hne. unfold DataBase.__add__, DataBase.__sub__.
    destruct (Z.eqb_spec (DataBase.__len__ b) (DataBase.__len__ a));
      [congruence | split; reflexivity].
  - intros Hlen Hnot. rewrite (Hadd Hlen).
    destruct (forallb _ _) eqn:E; [ | reflexivity].
    exfalso. apply Hnot.
    apply (forallb_combine_Forall2
             (fun x y => Np.shape_eqb (Np.shape x) (Np.shape y))) in E;
      [ | exact (Hn Hlen)].
    eapply Forall2_impl; [ | exact E].
    intros x y Hxy. apply shape_eqb_eq. exact Hxy.
  - intros Hlen H2. rewrite (Hadd Hlen).
    assert (E : forallb (fun p => Np.shape_eqb (Np.shape (fst p))
                                    (Np.shape (snd p)))
                  (combine (DataBase._data a) (DataBase._data b)) = true).
    { apply (forallb_combine_Forall2
               (fun x y => Np.shape_eqb (Np.shape x) (Np.shape y)));
        [exact (Hn Hlen) | ].
      eapply Forall2_impl; [ | exact H2].
      intros x y Hxy. apply shape_eqb_eq. exact Hxy. }
    rewrite E. reflexivity.
Qed.

End AddErrors.

Lemma X16_database_add_outcomes_witness :
  DataBase.__add__ no_broadcast Examples.db_one
    (DataBase.mk "c" None raw uniform (Some Data1D)
       [Np.zeros [2]] [2] 2 1 ["CH00"%string])
  = Raise ValueError.
Proof.
  apply (proj1 (proj2
           (X16_database_add_outcomes no_broadcast Examples.db_one
              (DataBase.mk "c" None raw uniform (Some Data1D)
                 [Np.zeros [2]] [2] 2 1 ["CH00"%string])
              ltac:(split; [reflexivity | repeat constructor])
              eq_refl))).
  - reflexivity.
  - intros H. inversion H as [ | ? ? ? ? Hxy _]; subst. discriminate Hxy.
Defined.

(** ** DataWithAxes.__init__ *)

(** X17: a successful construction of a DataWithAxes is the construction
    of its DataBase followed by the one of an AxesManager on the shape of
    the data, with the [nav_indexes] given and no [sig_indexes]; the
    dimensionality is the one of the DataBase when [nav_indexes] is empty
    and DataND as soon as there is a navigation index, whatever the
    shape. *)
Theorem X17_datawithaxes_init (name : string) (source : DataSource)
    (dim : option DataDim) (distribution : DataDistribution)
    (d : DataBase.data_arg) (labels : list string) (origin : option string)
    (axes : list Axis.t) (nav : list Z) (kw : AxesManager.named_axes)
    (self : DataWithAxes.t) :
  DataWithAxes.__init__ name source dim distribution d labels origin axes
    (Some nav) kw = Ok self ->
  exists b am,
    DataBase.__init__ name source dim distribution d labels origin = Ok b
    /\ AxesManager.__init__ (DataBase.shape b) axes (Some nav) None kw = Ok am
    /\ DataWithAxes.axes_manager self = am
    /\ DataWithAxes.nav_indexes self = Some nav
    /\ DataWithAxes.base self
       = match nav with
         | [] => b
         | _ :: _ => DataBase.with_dim b (Some DataND)
         end
    /\ DataBase.dim (DataWithAxes.base self)
       = match nav with
         | [] => DataBase.dim b
         | _ :: _ => Some DataND
         end.
Proof.
  unfold DataWithAxes.__init__. intros H.
  destruct (DataBase.__init__ name source dim distribution d labels origin)
    as [b | ] eqn:Eb; cbn [bind] in H; [ | discriminate H].
  destruct (AxesManager.__init__ (DataBase.shape b) axes (Some nav) None kw)
    as [am | ] eqn:Eam; cbn [bind] in H; [ | discriminate H].
  destruct (init_nav_indexes_verbatim _ _ _ _ _ _ Eam) as [Hnav _].
  unfold DataWithAxes.get_dim_from_data_axes, DataWithAxes.nav_indexes,
    AxesManager.nav_indexes in H.
  cbn [DataWithAxes.axes_manager DataWithAxes.base] in H. rewrite Hnav in H.
  exists b, am. split; [reflexivity | ]. split; [exact Eam | ].
  destruct nav as [ | i nav].
  - cbn in H. injection H as <-. repeat split. exact Hnav.
  - assert (Hpos : (len (i :: nav) >? 0) = true).
    { unfold len. cbn [List.length]. apply Z.gtb_lt. lia. }
    rewrite Hpos in H. injection H as <-. repeat split. exact Hnav.
Qed.

Lemma X17_datawithaxes_init_witness :
  exists b am,
    DataBase.__init__ "d" raw None uniform
      (DataBase.DataList [Np.zeros [5]]) [] None = Ok b
    /\ AxesManager.__init__ (DataBase.shape b) [Examples.ax0] (Some [0]) None
         AxesManager.no_named_axes = Ok am
    /\ DataBase.dim b = Some Data1D
    /\ exists self,
         DataWithAxes.__init__ "d" raw None uniform
           (DataBase.DataList [Np.zeros [5]]) [] None [Examples.ax0]
           (Some [0]) AxesManager.no_named_axes = Ok self
         /\ DataBase.dim (DataWithAxes.base self) = Some DataND.
Proof.
  destruct (DataWithAxes.__init__ "d" raw None uniform
              (DataBase.DataList [Np.zeros [5]]) [] None [Examples.ax0]
              (Some [0]) AxesManager.no_named_axes) as [self | ] eqn:E;
    [ | discriminate E].
  destruct (X17_datawithaxes_init _ _ _ _ _ _ _ _ _ _ _ E)
    as [b [am [Hb [Ham [_ [_ [_ Hdim]]]]]]].
  exists b, am. split; [exact Hb | ]. split; [exact Ham | ].
  split.
  - vm_compute in Hb. injection Hb as <-. reflexivity.
  - exists self. split; [reflexivity | exact Hdim].
Defined.

(** ** DataToExport: origins and names *)

(** X18: [affect_name_to_origin_if_none] leaves no member without origin,
    does not touch a member that has one, and is idempotent. *)
Theorem X18_affect_name_idempotent (self : DataToExport.t) :
  let after := DataToExport.affect_name_to_origin_if_none self in
  Forall (fun m => DataWithAxes.origin m <> None) (DataToExport.data after)
  /\ Forall2 (fun m m' =>
                DataWithAxes.name m' = DataWithAxes.name m
                /\ (DataWithAxes.origin m <> None -> m' = m)
                /\ (DataWithAxes.origin m = None ->
                    DataWithAxes.origin m' = Some (DataToExport.name self)))
       (DataToExport.data self) (DataToExport.data after)
  /\ DataToExport.affect_name_to_origin_if_none after = after.
Proof.
  cbv zeta. unfold DataToExport.affect_name_to_origin_if_none.
  cbn [DataToExport.data DataToExport._data DataToExport.name
       DataToExport._name].
  unfold DataToExport.name, DataToExport.data.
  induction (DataToExport._data self) as [ | m l IH]; cbn [map].
  - repeat split; constructor.
  - destruct IH as [IH1 [IH2 IH3]]. injection IH3 as IH3.
    destruct (DataWithAxes.origin m) as [o | ] eqn:Eo.
    + split; [ | split].
      * constructor; [congruence | exact IH1].
      * constructor; [ | exact IH2]. repeat split. congruence.
      * rewrite Eo. f_equal. f_equal. exact IH3.
    + split; [ | split].
      * constructor; [discriminate | exact IH1].
      * constructor; [ | exact IH2]. repeat split. congruence.
      * cbn. f_equal. f_equal. exact IH3.
Qed.

Lemma X18_affect_name_idempotent_witness :
  DataToExport.affect_name_to_origin_if_none
    (DataToExport.affect_name_to_origin_if_none
       (DataToExport.mk "toexp"
          [Examples.dwa "a" None 1; Examples.dwa "b" (Some "det"%string) 2]))
  = DataToExport.affect_name_to_origin_if_none
      (DataToExport.mk "toexp"
         [Examples.dwa "a" None 1; Examples.dwa "b" (Some "det"%string) 2]).
Proof.
  exact (proj2 (proj2 (X18_affect_name_idempotent
                         (DataToExport.mk "toexp"
                            [Examples.dwa "a" None 1;
                             Examples.dwa "b" (Some "det"%string) 2])))).
Defined.

Lemma first_match_last {A : Type} (p : A -> bool) (l : list A) (x : A)
    (ind : Z) :
  Forall (fun m => p m = false) l -> p x = true ->
  first_match p (l ++ [x]) ind = Some (x, ind + len l).
Proof.
  intros H Hx. revert ind. induction H as [ | m l Hm Hl IH]; intros ind; cbn.
  - rewrite Hx. f_equal. f_equal. unfold len. cbn. lia.
  - rewrite Hm, IH. f_equal. f_equal. unfold len. cbn [List.length]. lia.
Qed.

(** Removing members keeps the names pairwise distinct. *)
Lemma names_distinct_filter (keep : DataWithAxes.t -> bool)
    (members : list DataWithAxes.t) :
  NoDup (map DataWithAxes.name members) ->
  NoDup (map DataWithAxes.name (filter keep members)).
Proof.
  induction members as [ | m rest IH]; cbn [map filter]; intros Hnd.
  - constructor.
  - apply NoDup_cons_iff in Hnd. destruct Hnd as [Hm Hrest].
    destruct (keep m); [ | exact (IH Hrest)].
    cbn [map]. apply NoDup_cons; [ | exact (IH Hrest)].
    intros Hin. apply Hm. apply in_map_iff in Hin.
    destruct Hin as [m' [Hname Hin]]. apply filter_In in Hin.
    apply in_map_iff. exists m'. split; [exact Hname | apply Hin].
Qed.

Lemma filter_none {A : Type} (p : A -> bool) (l : list A) :
  Forall (fun m => p m = false) l -> filter p l = [].
Proof.
  induction 1 as [ | m l Hm Hl IH]; cbn; [reflexivity | ].
  rewrite Hm. exact IH.
Qed.

(** X19: when the names of the members are pairwise distinct, appending a
    DataWithAxes [x] without origin replaces by name: the member named as
    [x], if there is one, is removed, every other member is kept in its
    place, and [x] is added at the end.  The names stay pairwise distinct,
    and a lookup by the name of [x] then returns [x]. *)
Theorem X19_append_replaces_by_name (self : DataToExport.t)
    (x : DataWithAxes.t) :
  Forall member_wf (DataToExport.data self) ->
  NoDup (map DataWithAxes.name (DataToExport.data self)) ->
  DataWithAxes.origin x = None ->
  exists d,
    DataToExport.append self x = Ok d
    /\ DataToExport.data d
       = filter (fun m => negb (String.eqb (DataWithAxes.name m)
                                  (DataWithAxes.name x)))
           (DataToExport.data self) ++ [x]
    /\ NoDup (map DataWithAxes.name (DataToExport.data d))
    /\ DataToExport.get_data_from_name_origin d (DataWithAxes.name x) None
       = Some (x, len (DataToExport.data d) - 1).
Proof.
  intros Hwf Hnd Ho.
  set (keep := fun m => negb (String.eqb (DataWithAxes.name m)
                            (DataWithAxes.name x))).
  assert (Hkey : forall m, key_match x m = negb (keep m)).
  { intros m. unfold key_match, keep. rewrite Ho, andb_true_r, negb_involutive.
    reflexivity. }
  assert (Hdata : exists d,
             DataToExport.append self x = Ok d
             /\ DataToExport.data d = filter keep (DataToExport.data self) ++ [x]).
  { destruct (append_spec self x Hwf) as [[Hall Happ] | Hsome].
    - eexists. split; [exact Happ | ]. cbn. f_equal. symmetry.
      apply filter_all. rewrite Forall_forall in Hall. intros m Hm.
      specialize (Hall m Hm). rewrite Hkey in Hall.
      destruct (keep m); [reflexivity | discriminate Hall].
    - destruct Hsome as [pre [obj [suf [i [Hd [Hk [Hpre [_ [Happ Hlast]]]]]]]]].
      rewrite Hkey in Hk.
      assert (Hname : DataWithAxes.name obj = DataWithAxes.name x).
      { unfold keep in Hk. rewrite negb_involutive in Hk.
        apply String.eqb_eq. exact Hk. }
      assert (Hi : i = List.length pre).
      { apply Hlast. eapply Forall_impl; [ | exact Hpre].
        intros m Hm. apply member_eq_other_name. rewrite Hname.
        cbn beta in Hm. rewrite Hkey in Hm. unfold keep in Hm. rewrite negb_involutive in Hm.
        apply String.eqb_neq. exact Hm. }
      subst i. eexists. split; [exact Happ | ].
      unfold DataToExport.data in *. cbn [DataToExport._data].
      rewrite Hd, pop_middle. f_equal.
      rewrite filter_app. cbn [filter].
      assert (Hko : keep obj = false) by (destruct (keep obj); [discriminate Hk | reflexivity]).
      rewrite Hko. f_equal.
      + symmetry. apply filter_all. rewrite Forall_forall in Hpre.
        intros m Hm. specialize (Hpre m Hm). rewrite Hkey in Hpre.
        destruct (keep m); [reflexivity | discriminate Hpre].
      + symmetry. apply filter_all. intros m Hm.
        rewrite Hd, map_app in Hnd.
        cbn [map] in Hnd. apply NoDup_remove_2 in Hnd.
        unfold keep. apply negb_true_iff. apply String.eqb_neq.
        intros Heq. apply Hnd. apply in_or_app. right.
        rewrite Hname, <- Heq. apply in_map. exact Hm. }
  destruct Hdata as [d [Happ Hd]]. exists d.
  assert (Hnone : Forall (fun m => key_match x m = false)
                    (filter keep (DataToExport.data self))).
  { apply Forall_forall. intros m Hm. apply filter_In in Hm.
    rewrite Hkey. destruct Hm as [_ Hm]. rewrite Hm. reflexivity. }
  assert (Hxx : key_match x x = true).
  { unfold key_match. rewrite Ho, String.eqb_refl. reflexivity. }
  split; [exact Happ | ]. split; [exact Hd | ]. split.
  - rewrite Hd, map_app. cbn [map].
    apply NoDup_app; [apply names_distinct_filter; exact Hnd
                     | constructor; [intros [] | constructor] | ].
    intros n Hn [Hx | []]. subst n.
    apply in_map_iff in Hn. destruct Hn as [m [Hmn Hm]].
    apply filter_In in Hm. destruct Hm as [_ Hm]. unfold keep in Hm.
    apply negb_true_iff in Hm. apply String.eqb_neq in Hm. contradiction.
  - rewrite <- Ho. rewrite get_data_from_name_origin_spec, Hd.
    rewrite (first_match_last _ _ x 0 Hnone Hxx). f_equal. f_equal.
    unfold len. rewrite length_app. cbn [List.length]. lia.
Qed.

Lemma X19_append_replaces_by_name_witness :
  exists d,
    DataToExport.append
      (DataToExport.mk "toexp"
         [Examples.dwa "a" (Some "toexp"%string) 1;
          Examples.dwa "b" (Some "toexp"%string) 2])
      (Examples.dwa "a" None 3) = Ok d
    /\ DataToExport.data d
       = filter (fun m => negb (String.eqb (DataWithAxes.name m) "a"))
           [Examples.dwa "a" (Some "toexp"%string) 1;
            Examples.dwa "b" (Some "toexp"%string) 2]
         ++ [Examples.dwa "a" None 3].
Proof.
  destruct (X19_append_replaces_by_name
              (DataToExport.mk "toexp"
                 [Examples.dwa "a" (Some "toexp"%string) 1;
                  Examples.dwa "b" (Some "toexp"%string) 2])
              (Examples.dwa "a" None 3))
    as [d [Happ [Hd _]]].
  - repeat constructor.
  - cbn. repeat constructor; cbn; intuition discriminate.
  - reflexivity.
  - exists d. split; [exact Happ | exact Hd].
Defined.

(** ** DataWithAxes._compute_slices *)

Lemma explicit_items_app (l1 l2 : list DataWithAxes.index_item) :
  explicit_items (l1 ++ l2) = explicit_items l1 ++ explicit_items l2.
Proof. unfold explicit_items. apply flat_map_app. Qed.

Lemma adjacent_ellipsis_snoc_item (l : list DataWithAxes.index_item)
    (s : slice_arg) :
  adjacent_ellipsis (l ++ [DataWithAxes.Item s]) = adjacent_ellipsis l.
Proof.
  induction l as [ | it r IH]; [reflexivity | ].
  destruct r as [ | it2 r'].
  - destruct it; reflexivity.
  - cbn [app adjacent_ellipsis] in *. destruct it, it2; try exact IH.
    reflexivity.
Qed.

Lemma adjacent_ellipsis_snoc_ellipsis (l : list DataWithAxes.index_item) :
  adjacent_ellipsis (l ++ [DataWithAxes.Ellipsis])
  = adjacent_ellipsis l
    || (negb (len l =? 0)
        && DataWithAxes.is_Ellipsis (last l DataWithAxes.Ellipsis)).
Proof.
  induction l as [ | it r IH]; [reflexivity | ].
  destruct r as [ | it2 r'].
  - destruct it; reflexivity.
  - assert (Hl : forall (x : DataWithAxes.index_item) (t : list DataWithAxes.index_item),
               negb (len (x :: t) =? 0) = true).
    { intros x t. unfold len. cbn [List.length].
      destruct (Z.eqb_spec (Z.of_nat (S (List.length t))) 0); [lia | reflexivity]. }
    rewrite Hl in *. cbn [andb] in *.
    change (last (it :: it2 :: r') DataWithAxes.Ellipsis)
      with (last (it2 :: r') DataWithAxes.Ellipsis).
    cbn [app adjacent_ellipsis] in *.
    destruct it, it2; try exact IH. reflexivity.
Qed.

Lemma compute_slices_loop_spec (idx : list Z) (inds : list Z) :
  forall (slices : list slice_arg) (total : list DataWithAxes.index_item),
    let k := List.length (filter (fun i => Zmem i idx) inds) in
    ((k <= List.length slices)%nat ->
     exists res,
       DataWithAxes.compute_slices_loop idx inds slices total = Ok res
       /\ explicit_items res = explicit_items total ++ firstn k slices
       /\ (adjacent_ellipsis total = false -> adjacent_ellipsis res = false))
    /\ ((List.length slices < k)%nat ->
        DataWithAxes.compute_slices_loop idx inds slices total
        = Raise IndexError).
Proof.
  induction inds as [ | ind rest IH]; intros slices total; cbv zeta.
  - cbn [filter List.length DataWithAxes.compute_slices_loop]. split.
    + intros _. exists total. rewrite firstn_O, app_nil_r. auto.
    + intros H. lia.
  - cbn [filter DataWithAxes.compute_slices_loop].
    destruct (Zmem ind idx).
    + cbn [List.length]. destruct slices as [ | s slices'].
      * split; [cbn; lia | reflexivity].
      * destruct (IH slices' (total ++ [DataWithAxes.Item s])) as [IH1 IH2].
        split.
        -- intros Hk. cbn [List.length] in Hk.
           destruct (IH1 ltac:(lia)) as [res [Hres [Hex Hadj]]].
           exists res. split; [exact Hres | ]. split.
           ++ rewrite Hex, explicit_items_app, <- app_assoc. reflexivity.
           ++ intros Ht. apply Hadj.
              rewrite adjacent_ellipsis_snoc_item. exact Ht.
        -- intros Hk. cbn [List.length] in Hk. apply IH2. lia.
    + destruct ((len total =? 0)
                || negb (DataWithAxes.is_Ellipsis
                           (last total DataWithAxes.Ellipsis))) eqn:Ec.
      * destruct (IH slices (total ++ [DataWithAxes.Ellipsis])) as [IH1 IH2].
        split; [ | exact IH2].
        intros Hk. destruct (IH1 Hk) as [res [Hres [Hex Hadj]]].
        exists res. split; [exact Hres | ]. split.
        -- rewrite Hex, explicit_items_app. cbn. rewrite app_nil_r.
           reflexivity.
        -- intros Ht. apply Hadj.
           rewrite adjacent_ellipsis_snoc_ellipsis, Ht. cbn [orb].
           destruct (len total =? 0); [reflexivity | ].
           cbn [orb negb andb] in *.
           destruct (DataWithAxes.is_Ellipsis (last total DataWithAxes.Ellipsis));
             [discriminate Ec | reflexivity].
      * exact (IH slices total).
Qed.

(** X20: with [k] the number of dimensions that are navigation (or
    signal) indices, [_compute_slices] raises IndexError when fewer than
    [k] slices are given.  Otherwise the tuple it builds holds, apart from
    its Ellipsis entries, the first [k] slices given in their order
    (slices in excess are ignored), and no two Ellipsis stand side by
    side: a run of other dimensions is filled by a single Ellipsis. *)
Theorem X20_compute_slices (self : DataWithAxes.t) (slices : list slice_arg)
    (is_navigation : bool) (idx : list Z) :
  (if is_navigation
   then AxesManager.nav_indexes (DataWithAxes.axes_manager self)
   else AxesManager.sig_indexes (DataWithAxes.axes_manager self)) = Some idx ->
  let targeted :=
    filter (fun i => Zmem i idx)
      (range (len (DataBase.shape (DataWithAxes.base self)))) in
  ((List.length targeted <= List.length slices)%nat ->
   exists total,
     DataWithAxes._compute_slices self slices is_navigation = Ok total
     /\ explicit_items total = firstn (List.length targeted) slices
     /\ adjacent_ellipsis total = false)
  /\ ((List.length slices < List.length targeted)%nat ->
      DataWithAxes._compute_slices self slices is_navigation
      = Raise IndexError).
Proof.
  intros Hidx targeted. unfold DataWithAxes._compute_slices. rewrite Hidx.
  destruct (compute_slices_loop_spec idx
              (range (len (DataBase.shape (DataWithAxes.base self))))
              slices []) as [H1 H2].
  split; [ | exact H2].
  intros Hk. destruct (H1 Hk) as [res [Hres [Hex Hadj]]].
  exists res. split; [exact Hres | ]. split; [exact Hex | ].
  apply Hadj. reflexivity.
Qed.

Lemma X20_compute_slices_witness :
  exists total,
    DataWithAxes._compute_slices
      (DataWithAxes.mk
         (DataBase.mk "d" None raw uniform (Some DataND) [Np.zeros [2; 3; 4]]
            [2; 3; 4] 24 1 ["CH00"%string])
         (AxesManager.mk [2; 3; 4] [] (Some [1]) (Some [0; 2])))
      [SInt 0] true = Ok total
    /\ total = [DataWithAxes.Ellipsis; DataWithAxes.Item (SInt 0);
                DataWithAxes.Ellipsis].
Proof.
  destruct (proj1 (X20_compute_slices
                     (DataWithAxes.mk
                        (DataBase.mk "d" None raw uniform (Some DataND)
                           [Np.zeros [2; 3; 4]] [2; 3; 4] 24 1
                           ["CH00"%string])
                        (AxesManager.mk [2; 3; 4] [] (Some [1])
                           (Some [0; 2])))
                     [SInt 0] true [1] eq_refl)
              ltac:(vm_compute; lia))
    as [total [Ht _]].
  exists total. split; [exact Ht | ].
  vm_compute in Ht. injection Ht as <-. reflexivity.
Defined.

(** ** DataToExport: full names *)

Lemma split_slash_no_slash (s : string) :
  no_slash s = true -> DataToExport.split_slash s = [s].
Proof.
  induction s as [ | c r IH]; cbn; intros H; [reflexivity | ].
  apply andb_true_iff in H. destruct H as [Hc Hr].
  apply negb_true_iff in Hc. rewrite Hc, (IH Hr). reflexivity.
Qed.

Lemma split_slash_cut (o n : string) :
  no_slash o = true -> no_slash n = true ->
  DataToExport.split_slash (o ++ String slash n)%string = [o; n].
Proof.
  intros Ho Hn. induction o as [ | c r IH]; cbn [String.append].
  - cbn [DataToExport.split_slash]. rewrite Ascii.eqb_refl.
    rewrite (split_slash_no_slash n Hn). reflexivity.
  - cbn [no_slash] in Ho. apply andb_true_iff in Ho. destruct Ho as [Hc Hr].
    apply negb_true_iff in Hc. cbn [DataToExport.split_slash].
    rewrite Hc, (IH Hr). reflexivity.
Qed.

Lemma split_slash_full_name (o n : string) :
  no_slash o = true -> no_slash n = true ->
  DataToExport.split_slash (o ++ "/" ++ n)%string = [o; n].
Proof. exact (split_slash_cut o n). Qed.

(** With pairwise distinct (name, origin) pairs, looking a member up by
    its own name and origin finds that member. *)
Lemma lookup_own_key (self : DataToExport.t) (m : DataWithAxes.t)
    (o : string) :
  NoDup (map member_key (DataToExport.data self)) ->
  In m (DataToExport.data self) ->
  DataWithAxes.origin m = Some o ->
  exists pos,
    DataToExport.get_data_from_name_origin self (DataWithAxes.name m) (Some o)
    = Some (m, pos).
Proof.
  intros Hnd Hin Ho. rewrite <- Ho, get_data_from_name_origin_spec.
  apply in_split in Hin. destruct Hin as [pre [suf Hd]].
  rewrite Hd. eexists. apply first_match_middle.
  - apply Forall_forall. intros m' Hm'. apply not_true_false. intros Hk.
    apply (key_match_set_origin m m' o Ho) in Hk. destruct Hk as [Hn Hor].
    rewrite Hd, map_app in Hnd. cbn [map] in Hnd.
    apply NoDup_remove_2 in Hnd. apply Hnd. apply in_or_app. left.
    replace (member_key m) with (member_key m')
      by (unfold member_key; rewrite Hn, Hor, Ho; reflexivity).
    apply in_map. exact Hm'.
  - unfold key_match. rewrite Ho, String.eqb_refl. cbn.
    apply String.eqb_refl.
Qed.

(** X21: for a DataToExport whose members all have an origin, with names
    and origins free of slashes and pairwise distinct (name, origin)
    pairs, the full names are a faithful key: fetching the members by the
    list of full names gives back a DataToExport equal to the one the
    names came from, members in the same order. *)
Theorem X21_full_names_round_trip (self : DataToExport.t) :
  Forall (fun m => exists o,
              DataWithAxes.origin m = Some o
              /\ no_slash o = true
              /\ no_slash (DataWithAxes.name m) = true)
    (DataToExport.data self) ->
  NoDup (map member_key (DataToExport.data self)) ->
  DataToExport.get_data_from_full_names self (DataToExport.get_full_names self)
  = Ok self.
Proof.
  intros Hall Hnd. unfold DataToExport.get_data_from_full_names,
    DataToExport.get_full_names.
  assert (Hlook : forall sub,
             incl sub (DataToExport.data self) ->
             DataToExport.lookup_full_names self
               (map DataWithAxes.get_full_name sub)
             = Ok (map Some sub)).
  { induction sub as [ | m sub IH]; intros Hincl; [reflexivity | ].
    cbn [map DataToExport.lookup_full_names].
    assert (Hm : In m (DataToExport.data self))
      by (apply Hincl; left; reflexivity).
    rewrite Forall_forall in Hall.
    destruct (Hall m Hm) as [o [Ho [Hso Hsn]]].
    assert (Hfn : DataToExport.split_slash (DataWithAxes.get_full_name m)
                  = [o; DataWithAxes.name m]).
    { unfold DataWithAxes.get_full_name, DataBase.get_full_name.
      unfold DataWithAxes.origin in Ho. rewrite Ho.
      exact (split_slash_full_name o _ Hso Hsn). }
    rewrite Hfn.
    replace (getitem [o; DataWithAxes.name m] 1)
      with (Ok (DataWithAxes.name m)) by reflexivity.
    replace (getitem [o; DataWithAxes.name m] 0)
      with (Ok o) by reflexivity.
    cbn [bind].
    destruct (lookup_own_key self m o Hnd Hm Ho) as [pos Hpos].
    rewrite Hpos.
    rewrite IH; [reflexivity | ].
    intros z Hz. apply Hincl. right. exact Hz. }
  rewrite (Hlook _ (incl_refl _)). cbn [bind].
  assert (Hcheck : forall l : list DataWithAxes.t,
             DataToExport.check_members (map Some l) = Ok l).
  { induction l as [ | m l IH]; [reflexivity | ].
    cbn. rewrite IH. reflexivity. }
  rewrite Hcheck. cbn [bind]. f_equal.
  unfold DataToExport.__init__, DataToExport.set_data,
    DataToExport.affect_name_to_origin_if_none.
  cbn [DataToExport.data DataToExport._data DataToExport.name
       DataToExport._name].
  destruct self as [nm dt]. cbn [DataToExport.name DataToExport._name
                                 DataToExport.data DataToExport._data] in *.
  f_equal. rewrite <- (map_id dt) at 2. apply map_ext_in.
  intros m Hm. rewrite Forall_forall in Hall.
  destruct (Hall m Hm) as [o [Ho _]]. rewrite Ho. reflexivity.
Qed.

Lemma X21_full_names_round_trip_witness :
  DataToExport.get_data_from_full_names
    (DataToExport.mk "toexp"
       [Examples.dwa "a" (Some "det0"%string) 1;
        Examples.dwa "a" (Some "det1"%string) 2])
    (DataToExport.get_full_names
       (DataToExport.mk "toexp"
          [Examples.dwa "a" (Some "det0"%string) 1;
           Examples.dwa "a" (Some "det1"%string) 2]))
  = Ok (DataToExport.mk "toexp"
          [Examples.dwa "a" (Some "det0"%string) 1;
           Examples.dwa "a" (Some "det1"%string) 2]).
Proof.
  apply X21_full_names_round_trip.
  - repeat constructor; eexists; repeat split; reflexivity.
  - cbn. repeat constructor; cbn; intuition discriminate.
Defined.
